(** * Bug-fix mining and AI review pipeline: a shallow embedding

    The development follows the Python sources
      - [gerrit_AI.py]   (PatchSplitter, BugClassifier, CorpusBuilder),
      - [AI_check.py]    (ReviewLoop),
      - [utils/menifest_paeser.py] (manifest parser).

    Python [str] values are sequences of Unicode code points; effectful
    code (oracle calls, file writes, console output, exceptions) is written
    in a small state-and-exception monad over an arbitrary external world. *)

From Stdlib Require Import List NArith ZArith Bool Ascii String Lia.
From Stdlib Require Import QArith.
From Stdlib Require Import DecimalString.
Import ListNotations.

Local Open Scope N_scope.
Local Open Scope list_scope.

(* ====================================================================== *)
(** * Python strings *)
(* ====================================================================== *)

Module Py.

(** A Python 3 [str]: a list of code points. *)
Definition pystr := list N.

(** Literals are written as UTF-8 text and decoded to code points.
    [need] is the number of continuation bytes still expected, [acc] the
    bits collected so far. *)
Fixpoint utf8_decode (s : string) (need : nat) (acc : N) : pystr :=
  match s with
  | EmptyString => []
  | String a s' =>
      let b := N_of_ascii a in
      match need with
      | O =>
          if b <? 128 then b :: utf8_decode s' 0 0
          else if b <? 224 then utf8_decode s' 1 (b - 192)
          else if b <? 240 then utf8_decode s' 2 (b - 224)
          else utf8_decode s' 3 (b - 240)
      | S O => (acc * 64 + (b - 128)) :: utf8_decode s' 0 0
      | S n => utf8_decode s' n (acc * 64 + (b - 128))
      end
  end.

Definition u8 (s : string) : pystr := utf8_decode s 0 0.

Definition NL : pystr := [10].       (* "\n" *)
Definition DQUOTE : pystr := [34].   (* the ASCII double quote *)

Definition pystr_eq_dec : forall a b : pystr, {a = b} + {a <> b} :=
  list_eq_dec N.eq_dec.

(** [a == b] on strings. *)
Definition str_eqb (a b : pystr) : bool :=
  if pystr_eq_dec a b then true else false.

(** [s.startswith(p)] *)
Fixpoint startswith (p s : pystr) : bool :=
  match p, s with
  | [], _ => true
  | _ :: _, [] => false
  | a :: p', b :: s' => (a =? b) && startswith p' s'
  end.

(** [s[1:]] *)
Definition slice1 (s : pystr) : pystr := List.tl s.

(** [s.split(sep)] for a one-character separator: the result always has
    at least one element, and an empty string splits to one empty string. *)
Fixpoint split (sep : N) (s : pystr) : list pystr :=
  match s with
  | [] => [[]]
  | c :: s' =>
      if c =? sep then [] :: split sep s'
      else match split sep s' with
           | [] => [[c]]
           | l :: ls => (c :: l) :: ls
           end
  end.

(** [sep.join(l)] *)
Fixpoint join (sep : pystr) (l : list pystr) : pystr :=
  match l with
  | [] => []
  | x :: xs =>
      match xs with
      | [] => x
      | _ :: _ => x ++ sep ++ join sep xs
      end
  end.

(** [sub in s] *)
Fixpoint contains (sub s : pystr) : bool :=
  startswith sub s ||
  match s with
  | [] => false
  | _ :: s' => contains sub s'
  end.

(** [str.isspace] on one code point: general category Zs or
    bidirectional class WS, B or S. *)
Definition isspace (c : N) : bool :=
  ((9 <=? c) && (c <=? 13)) || ((28 <=? c) && (c <=? 32))
  || (c =? 133) || (c =? 160) || (c =? 5760)
  || ((8192 <=? c) && (c <=? 8202))
  || (c =? 8232) || (c =? 8233) || (c =? 8239) || (c =? 8287)
  || (c =? 12288).

(** [s.lstrip()], [s.rstrip()], [s.strip()] *)
Fixpoint lstrip (s : pystr) : pystr :=
  match s with
  | [] => []
  | c :: s' => if isspace c then lstrip s' else s
  end.

Definition rstrip (s : pystr) : pystr := rev (lstrip (rev s)).

Definition strip (s : pystr) : pystr := rstrip (lstrip s).

(** Truthiness of a string: [not s] is [true] exactly for the empty one. *)
Definition truthy (s : pystr) : bool :=
  match s with [] => false | _ :: _ => true end.

(** [str(z)] / [f"{z}"] for an [int]. *)
Definition str_of_int (z : Z) : pystr :=
  u8 (NilEmpty.string_of_int (Z.to_int z)).

(** ** [int(s)] for a string argument (base 10)

    CPython first rewrites the string to ASCII
    ([_PyUnicode_TransformDecimalAndSpaceToASCII]): code points below 127
    stay, a Unicode space becomes a blank, a Unicode decimal digit becomes
    the ASCII digit of its value, and the first other character becomes a
    question mark that ends the text.  The result is read by
    [PyLong_FromString]: blanks, an optional sign, digits with single
    underscores between them, blanks, end of text.

    Two facts of the interpreter are parameters: the decimal-digit table of
    its Unicode database ([to_decimal], consulted only for code points from
    127 on) and [sys.get_int_max_str_digits()] ([max_str_digits], 0 when
    there is no limit). *)
Section IntOfStr.

Variable to_decimal : N -> option N.
Variable max_str_digits : N.

Fixpoint transform_decimal_and_space (s : pystr) : pystr :=
  match s with
  | [] => []
  | ch :: s' =>
      if ch <? 127 then ch :: transform_decimal_and_space s'
      else if isspace ch then 32 :: transform_decimal_and_space s'
      else match to_decimal ch with
           | Some d => (48 + d) :: transform_decimal_and_space s'
           | None => [63]
           end
  end.

(** [Py_ISSPACE] *)
Definition ascii_isspace (c : N) : bool :=
  ((9 <=? c) && (c <=? 13)) || (c =? 32).

Fixpoint skip_spaces (s : pystr) : pystr :=
  match s with
  | [] => []
  | c :: s' => if ascii_isspace c then skip_spaces s' else s
  end.

Definition digit_value (c : N) : option N :=
  if (48 <=? c) && (c <=? 57) then Some (c - 48) else None.

(** The digit scan of [long_from_non_binary_base]: [prev_us] tells whether
    the previous character was an underscore; the result is the value, the
    number of digits and the unread rest, or [None] for a doubled or a
    trailing underscore. *)
Fixpoint scan_digits (s : pystr) (prev_us : bool) (acc digits : N)
  : option (N * N * pystr) :=
  match s with
  | [] => if prev_us then None else Some (acc, digits, [])
  | c :: s' =>
      if c =? 95 then
        if prev_us then None else scan_digits s' true acc digits
      else
        match digit_value c with
        | Some d => scan_digits s' false (acc * 10 + d) (digits + 1)
        | None => if prev_us then None else Some (acc, digits, s)
        end
  end.

(** [PyLong_FromString(s, &end, 10)] with the check that the whole text was
    read; [None] stands for [ValueError]. *)
Definition long_from_string (s : pystr) : option Z :=
  let s1 := skip_spaces s in
  let '(negative, s2) :=
    match s1 with
    | 43 :: r => (false, r)
    | 45 :: r => (true, r)
    | _ => (false, s1)
    end in
  if startswith [95] s2 then None
  else
    match scan_digits s2 false 0 0 with
    | None => None
    | Some (v, digits, rest) =>
        if (640 <? digits) && (0 <? max_str_digits) && (max_str_digits <? digits)
        then None
        else if digits =? 0 then None
        else
          match skip_spaces rest with
          | [] => Some (if negative then (- Z.of_N v)%Z else Z.of_N v)
          | _ :: _ => None
          end
    end.

Definition int_of_str (s : pystr) : option Z :=
  long_from_string (transform_decimal_and_space s).

End IntOfStr.

End Py.

Import Py.

(* ====================================================================== *)
(** * Effects: exceptions, the external world, the event trace *)
(* ====================================================================== *)

Module Eff.

(** A Python exception (every one modelled derives from [Exception]):
    its class name and [str(e)]. *)
Record exn := Exception { exn_class : pystr; exn_str : pystr }.

Inductive res (A : Type) : Type :=
| Ret (a : A)
| Raise (e : exn).
Arguments Ret {A} a.
Arguments Raise {A} e.

(** The arguments of [ai_client.chat.completions.create]. [messages] pairs
    a role with a content; the temperature literal is kept as a fraction. *)
Record chat_request := {
  model : pystr;
  messages : list (pystr * pystr);
  max_tokens : Z;
  temperature : Q
}.

(** What the code reads of a completion: [message.content] of every element
    of [response.choices] ([None] for a null content). *)
Definition completion := list (option pystr).

(** Observable actions, in the order they happen. *)
Inductive event :=
| EvPrint (text : pystr)                       (* print(text) *)
| EvChat (req : chat_request)                  (* one oracle request *)
| EvSleep (seconds : Z)                        (* time.sleep(seconds) *)
| EvGerrit (method : pystr) (args : list pystr) (* one call of the REST gateway *)
| EvMakedirs (path : pystr)                    (* os.makedirs(path, exist_ok=True) *)
| EvOpenWrite (path data : pystr) (failure : option exn)
    (* open(path, 'w') and write(data), with the exception it ended in *)
| EvCsv (path : pystr) (header : list pystr) (rows : list (list pystr))
    (* the dataset file: header line and rows, cell by cell *).

Record state (W : Type) := { world : W; trace : list event }.
Arguments world {W} s.
Arguments trace {W} s.

(** Computations: a state transformer that returns or raises. *)
Definition M (W A : Type) : Type := state W -> res A * state W.

Section Monad.
Context {W : Type}.

Definition ret {A} (a : A) : M W A := fun s => (Ret a, s).

Definition raise {A} (e : exn) : M W A := fun s => (Raise e, s).

Definition bind {A B} (m : M W A) (k : A -> M W B) : M W B :=
  fun s =>
    match m s with
    | (Ret a, s') => k a s'
    | (Raise e, s') => (Raise e, s')
    end.

(** [try: body  except Exception as e: handler e] *)
Definition try_except {A} (body : M W A) (handler : exn -> M W A) : M W A :=
  fun s =>
    match body s with
    | (Ret a, s') => (Ret a, s')
    | (Raise e, s') => handler e s'
    end.

Definition emit (ev : event) : M W unit :=
  fun s => (Ret tt, {| world := world s; trace := trace s ++ [ev] |}).

Definition print (text : pystr) : M W unit := emit (EvPrint text).

(** An action of the external world, recorded in the trace with what is
    known of its outcome. *)
Definition perform {A} (ev : res A -> event) (op : W -> res A * W) : M W A :=
  fun s =>
    let '(r, w') := op (world s) in
    (r, {| world := w'; trace := trace s ++ [ev r] |}).

Definition failure_of {A} (r : res A) : option exn :=
  match r with Ret _ => None | Raise e => Some e end.

(** [l[i]] *)
Definition index {A} (l : list A) (i : nat) : M W A :=
  match nth_error l i with
  | Some x => ret x
  | None => raise (Exception (u8 "IndexError") (u8 "list index out of range"))
  end.

(** [content.strip()] where [content] may be [None]. *)
Definition strip_content (content : option pystr) : M W pystr :=
  match content with
  | Some s => ret (strip s)
  | None =>
      raise (Exception (u8 "AttributeError")
               (u8 "'NoneType' object has no attribute 'strip'"))
  end.

End Monad.

(** The hosted chat-completion service behind [ai_client]: any behaviour,
    including raising and depending on earlier requests. *)
Class Oracle (W : Type) := {
  chat_completions_create : chat_request -> W -> res completion * W
}.

Definition create {W} `{Oracle W} (req : chat_request) : M W completion :=
  perform (fun _ => EvChat req) (chat_completions_create req).

(** The oracle requests of a trace. *)
Fixpoint chat_requests (t : list event) : list chat_request :=
  match t with
  | [] => []
  | EvChat req :: t' => req :: chat_requests t'
  | _ :: t' => chat_requests t'
  end.

(** What the caller gets from one oracle request: the content of the first
    choice, or nothing when the request raised, returned no choice or
    returned a null content. *)
Definition reply_of (r : res completion) : option pystr :=
  match r with
  | Ret (Some content :: _) => Some content
  | _ => None
  end.

(** The outcome of sending [req] to the oracle from state [s]. *)
Definition ask {W} `{Oracle W} (req : chat_request) (s : state W) : res completion :=
  fst (chat_completions_create req (world s)).

(** [s'] is reached from [s] by sending exactly the requests [reqs]. *)
Definition requests_between {W} (s s' : state W) (reqs : list chat_request) : Prop :=
  chat_requests (trace s') = chat_requests (trace s) ++ reqs.

(** A scripted oracle for tests: every request consumes the next scripted
    outcome; an exhausted script raises. *)
Definition script := list (res completion).

Definition connection_error : exn :=
  Exception (u8 "APIConnectionError") (u8 "Connection error.").

#[export] Instance scripted_oracle : Oracle script := {
  chat_completions_create _ w :=
    match w with
    | [] => (Raise connection_error, [])
    | r :: w' => (r, w')
    end
}.

Definition start {W} (w : W) : state W := {| world := w; trace := [] |}.

End Eff.

Import Eff.

Declare Scope eff_scope.
Delimit Scope eff_scope with eff.
Notation "x <- c1 ;; c2" := (bind c1 (fun x => c2))
  (at level 61, c1 at next level, right associativity) : eff_scope.
Notation "' pat <- c1 ;; c2" := (bind c1 (fun x => match x with pat => c2 end))
  (at level 61, pat pattern, c1 at next level, right associativity) : eff_scope.
Notation "c1 ;; c2" := (bind c1 (fun _ => c2))
  (at level 61, right associativity) : eff_scope.
Local Open Scope eff_scope.

(* ====================================================================== *)
(** * AI_check.py: the review loop *)
(* ====================================================================== *)

Module AI_check.

(** The reply tokens of the prompts. *)
Definition CUO : pystr := u8 "错".   (* "wrong": the code has an error *)
Definition DUI : pystr := u8 "对".   (* "right" *)
Definition SHI : pystr := u8 "是".   (* "yes": suitable *)
Definition FOU : pystr := u8 "否".   (* "no": not suitable *)

(** A cell read by [pd.read_csv] from a text column: a string, or NaN for
    an empty field. *)
Definition cell := option pystr.

(** [pd.isna(c)] *)
Definition isna (c : cell) : bool :=
  match c with None => true | Some _ => false end.

(** [f"{c}"] *)
Definition format_cell (c : cell) : pystr :=
  match c with Some s => s | None => u8 "nan" end.

(** One row of the data frame: the three columns the loop reads, the other
    columns of the file (never touched), and the four columns it adds.
    The column [similarity_score] is created with the value 0 and so holds
    64-bit integers: its cell is a [Z] that every store keeps within
    [in_int64] (a store outside the range raises, see
    [store_similarity_score]). *)
Record df_row := {
  bad_code : cell;
  good_code : cell;
  bug_analysis : cell;
  other_columns : list (pystr * cell);
  first_review_col : pystr;
  ai_code : pystr;
  similarity_score : Z;
  suitable_for_training : pystr
}.

(** [AICodeReviewer]: the client lives in the external world. *)
Record AICodeReviewer := { model_name : pystr }.

Definition first_review_prompt (bad_code : pystr) : pystr :=
    u8 "你是一个专业的代码评审员：" ++ NL ++ u8 "请检查以下代码是否存在错误：" ++ NL ++ NL ++ bad_code ++ NL ++ NL ++
    u8 "请只回答" ++ DQUOTE ++ u8 "对" ++ DQUOTE ++ u8 "或" ++ DQUOTE ++ u8 "错" ++ DQUOTE ++
    u8 "，不要添加其他解释。".

Definition generate_fixed_code_prompt (bad_code : pystr) : pystr :=
    u8 "你是一个专业的代码工程师:" ++ NL ++ u8 "以下代码存在错误：" ++ NL ++ NL ++ bad_code ++ NL ++ NL ++
    u8 "请修复以上代码中的错误，并只返回修复后的代码，不要添加任何解释或其他内容。".

Definition second_review_prompt (ai_code good_code bad_code : pystr) (bug_analysis : cell) : pystr :=
    u8 "你是一个专业严格的代码评审员" ++ NL ++ u8 "        " ++ NL ++
    u8 "通过与good_code(正确)和bad_code(有Bug)对比, 评估ai_code对bug的修复成功度，并给出0-100的评分。" ++ NL ++
    u8 "同时，请判断这组代码（bad_code, good_code, bug_analysis）是否适合作为微调" ++ DQUOTE ++ u8 "代码评审大模型" ++ DQUOTE ++
    u8 "的训练集。请回答" ++ DQUOTE ++ u8 "是" ++ DQUOTE ++ u8 "或" ++ DQUOTE ++ u8 "否" ++ DQUOTE ++ u8 "。" ++
    NL ++ NL ++ u8 "原始错误代码：" ++ bad_code ++ NL ++ u8 "错误分析：" ++ format_cell bug_analysis ++ NL ++
    u8 "人工修正的正确代码：" ++ NL ++ good_code ++ NL ++ u8 "AI修正代码：" ++ NL ++ ai_code ++ NL ++ NL ++
    u8 "请先返回评分数字，然后换行返回是否适合作为训练集（是/否）。不要添加其他解释。".

Definition first_review_request (self : AICodeReviewer) (bad_code : pystr) : chat_request :=
  {| model := model_name self;
     messages := [(u8 "user", first_review_prompt bad_code)];
     max_tokens := 10;
     temperature := 1 # 10 |}.

Definition generate_fixed_code_request (self : AICodeReviewer) (bad_code : pystr) : chat_request :=
  {| model := model_name self;
     messages := [(u8 "user", generate_fixed_code_prompt bad_code)];
     max_tokens := 1000;
     temperature := 3 # 10 |}.

Definition second_review_request (self : AICodeReviewer)
    (ai_code good_code bad_code : pystr) (bug_analysis : cell) : chat_request :=
  {| model := model_name self;
     messages := [(u8 "user", second_review_prompt ai_code good_code bad_code bug_analysis)];
     max_tokens := 100;
     temperature := 1 # 10 |}.

(** The range of a cell of an [int64] column. *)
Definition in_int64 (z : Z) : bool :=
  ((- 2 ^ 63 <=? z) && (z <=? 2 ^ 63 - 1))%Z.

Section Reviewer.

Context {W : Type} `{Oracle W}.

(** The interpreter's decimal-digit table and digit limit, for [int]. *)
Variable to_decimal : N -> option N.
Variable max_str_digits : N.

(** The text of the [ValueError] that pandas raises for an integer that
    does not fit an [int64] column. *)
Variable int64_error_text : Z -> pystr.

(** [df.at[index, 'similarity_score'] = score].  The column was created by
    [df['similarity_score'] = 0] and holds 64-bit integers: a score outside
    their range is refused with a [ValueError]. *)
Definition store_similarity_score (score : Z) : M W Z :=
  if in_int64 score then ret score
  else raise (Exception (u8 "ValueError") (int64_error_text score)).

(** [int(s)], raising [ValueError] when the text is no integer. *)
Definition int (s : pystr) : M W Z :=
  match int_of_str to_decimal max_str_digits s with
  | Some z => ret z
  | None =>
      raise (Exception (u8 "ValueError")
               (u8 "invalid literal for int() with base 10"))
  end.

Definition first_review (self : AICodeReviewer) (bad_code : pystr) : M W pystr :=
  try_except
    (response <- create (first_review_request self bad_code) ;;
     choice <- index response 0 ;;
     result <- strip_content choice ;;
     ret result)
    (fun e =>
       print (u8 "Error in first review: " ++ exn_str e) ;;
       ret CUO).

Definition generate_fixed_code (self : AICodeReviewer) (bad_code : pystr) : M W pystr :=
  try_except
    (response <- create (generate_fixed_code_request self bad_code) ;;
     choice <- index response 0 ;;
     fixed_code <- strip_content choice ;;
     ret fixed_code)
    (fun e =>
       print (u8 "Error in generating fixed code: " ++ exn_str e) ;;
       ret bad_code).

Definition second_review (self : AICodeReviewer)
    (ai_code good_code bad_code : pystr) (bug_analysis : cell) : M W (Z * pystr) :=
  try_except
    (response <- create (second_review_request self ai_code good_code bad_code bug_analysis) ;;
     choice <- index response 0 ;;
     stripped <- strip_content choice ;;
     let result := split 10 stripped in
     line0 <- index result 0 ;;
     score <- int line0 ;;
     is_suitable <- (if (1 <? List.length result)%nat then index result 1 else ret FOU) ;;
     ret (score, is_suitable))
    (fun e =>
       print (u8 "Error in second review: " ++ exn_str e) ;;
       ret (0%Z, FOU)).

(** The body of the [for index, row in df.iterrows()] loop of [main];
    [total] is [len(df)].  The result is the row as [df] holds it after
    the iteration; an exception leaves [main], which catches none. *)
Definition main_loop_body (reviewer : AICodeReviewer) (total : nat)
    (index : nat) (row : df_row) : M W df_row :=
  match bad_code row, good_code row with
  | Some bad, Some good =>
      print (u8 "Processing row " ++ str_of_int (Z.of_nat index + 1) ++ u8 "/"
             ++ str_of_int (Z.of_nat total)) ;;
      first_result <- first_review reviewer bad ;;
      row' <-
        (if str_eqb first_result CUO then
           ai <- generate_fixed_code reviewer bad ;;
           '(score, is_suitable) <- second_review reviewer ai good bad (bug_analysis row) ;;
           score <- store_similarity_score score ;;
           ret {| bad_code := bad_code row; good_code := good_code row;
                  bug_analysis := bug_analysis row; other_columns := other_columns row;
                  first_review_col := first_result;
                  ai_code := ai;
                  similarity_score := score;
                  suitable_for_training := is_suitable |}
         else
           ret {| bad_code := bad_code row; good_code := good_code row;
                  bug_analysis := bug_analysis row; other_columns := other_columns row;
                  first_review_col := first_result;
                  ai_code := bad;
                  similarity_score := 100;
                  suitable_for_training := SHI |}) ;;
      emit (EvSleep 1) ;;
      ret row'
  | _, _ => ret row
  end.

Fixpoint main_loop (reviewer : AICodeReviewer) (total : nat)
    (index : nat) (rows : list df_row) : M W (list df_row) :=
  match rows with
  | [] => ret []
  | row :: rest =>
      row' <- main_loop_body reviewer total index row ;;
      rest' <- main_loop reviewer total (S index) rest ;;
      ret (row' :: rest')
  end.

(** The four added columns with their initial values. *)
Definition add_columns (row : df_row) : df_row :=
  {| bad_code := bad_code row; good_code := good_code row;
     bug_analysis := bug_analysis row; other_columns := other_columns row;
     first_review_col := [];
     ai_code := [];
     similarity_score := 0;
     suitable_for_training := [] |}.

(** [main], from the data frame that [read_csv_data] returned to the data
    frame that [df.to_csv] is given. *)
Definition main (reviewer : AICodeReviewer) (df : list df_row) : M W (list df_row) :=
  let df := map add_columns df in
  df' <- main_loop reviewer (List.length df) 0 df ;;
  print (u8 "Processing complete. Results saved to bugfix_analysis_results.csv") ;;
  ret df'.

End Reviewer.

(** The second pass as the specification words it: the score is the
    integer on line one and the verdict is line two of the stripped reply; a
    missing second line gives the verdict [FOU]; an oracle failure or a
    first line that is no integer gives score 0 and [FOU]. *)
Definition spec_second_pass (to_decimal : N -> option N) (max_str_digits : N)
    (outcome : res completion) : Z * pystr :=
  match reply_of outcome with
  | None => (0%Z, FOU)
  | Some content =>
      let lines := split 10 (strip content) in
      match int_of_str to_decimal max_str_digits (hd [] lines) with
      | None => (0%Z, FOU)
      | Some score => (score, nth 1 lines FOU)
      end
  end.

(** The row a clean first pass leaves behind. *)
Definition clean_row (row : df_row) (first_result bad : pystr) : df_row :=
  {| bad_code := bad_code row; good_code := good_code row;
     bug_analysis := bug_analysis row; other_columns := other_columns row;
     first_review_col := first_result;
     ai_code := bad;
     similarity_score := 100;
     suitable_for_training := SHI |}.

(** The row the fix branch leaves behind when the score is stored. *)
Definition fixed_row (row : df_row) (first_result ai : pystr) (score : Z)
    (is_suitable : pystr) : df_row :=
  {| bad_code := bad_code row; good_code := good_code row;
     bug_analysis := bug_analysis row; other_columns := other_columns row;
     first_review_col := first_result;
     ai_code := ai;
     similarity_score := score;
     suitable_for_training := is_suitable |}.

(** Test data. *)
Definition sample_row : df_row :=
  {| bad_code := Some (u8 "x = 1/0"); good_code := Some (u8 "x = 1");
     bug_analysis := Some (u8 "division by zero"); other_columns := [];
     first_review_col := []; ai_code := []; similarity_score := 0;
     suitable_for_training := [] |}.

(** A row whose bad code is missing, with stale values in the columns the
    loop adds. *)
Definition nan_row : df_row :=
  {| bad_code := None; good_code := Some (u8 "x = 1");
     bug_analysis := None; other_columns := [];
     first_review_col := u8 "old"; ai_code := []; similarity_score := 7;
     suitable_for_training := [] |}.

Definition sample_reviewer : AICodeReviewer := {| model_name := u8 "qwen-plus" |}.

Definition no_digits : N -> option N := fun _ => None.

Definition sample_error_text (z : Z) : pystr :=
  u8 "value " ++ str_of_int z ++ u8 " does not fit the int64 column".

End AI_check.

(* ====================================================================== *)
(** * gerrit_AI.py: patch splitting, bug classification, corpus building *)
(* ====================================================================== *)

Module gerrit_AI.

(** A value stored in a dictionary that goes to the dataset. *)
Inductive value :=
| VStr (s : pystr)
| VInt (z : Z).

(** [str(v)] *)
Definition str_of_value (v : value) : pystr :=
  match v with VStr s => s | VInt z => str_of_int z end.

(** A dictionary with string keys, as the ordered list of its items. *)
Definition dict := list (pystr * value).

Fixpoint dict_get (d : dict) (key : pystr) : option value :=
  match d with
  | [] => None
  | (k, v) :: d' => if str_eqb k key then Some v else dict_get d' key
  end.

(** A change as the Gerrit REST API lists it, as far as the code reads it:
    the keys "id", "subject" and "_number", each possibly absent. *)
Record change := {
  ch_id : option pystr;
  ch_subject : option pystr;
  ch_number : option Z
}.

(** An element of [valuable_files]. *)
Record file_record := {
  path : pystr;
  patch : pystr;
  bug_type : pystr;
  bug_desc : pystr;
  bad_code : pystr;
  good_code : pystr
}.

(** An item of the list [findall] returns: the matched text (for a pattern
    with one group, the text of the group), and for a pattern with two
    groups or more the tuple of the texts of the groups. *)
Inductive match_item :=
| MStr (s : pystr)
| MTuple (groups : list pystr).

(** An element of the list [filter_bug_fixes] returns. *)
Record bugfix_change := {
  change_id : pystr;
  number : Z;
  subject : pystr;
  files : list file_record;
  matched_keywords : list match_item;
  url : pystr
}.

(** [GerritClient]: the host and the "model_name" entry of the loaded
    configuration; the HTTP session and the AI client live in the world. *)
Record GerritClient := {
  host : pystr;
  config_model_name : option pystr
}.

(** The REST methods of the client, at their contract: each returns its
    result or raises. *)
Class Gerrit (W : Type) := {
  http_project_changes : pystr -> W -> res (list change) * W;
  http_change_files : pystr -> W -> res (list pystr) * W;
  http_well_formatted_patch : pystr -> pystr -> W -> res pystr * W
}.

(** The file system. *)
Class FileSystem (W : Type) := {
  os_makedirs : pystr -> W -> res unit * W;
  open_write : pystr -> pystr -> W -> res unit * W;
  open_write_csv : pystr -> list pystr -> list (list pystr) -> W -> res unit * W;
  os_path_abspath : pystr -> W -> pystr
}.

(** The regular-expression engine, for the keyword pattern only. *)
Class Regex := {
  pattern : Type;
  re_compile_ignorecase : pystr -> exn + pattern;
  re_search : pattern -> pystr -> bool;
  re_findall : pattern -> pystr -> list match_item;
  (** [list(set(l))]: the distinct elements in the order of the set. *)
  list_set : list match_item -> list match_item
}.

(** The items of a sequence given to [str.join], from index [i] on: their
    texts, or the index of the first item that is no string. *)
Fixpoint texts_of (i : nat) (items : list match_item) : nat + list pystr :=
  match items with
  | [] => inr []
  | MStr s :: rest =>
      match texts_of (S i) rest with
      | inl k => inl k
      | inr texts => inr (s :: texts)
      end
  | MTuple _ :: _ => inl i
  end.

(** [os.path.join(a, b)] on a POSIX system. *)
Definition os_path_join (a b : pystr) : pystr :=
  if startswith [47] b then b
  else if negb (truthy a) || startswith [47] (rev a) then a ++ b
  else a ++ [47] ++ b.

(** [s.replace('/', '_')] *)
Definition replace_slash (s : pystr) : pystr :=
  map (fun c => if c =? 47 then 95 else c) s.

(** Group 1 of [re.search] for a pattern made of a literal [tag] and a
    greedy group of any characters but the newline: the rest of the line
    after the first occurrence of [tag]. *)
Fixpoint line_rest (s : pystr) : pystr :=
  match s with
  | [] => []
  | c :: s' => if c =? 10 then [] else c :: line_rest s'
  end.

Fixpoint re_search_after (tag s : pystr) : option pystr :=
  if startswith tag s then Some (line_rest (skipn (List.length tag) s))
  else match s with
       | [] => None
       | _ :: s' => re_search_after tag s'
       end.

(** ** PatchSplitter *)

Definition _extract_bad_code (patch : pystr) : pystr :=
  let bad_lines :=
    fold_left
      (fun bad_lines line =>
         if startswith (u8 "-") line && negb (startswith (u8 "---") line)
         then bad_lines ++ [slice1 line]
         else bad_lines)
      (split 10 patch) [] in
  join NL bad_lines.

Definition _extract_good_code (patch : pystr) : pystr :=
  let good_lines :=
    fold_left
      (fun good_lines line =>
         if startswith (u8 "+") line && negb (startswith (u8 "+++") line)
         then good_lines ++ [slice1 line]
         else good_lines)
      (split 10 patch) [] in
  join NL good_lines.

(** The splitter as the specification words it: the lines that start with
    the marker but not with the tripled marker, without their first
    character, joined by newlines. *)
Definition spec_marked (marker : N) (line : pystr) : bool :=
  startswith [marker] line && negb (startswith [marker; marker; marker] line).

Definition spec_split_side (marker : N) (patch_text : pystr) : pystr :=
  join NL (map (skipn 1) (filter (spec_marked marker) (split 10 patch_text))).

(** ** BugClassifier *)

Definition analyze_prompt (diff_content change_subject : pystr) : pystr :=
    NL ++ u8 "        请严格分析以下代码变更是否是一个高价值的bug修复，并按要求回答。" ++ NL ++ NL ++ u8 "        变更描述: " ++
    change_subject ++ NL ++ u8 "        代码变更:" ++ diff_content ++ NL ++ NL ++
    u8 "        请按以下格式回答，必须严格遵循格式：" ++ NL ++ u8 "        [判断]是/否" ++ NL ++ u8 "        [类型]bug类型" ++
    NL ++ u8 "        [描述]一句话描述" ++ NL ++ NL ++ u8 "        判断标准:" ++ NL ++
    u8 "        1. 如果是格式调整、注释修改、import优化等非功能性变更或需求、功能缺失类变更，判断为" ++ DQUOTE ++ u8 "否" ++ DQUOTE ++
    NL ++ u8 "        2. 如果是修复了明确的逻辑错误、异常处理、边界条件等问题，判断为" ++ DQUOTE ++ u8 "是" ++ DQUOTE ++ NL ++
    u8 "        3. 如果无法确定或变更不明显，判断为" ++ DQUOTE ++ u8 "否" ++ DQUOTE ++ NL ++ NL ++ u8 "        示例:" ++
    NL ++ u8 "        [判断]是" ++ NL ++ u8 "        [类型]空指针异常" ++ NL ++
    u8 "        [描述]修复了在未初始化情况下可能导致的空指针异常" ++ NL ++ NL ++ u8 "        [判断]否" ++ NL ++
    u8 "        [类型]功能缺失/功能增加" ++ NL ++ u8 "        [描述]修复了车窗无法关闭的问题" ++ NL ++ u8 "        ".

Definition analyze_request (model_name diff_content change_subject : pystr) : chat_request :=
  {| model := model_name;
     messages :=
       [(u8 "system", u8 "你是一个严谨的代码审查助手，需要严格分析代码变更是否是高价值bug修复。");
        (u8 "user", analyze_prompt diff_content change_subject)];
     max_tokens := 100;
     temperature := 1 # 10 |}.

Definition TAG_JUDGE_YES : pystr := u8 "[判断]是".
Definition TAG_TYPE : pystr := u8 "[类型]".
Definition TAG_DESC : pystr := u8 "[描述]".

(** The parse of a reply, after [strip]. *)
Definition parse_answer (answer : pystr) : bool * pystr * pystr :=
  let is_bug := contains TAG_JUDGE_YES answer in
  let bug_type :=
    match re_search_after TAG_TYPE answer with
    | Some g => strip g
    | None => []
    end in
  let bug_desc :=
    match re_search_after TAG_DESC answer with
    | Some g => strip g
    | None => []
    end in
  (is_bug, bug_type, bug_desc).

Section Client.

Context {W : Type} `{Oracle W} `{Gerrit W} `{FileSystem W} `{Regex}.

(** [self.config["model_name"]] *)
Definition config_getitem_model_name (self : GerritClient) : M W pystr :=
  match config_model_name self with
  | Some m => ret m
  | None => raise (Exception (u8 "KeyError") (u8 "'model_name'"))
  end.

Definition _analyze_bug_with_ai (self : GerritClient)
    (diff_content change_subject : pystr) : M W (bool * pystr * pystr) :=
  if negb (truthy diff_content) then ret (false, [], [])
  else
    try_except
      (model_name <- config_getitem_model_name self ;;
       response <- create (analyze_request model_name diff_content change_subject) ;;
       choice <- index response 0 ;;
       answer <- strip_content choice ;;
       ret (parse_answer answer))
      (fun e =>
         print (u8 "调用AI API失败: " ++ exn_str e) ;;
         ret (false, [], [])).

Definition get_change_files (change_id : pystr) : M W (list pystr) :=
  perform (fun _ => EvGerrit (u8 "get_change_files") [change_id])
          (http_change_files change_id).

Definition get_well_formatted_patch (change_id file_path : pystr) : M W pystr :=
  perform (fun _ => EvGerrit (u8 "get_well_formatted_patch") [change_id; file_path])
          (http_well_formatted_patch change_id file_path).

Definition get_project_changes (project_name : pystr) : M W (list change) :=
  perform (fun _ => EvGerrit (u8 "get_project_changes") [project_name])
          (http_project_changes project_name).

(** [sep.join(items)]: a [TypeError] at the first item that is no string. *)
Definition str_join (sep : pystr) (items : list match_item) : M W pystr :=
  match texts_of 0 items with
  | inr texts => ret (join sep texts)
  | inl i =>
      raise (Exception (u8 "TypeError")
               (u8 "sequence item " ++ str_of_int (Z.of_nat i)
                ++ u8 ": expected str instance, tuple found"))
  end.

(** [d[key]] on a change. *)
Definition getitem {A} (key : string) (field : option A) : M W A :=
  match field with
  | Some x => ret x
  | None => raise (Exception (u8 "KeyError") (u8 "'" ++ u8 key ++ u8 "'"))
  end.

(** [change.get("subject", "")] *)
Definition get_subject (c : change) : pystr :=
  match ch_subject c with Some s => s | None => [] end.

(** One iteration of [for file_path in files]; the result is
    [valuable_files] after it. *)
Definition file_step (self : GerritClient) (c : change) (change_id file_path : pystr)
    (valuable_files : list file_record) : M W (list file_record) :=
  try_except
    (patch <- get_well_formatted_patch change_id file_path ;;
     let bad_code := _extract_bad_code patch in
     let good_code := _extract_good_code patch in
     if negb (truthy (strip bad_code)) || negb (truthy (strip good_code)) then
       print (u8 "  ❌ 文件 " ++ file_path ++ u8 " 被识别为低价值变更 (空代码)") ;;
       ret valuable_files
     else
       subject <- getitem "subject" (ch_subject c) ;;
       '(is_bug, bug_type, bug_desc) <- _analyze_bug_with_ai self patch subject ;;
       if (is_bug : bool) then
         let valuable_files :=
           valuable_files ++
             [{| path := file_path; patch := patch; bug_type := bug_type;
                 bug_desc := bug_desc; bad_code := bad_code; good_code := good_code |}] in
         print (u8 "  ✅ 文件 " ++ file_path ++ u8 " 被识别为有效bug修复") ;;
         print (u8 "    类型: " ++ bug_type) ;;
         print (u8 "    描述: " ++ bug_desc) ;;
         ret valuable_files
       else
         print (u8 "  ❌ 文件 " ++ file_path ++ u8 " 被识别为低价值变更") ;;
         ret valuable_files)
    (fun e =>
       print (u8 "  ⚠️ 处理文件 " ++ file_path ++ u8 " 时出错: " ++ exn_str e) ;;
       ret valuable_files).

Fixpoint files_loop (self : GerritClient) (c : change) (change_id : pystr)
    (files : list pystr) (valuable_files : list file_record) : M W (list file_record) :=
  match files with
  | [] => ret valuable_files
  | file_path :: rest =>
      valuable_files <- file_step self c change_id file_path valuable_files ;;
      files_loop self c change_id rest valuable_files
  end.

(** One iteration of [for i, change in enumerate(keyword_matched_changes, 1)]. *)
Definition change_step (self : GerritClient) (keyword_pattern : pattern) (total : nat)
    (i : Z) (c : change) (result : list bugfix_change) : M W (list bugfix_change) :=
  change_id <- getitem "id" (ch_id c) ;;
  files <- get_change_files change_id ;;
  subject <- getitem "subject" (ch_subject c) ;;
  print (NL ++ u8 "处理变更 " ++ str_of_int i ++ u8 "/" ++ str_of_int (Z.of_nat total)
         ++ u8 ": " ++ subject) ;;
  valuable_files <- files_loop self c change_id files [] ;;
  match valuable_files with
  | [] => ret result
  | _ :: _ =>
      let matched_keywords := re_findall keyword_pattern (get_subject c) in
      number <- getitem "_number" (ch_number c) ;;
      ret (result ++
             [{| change_id := change_id;
                 number := number;
                 subject := get_subject c;
                 files := valuable_files;
                 matched_keywords := list_set matched_keywords;
                 url := u8 "http://" ++ host self ++ u8 "/" ++ str_of_int number |}])
  end.

Fixpoint changes_loop (self : GerritClient) (keyword_pattern : pattern) (total : nat)
    (i : Z) (changes : list change) (result : list bugfix_change)
  : M W (list bugfix_change) :=
  match changes with
  | [] => ret result
  | c :: rest =>
      result <- change_step self keyword_pattern total i c result ;;
      changes_loop self keyword_pattern total (i + 1) rest result
  end.

Definition filter_bug_fixes (self : GerritClient) (changes : list change)
    (bug_keywords : list pystr) : M W (list bugfix_change) :=
  match re_compile_ignorecase (join (u8 "|") bug_keywords) with
  | inl e => raise e
  | inr keyword_pattern =>
      let keyword_matched_changes :=
        filter (fun c => re_search keyword_pattern (get_subject c)) changes in
      print (u8 "找到 " ++ str_of_int (Z.of_nat (List.length keyword_matched_changes))
             ++ u8 " 个关键词匹配的变更，开始AI筛选...") ;;
      changes_loop self keyword_pattern (List.length keyword_matched_changes) 1
        keyword_matched_changes []
  end.

(** ** Saving the patches and the dataset *)

Definition csv_fieldnames : list pystr :=
  [u8 "bad_code"; u8 "good_code"; u8 "bug_type"; u8 "bug_analysis";
   u8 "file_path"; u8 "change_id"; u8 "change_number"; u8 "change_subject"].

(** The dictionary appended to [csv_data] for one saved file. *)
Definition csv_row (c : bugfix_change) (f : file_record) : dict :=
  [(u8 "bad_code", VStr (bad_code f));
   (u8 "good_code", VStr (good_code f));
   (u8 "bug_type", VStr (bug_type f));
   (u8 "bug_analysis", VStr (bug_desc f));
   (u8 "file_path", VStr (path f));
   (u8 "change_id", VStr (change_id c));
   (u8 "change_number", VInt (number c));
   (u8 "change_subject", VStr (subject c))].

(** [csv.DictWriter._dict_to_list]: a key outside [fieldnames] is a
    [ValueError]; a missing key gives the empty rest value; every value is
    written as [str] of it. *)
Definition dict_to_list (fieldnames : list pystr) (rowdict : dict) : M W (list pystr) :=
  if existsb (fun kv => negb (existsb (str_eqb (fst kv)) fieldnames)) rowdict then
    raise (Exception (u8 "ValueError") (u8 "dict contains fields not in fieldnames"))
  else
    ret (map (fun key =>
                match dict_get rowdict key with
                | Some v => str_of_value v
                | None => []
                end) fieldnames).

Fixpoint dicts_to_lists (fieldnames : list pystr) (rows : list dict)
  : M W (list (list pystr)) :=
  match rows with
  | [] => ret []
  | r :: rest =>
      l <- dict_to_list fieldnames r ;;
      ls <- dicts_to_lists fieldnames rest ;;
      ret (l :: ls)
  end.

Definition patch_filename (c : bugfix_change) (f : file_record) : pystr :=
  str_of_int (number c) ++ u8 "_" ++ replace_slash (path f) ++ u8 ".patch".

(** The [while retry_count < max_retries] loop for one file.  An iteration
    either saves the patch, appends the row and leaves the loop, or counts
    and reports the failure and goes round again.  [fuel] bounds the
    iterations of the model; running out of it is an error of its own. *)
Fixpoint save_patch (fuel : nat) (max_retries retry_count : Z) (output_dir : pystr)
    (c : bugfix_change) (f : file_record) (csv_data : list dict) : M W (list dict) :=
  let filename := patch_filename c f in
  let file_path := os_path_join output_dir filename in
  if (retry_count <? max_retries)%Z then
    match fuel with
    | O => raise (Exception (u8 "OutOfFuel") [])
    | S fuel' =>
        saved <-
          try_except
            (perform (fun r => EvOpenWrite file_path (patch f) (failure_of r))
                     (open_write file_path (patch f)) ;;
             print (u8 "  ✅ 保存: " ++ filename) ;;
             ret (Some (csv_data ++ [csv_row c f])))
            (fun e =>
               let retry_count := (retry_count + 1)%Z in
               print (u8 "  ⚠️ 保存文件 " ++ filename ++ u8 " 失败 (尝试 "
                      ++ str_of_int retry_count ++ u8 "/" ++ str_of_int max_retries
                      ++ u8 "): " ++ exn_str e) ;;
               (if (retry_count =? max_retries)%Z
                then print (u8 "  ❌ 无法保存文件 " ++ filename)
                else ret tt) ;;
               ret None) ;;
        match saved with
        | Some csv_data => ret csv_data
        | None =>
            save_patch fuel' max_retries (retry_count + 1)%Z output_dir c f csv_data
        end
    end
  else ret csv_data.

(** [for file in change["files"]] *)
Fixpoint save_files (max_retries : Z) (output_dir : pystr) (c : bugfix_change)
    (fs : list file_record) (csv_data : list dict) : M W (list dict) :=
  match fs with
  | [] => ret csv_data
  | f :: rest =>
      csv_data <- save_patch (Z.to_nat max_retries) max_retries 0 output_dir c f csv_data ;;
      save_files max_retries output_dir c rest csv_data
  end.

(** [for change in bugfix_changes].  The second line printed joins the
    matched keywords, and raises when they are tuples; nothing in
    [download_bugfix_patches] catches it. *)
Fixpoint save_changes (max_retries : Z) (output_dir : pystr)
    (bugfix_changes : list bugfix_change) (csv_data : list dict) : M W (list dict) :=
  match bugfix_changes with
  | [] => ret csv_data
  | c :: rest =>
      print (NL ++ u8 "🔍 变更 " ++ str_of_int (number c) ++ u8 ": " ++ subject c) ;;
      keywords <- str_join (u8 ", ") (matched_keywords c) ;;
      print (u8 "  匹配关键词: " ++ keywords) ;;
      print (u8 "  有效文件: " ++ str_of_int (Z.of_nat (List.length (files c)))) ;;
      print (u8 "  链接: " ++ url c) ;;
      csv_data <- save_files max_retries output_dir c (files c) csv_data ;;
      save_changes max_retries output_dir rest csv_data
  end.

(** The dataset file: nothing is opened for an empty [csv_data]. *)
Definition save_csv (output_dir : pystr) (csv_data : list dict) : M W unit :=
  let csv_path := os_path_join output_dir (u8 "bugfix_analysis.csv") in
  match csv_data with
  | [] => ret tt
  | _ :: _ =>
      rows <- dicts_to_lists csv_fieldnames csv_data ;;
      perform (fun _ => EvCsv csv_path csv_fieldnames rows)
              (open_write_csv csv_path csv_fieldnames rows) ;;
      print (NL ++ u8 "✅ 已保存分析结果到: " ++ csv_path)
  end.

Definition download_bugfix_patches (self : GerritClient) (project_name output_dir : pystr)
    (bug_keywords : option (list pystr)) (max_retries : Z) : M W unit :=
  perform (fun _ => EvMakedirs output_dir) (os_makedirs output_dir) ;;
  let bug_keywords :=
    match bug_keywords with
    | None => [u8 "Bug"; u8 "BUG"; u8 "bug"; u8 "错误"; u8 "修复"]
    | Some ks => ks
    end in
  print (u8 "严格模式扫描项目 " ++ project_name ++ u8 "...") ;;
  print (u8 "筛选流程: 1.关键词匹配 → 2.AI判断是否为真实bug修复") ;;
  changes <- get_project_changes project_name ;;
  bugfix_changes <- filter_bug_fixes self changes bug_keywords ;;
  print (NL ++ u8 "找到 " ++ str_of_int (Z.of_nat (List.length bugfix_changes))
         ++ u8 " 个有效Bug修复变更:") ;;
  csv_data <- save_changes max_retries output_dir bugfix_changes [] ;;
  save_csv output_dir csv_data ;;
  (fun s =>
     print (NL ++ u8 "严格模式完成！有效patch保存在: "
            ++ os_path_abspath output_dir (world s)) s).

End Client.

End gerrit_AI.
(* ====================================================================== *)
(** * CorpusBuilder: vocabulary for its properties, and a test world *)
(* ====================================================================== *)

Module Corpus.
Import gerrit_AI.

(** A string with something besides white space: [s.strip()] is truthy. *)
Definition nonblank (s : pystr) : Prop := truthy (strip s) = true.

(** A record as [filter_bug_fixes] builds it: both halves come from the
    splitter run on the record's own patch, and neither is blank. *)
Definition record_ok (f : file_record) : Prop :=
  bad_code f = _extract_bad_code (patch f)
  /\ good_code f = _extract_good_code (patch f)
  /\ nonblank (bad_code f) /\ nonblank (good_code f).

(** The events [filter_bug_fixes] may add: console output, gateway calls,
    and classification requests for patches with two non-blank halves. *)
Definition scan_event (ev : event) : Prop :=
  match ev with
  | EvPrint _ => True
  | EvGerrit _ _ => True
  | EvChat req =>
      exists m patch subject,
        req = analyze_request m patch subject
        /\ nonblank (_extract_bad_code patch)
        /\ nonblank (_extract_good_code patch)
  | _ => False
  end.

(** Items that are all strings, as [findall] returns them for a pattern
    with at most one group. *)
Definition strings_only (items : list match_item) : Prop :=
  Forall (fun item => exists text, item = MStr text) items.

(** The keywords of a change can be joined: all of them are strings. *)
Definition keywords_are_strings (c : bugfix_change) : bool :=
  match texts_of 0 (matched_keywords c) with inr _ => true | inl _ => false end.

(** The changes the saving stage gets through: those before the first one
    whose keywords cannot be joined. *)
Fixpoint printable (bugfix_changes : list bugfix_change) : list bugfix_change :=
  match bugfix_changes with
  | [] => []
  | c :: rest => if keywords_are_strings c then c :: printable rest else []
  end.

(** The [TypeError] of [', '.join] on the keywords of a change. *)
Definition join_error (c : bugfix_change) : option exn :=
  match texts_of 0 (matched_keywords c) with
  | inr _ => None
  | inl i =>
      Some (Exception (u8 "TypeError")
              (u8 "sequence item " ++ str_of_int (Z.of_nat i)
               ++ u8 ": expected str instance, tuple found"))
  end.

(** The outcome of the saving stage that collected [rows]: the rows, or the
    [TypeError] of the first change whose keywords cannot be joined. *)
Fixpoint save_outcome (bugfix_changes : list bugfix_change) (rows : list dict)
  : res (list dict) :=
  match bugfix_changes with
  | [] => Ret rows
  | c :: rest =>
      match join_error c with
      | Some e => Raise e
      | None => save_outcome rest rows
      end
  end.

(** The accepted files of a scan, change by change. *)
Definition accepted (bugfix_changes : list bugfix_change)
  : list (bugfix_change * file_record) :=
  flat_map (fun c => map (fun f => (c, f)) (files c)) bugfix_changes.

(** Where the patch of an accepted file is written. *)
Definition patch_path (output_dir : pystr) (cf : bugfix_change * file_record) : pystr :=
  os_path_join output_dir (patch_filename (fst cf) (snd cf)).

(** The cells of the dataset row of an accepted file. *)
Definition row_cells (cf : bugfix_change * file_record) : list pystr :=
  let '(c, f) := cf in
  [bad_code f; good_code f; bug_type f; bug_desc f; path f;
   change_id c; str_of_int (number c); subject c].

Definition saved_text (filename : pystr) : pystr := u8 "  ✅ 保存: " ++ filename.

Definition warn_text (filename : pystr) (attempt max_retries : Z) (e : exn) : pystr :=
  u8 "  ⚠️ 保存文件 " ++ filename ++ u8 " 失败 (尝试 "
  ++ str_of_int attempt ++ u8 "/" ++ str_of_int max_retries
  ++ u8 "): " ++ exn_str e.

Definition give_up_text (filename : pystr) : pystr := u8 "  ❌ 无法保存文件 " ++ filename.

(** The trace of failed attempts number [retry_count + 1], [retry_count + 2],
    ... at one file, one per exception of [errs]: the attempt, its report
    with the count, and the final report when the count reaches the
    maximum. *)
Fixpoint failure_log (max_retries retry_count : Z) (file_path data filename : pystr)
    (errs : list exn) : list event :=
  match errs with
  | [] => []
  | e :: rest =>
      let k := (retry_count + 1)%Z in
      EvOpenWrite file_path data (Some e)
        :: EvPrint (warn_text filename k max_retries e)
        :: (if (k =? max_retries)%Z then [EvPrint (give_up_text filename)] else [])
        ++ failure_log max_retries k file_path data filename rest
  end.

(** The write attempts of a trace, and the ones that succeeded. *)
Fixpoint write_attempts (t : list event) : list (pystr * pystr * option exn) :=
  match t with
  | [] => []
  | EvOpenWrite p d r :: t' => (p, d, r) :: write_attempts t'
  | _ :: t' => write_attempts t'
  end.

Fixpoint saved_writes (t : list event) : list (pystr * pystr) :=
  match t with
  | [] => []
  | EvOpenWrite p d None :: t' => (p, d) :: saved_writes t'
  | _ :: t' => saved_writes t'
  end.

(** The dataset files of a trace. *)
Fixpoint datasets (t : list event) : list (pystr * list pystr * list (list pystr)) :=
  match t with
  | [] => []
  | EvCsv p h rows :: t' => (p, h, rows) :: datasets t'
  | _ :: t' => datasets t'
  end.

(** [l1] is [l2] with some elements left out. *)
Inductive subseq {A : Type} : list A -> list A -> Prop :=
| subseq_nil : subseq [] []
| subseq_skip x l1 l2 : subseq l1 l2 -> subseq l1 (x :: l2)
| subseq_keep x l1 l2 : subseq l1 l2 -> subseq (x :: l1) (x :: l2).

(** ** A test world

    One change with one file; the oracle follows a script; the disk refuses
    the first [disk_failures] writes. *)
Record sim := {
  oracle_script : script;
  disk_failures : nat;
  patch_fetch_fails : bool
}.

Definition sample_patch : pystr :=
  u8 "--- a/src/a.c" ++ NL ++ u8 "+++ b/src/a.c" ++ NL ++ u8 "@@ -1 +1 @@" ++ NL
  ++ u8 "-int x = 1;" ++ NL ++ u8 "+int x = 2;" ++ NL.

Definition sample_change : change :=
  {| ch_id := Some (u8 "demo~main~I42");
     ch_subject := Some (u8 "Fix bug in parser");
     ch_number := Some 42%Z |}.

Definition disk_full : exn := Exception (u8 "OSError") (u8 "[Errno 28] No space left on device").

Definition http_500 : exn := Exception (u8 "Exception") (u8 "获取patch失败: HTTP 500").

#[export] Instance sim_oracle : Oracle sim := {
  chat_completions_create _ w :=
    match oracle_script w with
    | [] => (Raise connection_error, w)
    | r :: rest =>
        (r, {| oracle_script := rest; disk_failures := disk_failures w;
               patch_fetch_fails := patch_fetch_fails w |})
    end
}.

#[export] Instance sim_gerrit : Gerrit sim := {
  http_project_changes _ w := (Ret [sample_change], w);
  http_change_files _ w := (Ret [u8 "src/a.c"], w);
  http_well_formatted_patch _ _ w :=
    if patch_fetch_fails w then (Raise http_500, w) else (Ret sample_patch, w)
}.

#[export] Instance sim_disk : FileSystem sim := {
  os_makedirs _ w := (Ret tt, w);
  open_write _ _ w :=
    match disk_failures w with
    | O => (Ret tt, w)
    | S n =>
        (Raise disk_full,
         {| oracle_script := oracle_script w; disk_failures := n;
            patch_fetch_fails := patch_fetch_fails w |})
    end;
  open_write_csv _ _ _ w := (Ret tt, w);
  os_path_abspath p _ := u8 "/work/" ++ p
}.

(** A stand-in for the keyword pattern: a subject matches when it holds
    "bug". *)
#[export] Instance sim_regex : Regex := {
  pattern := unit;
  re_compile_ignorecase _ := inr tt;
  re_search _ s := contains (u8 "bug") s;
  re_findall _ s := if contains (u8 "bug") s then [MStr (u8 "bug")] else [];
  list_set l := l
}.

(** A disk on which every write succeeds; its state is the list of files
    written. *)
Definition good_disk := list (pystr * pystr).

#[export] Instance good_disk_fs : FileSystem good_disk := {
  os_makedirs _ w := (Ret tt, w);
  open_write p d w := (Ret tt, (p, d) :: w);
  open_write_csv p _ _ w := (Ret tt, (p, []) :: w);
  os_path_abspath p _ := u8 "/work/" ++ p
}.

(** A gateway whose only patch adds a new file; its oracle would accept
    anything. *)
Inductive new_file_world := NewFileWorld.

Definition new_file_patch : pystr :=
  u8 "--- /dev/null" ++ NL ++ u8 "+++ b/src/new.c" ++ NL ++ u8 "@@ -0,0 +1,2 @@" ++ NL
  ++ u8 "+int y;" ++ NL ++ u8 "+int z;" ++ NL.

#[export] Instance new_file_oracle : Oracle new_file_world := {
  chat_completions_create _ w := (Ret [Some (u8 "[判断]是")], w)
}.

#[export] Instance new_file_gerrit : Gerrit new_file_world := {
  http_project_changes _ w := (Ret [], w);
  http_change_files _ w := (Ret [u8 "src/new.c"], w);
  http_well_formatted_patch _ _ w := (Ret new_file_patch, w)
}.

Definition sample_client : GerritClient :=
  {| host := u8 "gerrit.example.org"; config_model_name := Some (u8 "qwen-plus") |}.

Definition yes_reply : res completion :=
  Ret [Some (u8 "[判断]是" ++ NL ++ u8 "[类型]逻辑错误" ++ NL ++ u8 "[描述]修复了初始值")].

Definition sample_file : file_record :=
  {| path := u8 "src/a.c"; patch := sample_patch;
     bug_type := u8 "逻辑错误"; bug_desc := u8 "修复了初始值";
     bad_code := u8 "int x = 1;"; good_code := u8 "int x = 2;" |}.

Definition sample_bugfix : bugfix_change :=
  {| change_id := u8 "demo~main~I42"; number := 42; subject := u8 "Fix bug in parser";
     files := [sample_file]; matched_keywords := [MStr (u8 "bug")];
     url := u8 "http://gerrit.example.org/42" |}.

(** The same change as a pattern with two groups would record it. *)
Definition grouped_bugfix : bugfix_change :=
  {| change_id := u8 "demo~main~I42"; number := 42; subject := u8 "Fix bugs in parser";
     files := [sample_file]; matched_keywords := [MTuple [u8 "bug"; u8 "s"]];
     url := u8 "http://gerrit.example.org/42" |}.

End Corpus.
(* ====================================================================== *)
(** * gerrit_AI.py: the text [get_well_formatted_patch] returns *)
(* ====================================================================== *)

Module patch_text.

(** [s.replace('\r\n', '\n')] *)
Fixpoint replace_crlf (s : pystr) : pystr :=
  match s with
  | [] => []
  | c :: rest =>
      match rest with
      | d :: rest' =>
          if (c =? 13) && (d =? 10) then 10 :: replace_crlf rest'
          else c :: replace_crlf rest
      | [] => [c]
      end
  end.

(** [s.replace('\r', '\n')] *)
Definition replace_cr (s : pystr) : pystr :=
  map (fun c => if c =? 13 then 10 else c) s.

(** [s.endswith('\n')] *)
Definition endswith_nl (s : pystr) : bool :=
  match rev s with
  | c :: _ => c =? 10
  | [] => false
  end.

(** The return expression of [get_well_formatted_patch], from the decoded
    response text: both kinds of carriage-return line ends become newlines,
    and a newline is added when the decoded text does not end with one. *)
Definition well_formatted (decoded : pystr) : pystr :=
  replace_cr (replace_crlf decoded) ++ (if endswith_nl decoded then [] else NL).

End patch_text.
(* ====================================================================== *)
(** * utils/menifest_paeser.py: the manifest parser *)
(* ====================================================================== *)

Module menifest_paeser.

(** An element of the parsed document, as [lxml] presents it: its tag, its
    attributes and its child elements in document order. *)
#[local] Unset Elimination Schemes.
Inductive element :=
| Element (tag : pystr) (attrib : list (pystr * pystr)) (children : list element).
#[local] Set Elimination Schemes.

(** [e.get(name)], which is [e.get(name, None)]: the value of the first
    attribute of that name. *)
Fixpoint attrib_get (attrib : list (pystr * pystr)) (name : pystr) : option pystr :=
  match attrib with
  | [] => None
  | (k, v) :: rest => if str_eqb k name then Some v else attrib_get rest name
  end.

Definition get (e : element) (name : string) : option pystr :=
  match e with Element _ attrib _ => attrib_get attrib (u8 name) end.

(** [list(e.iter(tag))]: [e] itself and its descendants that carry the
    tag, in document order. *)
Fixpoint iter (tag : pystr) (e : element) : list element :=
  match e with
  | Element t _ children =>
      (if str_eqb t tag then [e] else []) ++ flat_map (iter tag) children
  end.

(** The dictionary [remotes]: keys and values are attribute values, [None]
    for an absent attribute.  An assignment is kept in front, so that a
    lookup finds the latest one for its key. *)
Definition remotes_dict := list (option pystr * option pystr).

Definition key_eqb (a b : option pystr) : bool :=
  match a, b with
  | None, None => true
  | Some x, Some y => str_eqb x y
  | _, _ => false
  end.

Fixpoint remotes_get (remotes : remotes_dict) (key : option pystr)
  : option (option pystr) :=
  match remotes with
  | [] => None
  | (k, v) :: rest => if key_eqb k key then Some v else remotes_get rest key
  end.

(** [f"{x}"] for a string or [None]. *)
Definition format_opt (x : option pystr) : pystr :=
  match x with Some s => s | None => u8 "None" end.

(** [MParser]: the [projectId] keyword argument, [None] when not given. *)
Record MParser := { projectId : option pystr }.

(** An element of the list [run] returns. *)
Record descriptor := {
  field : pystr;
  trinityProjectId : option pystr;
  branch : option pystr;
  target : pystr
}.

Section Run.

(** [repr] of a dictionary key, for the text of a [KeyError]. *)
Variable repr : option pystr -> pystr.

(** [remotes[key]] *)
Definition remotes_getitem (remotes : remotes_dict) (key : option pystr)
  : res (option pystr) :=
  match remotes_get remotes key with
  | Some v => Ret v
  | None => Raise (Exception (u8 "KeyError") (repr key))
  end.

(** The loop [for _pObj in _projects], with [projects] as accumulated. *)
Fixpoint projects_loop (self : MParser) (remotes : remotes_dict)
    (default_name default_revision : option pystr)
    (_projects : list element) (projects : list descriptor) : res (list descriptor) :=
  match _projects with
  | [] => Ret projects
  | _pObj :: rest =>
      let revision := get _pObj "revision" in
      let branch :=
        match revision with
        | Some r => Some r
        | None => default_revision
        end in
      let _r := get _pObj "remote" in
      match remotes_getitem remotes
              (match _r with None => default_name | Some r => Some r end) with
      | Raise e => Raise e
      | Ret _r =>
          let _n := match get _pObj "name" with Some n => n | None => [] end in
          let temp :=
            {| field := u8 "1";
               trinityProjectId := projectId self;
               branch := branch;
               target := format_opt _r ++ u8 "/" ++ _n ++ u8 " -b " ++ format_opt revision |} in
          projects_loop self remotes default_name default_revision rest (projects ++ [temp])
      end
  end.

(** [run], from the root element that [etree.fromstring(content)] returned. *)
Definition run (self : MParser) (root : element) : res (list descriptor) :=
  match iter (u8 "manifest") root with
  | [] => Raise (Exception (u8 "IndexError") (u8 "list index out of range"))
  | root :: _ =>
      let _projects := iter (u8 "project") root in
      let _default := iter (u8 "default") root in
      let _remotes := iter (u8 "remote") root in
      let remotes :=
        fold_left (fun remotes _rObj => (get _rObj "name", get _rObj "fetch") :: remotes)
                  _remotes [] in
      match _default with
      | [] => Raise (Exception (u8 "IndexError") (u8 "list index out of range"))
      | d :: _ =>
          projects_loop self remotes (get d "remote") (get d "revision") _projects []
      end
  end.

End Run.

(** What [run] makes of one project element, given the remotes and the
    default's attributes: the branch is the project's revision or else the
    default's; the address is that of the project's remote or else of the
    default's; the target joins the address, the name and the project's own
    revision as formatted. *)
Definition describes (self : MParser) (remotes : remotes_dict)
    (default_name default_revision : option pystr)
    (p : element) (desc : descriptor) : Prop :=
  field desc = u8 "1"
  /\ trinityProjectId desc = projectId self
  /\ branch desc = match get p "revision" with
                   | Some r => Some r
                   | None => default_revision
                   end
  /\ exists address,
      remotes_get remotes
        (match get p "remote" with Some r => Some r | None => default_name end)
      = Some address
      /\ target desc
         = format_opt address ++ u8 "/"
           ++ match get p "name" with Some n => n | None => [] end
           ++ u8 " -b " ++ format_opt (get p "revision").

(** The remotes dictionary of a manifest element. *)
Definition remotes_of (manifest : element) : remotes_dict :=
  fold_left (fun remotes _rObj => (get _rObj "name", get _rObj "fetch") :: remotes)
            (iter (u8 "remote") manifest) [].

(** The remote a project element refers to. *)
Definition remote_key (default_name : option pystr) (p : element) : option pystr :=
  match get p "remote" with Some r => Some r | None => default_name end.

(** A manifest for tests: two remotes, a default, and projects with and
    without their own remote and revision. *)
Definition sample_manifest : element :=
  Element (u8 "manifest") []
    [Element (u8 "remote") [(u8 "name", u8 "aosp"); (u8 "fetch", u8 "https://a.example")] [];
     Element (u8 "remote") [(u8 "name", u8 "vendor"); (u8 "fetch", u8 "https://v.example")] [];
     Element (u8 "default") [(u8 "remote", u8 "aosp"); (u8 "revision", u8 "main")] [];
     Element (u8 "project") [(u8 "name", u8 "platform/build")] [];
     Element (u8 "project")
       [(u8 "name", u8 "hw/camera"); (u8 "remote", u8 "vendor"); (u8 "revision", u8 "dev")] []].

Definition sample_repr (k : option pystr) : pystr :=
  match k with Some s => u8 "'" ++ s ++ u8 "'" | None => u8 "None" end.

End menifest_paeser.

(* ====================================================================== *)
(** * Properties *)
(* ====================================================================== *)

(** ** Sanity checks of the string layer *)

Example u8_cuo : u8 "错" = [38169].
Proof. reflexivity. Qed.

Example u8_ascii : u8 "-ab" = [45; 97; 98].
Proof. reflexivity. Qed.

Example str_of_int_neg : str_of_int (-42)%Z = u8 "-42".
Proof. reflexivity. Qed.

Example str_of_int_zero : str_of_int 0%Z = u8 "0".
Proof. reflexivity. Qed.

Example split_trailing : split 10 (u8 "a" ++ NL ++ u8 "b" ++ NL) = [u8 "a"; u8 "b"; []].
Proof. reflexivity. Qed.

Example strip_ws : strip (u8 "  x y " ++ NL) = u8 "x y".
Proof. reflexivity. Qed.

Example int_of_str_plain : forall td m, int_of_str td m (u8 "85") = Some 85%Z.
Proof. reflexivity. Qed.

Example int_of_str_padded : forall td m, int_of_str td m (u8 " -8_5 ") = Some (-85)%Z.
Proof. reflexivity. Qed.

Example int_of_str_letters : forall td m, int_of_str td m (u8 "abc") = None.
Proof. reflexivity. Qed.

Example int_of_str_fraction : forall td m, int_of_str td m (u8 "85.5") = None.
Proof. reflexivity. Qed.

Example int_of_str_fullwidth :
  int_of_str (fun c => if (65296 <=? c) && (c <=? 65305) then Some (c - 65296) else None)
             4300 (u8 "８５") = Some 85%Z.
Proof. reflexivity. Qed.

(** ** Running computations *)

Section Runs.
Context {W : Type}.

Lemma bind_run {A B} (m : M W A) (k : A -> M W B) s a s1 :
  m s = (Ret a, s1) -> bind m k s = k a s1.
Proof. intros E. unfold bind. rewrite E. reflexivity. Qed.

Lemma bind_raise_run {A B} (m : M W A) (k : A -> M W B) s e s1 :
  m s = (Raise e, s1) -> bind m k s = (Raise e, s1).
Proof. intros E. unfold bind. rewrite E. reflexivity. Qed.

Lemma print_run text (s : state W) :
  print text s = (Ret tt, {| world := world s; trace := trace s ++ [EvPrint text] |}).
Proof. reflexivity. Qed.

Lemma emit_run ev (s : state W) :
  emit ev s = (Ret tt, {| world := world s; trace := trace s ++ [ev] |}).
Proof. reflexivity. Qed.

Lemma ret_run {A} (a : A) (s : state W) : ret a s = (Ret a, s).
Proof. reflexivity. Qed.

Lemma chat_requests_app t1 t2 :
  chat_requests (t1 ++ t2) = chat_requests t1 ++ chat_requests t2.
Proof.
  induction t1 as [|ev t1 IH]; simpl; [reflexivity|].
  destruct ev; simpl; rewrite IH; reflexivity.
Qed.

Lemma requests_between_trans (s1 s2 s3 : state W) l1 l2 :
  requests_between s1 s2 l1 -> requests_between s2 s3 l2 ->
  requests_between s1 s3 (l1 ++ l2).
Proof.
  unfold requests_between. intros E1 E2. rewrite E2, E1, app_assoc. reflexivity.
Qed.

Lemma requests_between_print (s : state W) w text :
  requests_between s {| world := w; trace := trace s ++ [EvPrint text] |} [].
Proof. unfold requests_between. simpl. rewrite chat_requests_app. reflexivity. Qed.

Lemma requests_between_sleep (s : state W) w n :
  requests_between s {| world := w; trace := trace s ++ [EvSleep n] |} [].
Proof. unfold requests_between. simpl. rewrite chat_requests_app. reflexivity. Qed.

Lemma str_eqb_eq a b : str_eqb a b = true <-> a = b.
Proof.
  unfold str_eqb. destruct (pystr_eq_dec a b); split; intros; congruence.
Qed.

End Runs.

(** Literals and the string functions stay folded in proofs. *)
#[local] Strategy 1000 [u8 utf8_decode].
#[local] Arguments u8 : simpl never.
#[local] Arguments split : simpl never.
#[local] Arguments strip : simpl never.
#[local] Arguments int_of_str : simpl never.
#[local] Arguments str_of_int : simpl never.

(** Closes [chat_requests (t ++ ...) = chat_requests t ++ [...]]. *)
Ltac trace_requests :=
  repeat rewrite chat_requests_app; simpl;
  repeat rewrite app_nil_r; repeat rewrite <- app_assoc; reflexivity.

(* ====================================================================== *)
(** ** ReviewLoop ([AI_check.py]) *)
(* ====================================================================== *)

Module ReviewLoop.
Import AI_check.

Section Properties.

Context {W : Type} `{Oracle W}.
Variable to_decimal : N -> option N.
Variable max_str_digits : N.
Variable int64_error_text : Z -> pystr.

Lemma first_review_run self bad s :
  exists s1,
    first_review self bad s =
      (Ret (match reply_of (ask (first_review_request self bad) s) with
            | Some content => strip content
            | None => CUO
            end), s1)
    /\ requests_between s s1 [first_review_request self bad].
Proof.
  unfold first_review, requests_between, ask, try_except, bind, create, perform.
  destruct (chat_completions_create (first_review_request self bad) (world s))
    as [[[|[content|] rest]|e] w'] eqn:E; simpl;
    eexists; (split; [reflexivity|]); simpl; trace_requests.
Qed.

Lemma generate_fixed_code_run self bad s :
  exists s1,
    generate_fixed_code self bad s =
      (Ret (match reply_of (ask (generate_fixed_code_request self bad) s) with
            | Some content => strip content
            | None => bad
            end), s1)
    /\ requests_between s s1 [generate_fixed_code_request self bad].
Proof.
  unfold generate_fixed_code, requests_between, ask, try_except, bind, create, perform.
  destruct (chat_completions_create (generate_fixed_code_request self bad) (world s))
    as [[[|[content|] rest]|e] w'] eqn:E; simpl;
    eexists; (split; [reflexivity|]); simpl; trace_requests.
Qed.

Lemma second_review_run self ai good bad analysis s :
  exists s1,
    second_review to_decimal max_str_digits self ai good bad analysis s =
      (Ret (spec_second_pass to_decimal max_str_digits
              (ask (second_review_request self ai good bad analysis) s)), s1)
    /\ requests_between s s1 [second_review_request self ai good bad analysis].
Proof.
  unfold second_review, spec_second_pass, requests_between, ask, try_except, bind,
    create, perform, int.
  destruct (chat_completions_create (second_review_request self ai good bad analysis)
              (world s)) as [[[|[content|] rest]|e] w'] eqn:E; simpl;
    try (eexists; split; [reflexivity|]; simpl; trace_requests).
  destruct (split 10 (strip content)) as [|line0 more] eqn:L; simpl.
  - eexists; split; [reflexivity|]; simpl; trace_requests.
  - destruct (int_of_str to_decimal max_str_digits line0) as [score|]; simpl.
    + destruct more as [|line1 more']; simpl;
        (eexists; split; [reflexivity|]; simpl; trace_requests).
    + eexists; split; [reflexivity|]; simpl; trace_requests.
Qed.

(** What the fix branch leaves: the stored row, or the [ValueError] of a
    score that the [int64] column refuses. *)
Definition fix_outcome (row : df_row) (first_result ai : pystr) (result : Z * pystr)
  : res df_row :=
  if in_int64 (fst result)
  then Ret (fixed_row row first_result ai (fst result) (snd result))
  else Raise (Exception (u8 "ValueError") (int64_error_text (fst result))).

(** One iteration on a row with both codes present, in full: the value of
    the first pass decides between the two branches. *)
Lemma main_loop_body_run reviewer total index row bad good s :
  bad_code row = Some bad -> good_code row = Some good ->
  let req1 := first_review_request reviewer bad in
  let req2 := generate_fixed_code_request reviewer bad in
  let fr := match reply_of (ask req1 s) with Some c => strip c | None => CUO end in
  exists r s',
    main_loop_body to_decimal max_str_digits int64_error_text reviewer total index row s
    = (r, s')
    /\ (fr = CUO ->
        exists s1 s2,
          let ai := match reply_of (ask req2 s1) with Some c => strip c | None => bad end in
          let req3 := second_review_request reviewer ai good bad (bug_analysis row) in
          requests_between s s' [req1; req2; req3]
          /\ r = fix_outcome row fr ai
                   (spec_second_pass to_decimal max_str_digits (ask req3 s2)))
    /\ (fr <> CUO ->
        r = Ret (clean_row row fr bad) /\ requests_between s s' [req1]).
Proof.
  intros Hb Hg req1 req2 fr.
  unfold main_loop_body. rewrite Hb, Hg.
  erewrite bind_run by apply print_run. cbv beta.
  match goal with |- context [bind (first_review reviewer bad) _ ?s0] =>
    destruct (first_review_run reviewer bad s0) as (s1 & E1 & R1);
    change (ask (first_review_request reviewer bad) s0) with (ask req1 s) in E1
  end.
  fold fr in E1. rewrite (bind_run _ _ _ _ _ E1). cbv beta.
  assert (R0 : requests_between s s1 [req1]).
  { apply (requests_between_trans _ _ _ [] [req1]) with (2 := R1).
    apply requests_between_print. }
  destruct (pystr_eq_dec fr CUO) as [Efr|Nfr].
  - assert (Eb : str_eqb fr CUO = true) by (apply str_eqb_eq; exact Efr).
    rewrite Eb.
    destruct (generate_fixed_code_run reviewer bad s1) as (s2 & E2 & R2).
    destruct (second_review_run reviewer
                (match reply_of (ask req2 s1) with Some c => strip c | None => bad end)
                good bad (bug_analysis row) s2) as (s3 & E3 & R3).
    fold req2 in E2.
    assert (R123 : requests_between s s3
                     [req1; req2;
                      second_review_request reviewer
                        (match reply_of (ask req2 s1) with
                         | Some c => strip c
                         | None => bad
                         end) good bad (bug_analysis row)]).
    { apply (requests_between_trans _ s2 _ [req1; req2] [_]); [|exact R3].
      apply (requests_between_trans _ s1 _ [req1] [req2]); assumption. }
    unfold fix_outcome.
    destruct (spec_second_pass _ _ _) as [score verdict] eqn:Es.
    cbn [fst snd].
    destruct (in_int64 score) eqn:Ei.
    + erewrite bind_run.
      2:{ rewrite (bind_run _ _ _ _ _ E2). cbv beta.
          rewrite (bind_run _ _ _ _ _ E3). cbv beta iota.
          unfold store_similarity_score. rewrite Ei.
          rewrite (bind_run _ _ _ _ _ (ret_run _ _)). apply ret_run. }
      cbv beta. erewrite bind_run by apply emit_run. cbv beta. rewrite ret_run.
      eexists; eexists; split; [reflexivity|]. split.
      * intros _. exists s1, s2. cbn zeta. rewrite Es. cbn [fst snd]. rewrite Ei. split.
        -- apply (requests_between_trans _ s3 _ [req1; req2; _] []);
             [exact R123|apply requests_between_sleep].
        -- unfold fixed_row. rewrite Hb, Hg. reflexivity.
      * intros N. contradiction.
    + erewrite bind_raise_run.
      2:{ rewrite (bind_run _ _ _ _ _ E2). cbv beta.
          rewrite (bind_run _ _ _ _ _ E3). cbv beta iota.
          unfold store_similarity_score. rewrite Ei.
          apply bind_raise_run. reflexivity. }
      eexists; eexists; split; [reflexivity|]. split.
      * intros _. exists s1, s2. cbn zeta. rewrite Es. cbn [fst snd]. rewrite Ei. split.
        -- exact R123.
        -- reflexivity.
      * intros N. contradiction.
  - assert (Eb : str_eqb fr CUO = false).
    { destruct (str_eqb fr CUO) eqn:Eq; [|reflexivity].
      apply str_eqb_eq in Eq. contradiction. }
    rewrite Eb.
    erewrite bind_run by apply ret_run. cbv beta.
    erewrite bind_run by apply emit_run. cbv beta. rewrite ret_run.
    eexists; eexists; split; [reflexivity|]. split.
    + intros E. contradiction.
    + intros _. split; [unfold clean_row; rewrite Hb, Hg; reflexivity|].
      apply (requests_between_trans _ s1 _ [req1] []); [exact R0|].
      apply requests_between_sleep.
Qed.

Lemma requests_between_inj (s s' : state W) l1 l2 :
  requests_between s s' l1 -> requests_between s s' l2 -> l1 = l2.
Proof.
  unfold requests_between. intros E1 E2. rewrite E1 in E2.
  apply app_inv_head in E2. exact E2.
Qed.

(** C3: when the first-pass oracle call fails, [first_review] returns the
    token [CUO] and the row goes through fix generation and the second
    pass, never through the clean branch; the loop takes the fix branch
    exactly when the first-pass result is [CUO].  The routing is read off
    the requests the iteration sends, whatever its outcome: the iteration
    returns the row with the first-pass result recorded, or leaves with the
    [ValueError] of a second-pass score that the [int64] column refuses. *)
Theorem first_pass_failure_routes_to_fix_branch reviewer total index row bad good s :
  bad_code row = Some bad -> good_code row = Some good ->
  let req1 := first_review_request reviewer bad in
  let req2 := generate_fixed_code_request reviewer bad in
  let req3 := fun ai => second_review_request reviewer ai good bad (bug_analysis row) in
  (reply_of (ask req1 s) = None ->
   exists s1, first_review reviewer bad s = (Ret CUO, s1))
  /\ exists first_result s1 r s',
       first_review reviewer bad s = (Ret first_result, s1)
       /\ main_loop_body to_decimal max_str_digits int64_error_text reviewer total index
            row s = (r, s')
       /\ (first_result = CUO <->
           exists ai, requests_between s s' [req1; req2; req3 ai])
       /\ (first_result <> CUO <-> requests_between s s' [req1])
       /\ (forall row', r = Ret row' -> first_review_col row' = first_result)
       /\ (forall e, r = Raise e ->
           first_result = CUO
           /\ exists score,
                in_int64 score = false
                /\ e = Exception (u8 "ValueError") (int64_error_text score))
       /\ (reply_of (ask req1 s) = None ->
           first_result = CUO
           /\ (exists ai, requests_between s s' [req1; req2; req3 ai]
                          /\ forall row', r = Ret row' -> ai_code row' = ai)
           /\ ~ requests_between s s' [req1]).
Proof.
  intros Hb Hg req1 req2 req3.
  destruct (first_review_run reviewer bad s) as (s1 & E1 & _). fold req1 in E1.
  split.
  - intros Hfail. rewrite Hfail in E1. exists s1. exact E1.
  - destruct (main_loop_body_run reviewer total index row bad good s Hb Hg)
      as (r & s' & Erun & Hfix & Hclean).
    cbv zeta in Hfix, Hclean. fold req1 req2 in Hfix, Hclean.
    set (fr := match reply_of (ask req1 s) with Some c => strip c | None => CUO end) in *.
    exists fr, s1, r, s'. split; [exact E1|]. split; [exact Erun|].
    assert (Fix : fr = CUO ->
                  exists ai, requests_between s s' [req1; req2; req3 ai]
                             /\ forall row', r = Ret row' -> ai_code row' = ai).
    { intros E. destruct (Hfix E) as (s2 & s3 & R & Er).
      eexists. split; [exact R|]. intros row' Erow. rewrite Er in Erow.
      unfold fix_outcome in Erow. destruct (in_int64 _); [|discriminate].
      injection Erow as <-. reflexivity. }
    assert (Clean : fr <> CUO -> requests_between s s' [req1]).
    { intros N. apply (Hclean N). }
    assert (Excl : forall ai, requests_between s s' [req1; req2; req3 ai] ->
                              requests_between s s' [req1] -> False).
    { intros ai R3 R1. pose proof (requests_between_inj _ _ _ _ R3 R1) as E.
      discriminate E. }
    split; [|split; [|split; [|split]]].
    + split.
      * intros E. destruct (Fix E) as (ai & R & _). exists ai. exact R.
      * intros (ai & R). destruct (pystr_eq_dec fr CUO) as [E|N];
          [exact E|]. exfalso. apply (Excl ai R). apply Clean. exact N.
    + split.
      * exact Clean.
      * intros R1 E. destruct (Fix E) as (ai & R & _). apply (Excl ai R R1).
    + intros row' Erow. destruct (pystr_eq_dec fr CUO) as [E|N].
      * destruct (Hfix E) as (s2 & s3 & _ & Er). rewrite Er in Erow.
        unfold fix_outcome in Erow. destruct (in_int64 _); [|discriminate].
        injection Erow as <-. reflexivity.
      * destruct (Hclean N) as [Er _]. rewrite Er in Erow.
        injection Erow as <-. reflexivity.
    + intros e Ee. destruct (pystr_eq_dec fr CUO) as [E|N].
      * split; [exact E|]. destruct (Hfix E) as (s2 & s3 & _ & Er). rewrite Er in Ee.
        unfold fix_outcome in Ee.
        destruct (in_int64 _) eqn:Ei; [discriminate|].
        injection Ee as <-. eexists. split; [exact Ei|reflexivity].
      * destruct (Hclean N) as [Er _]. rewrite Er in Ee. discriminate Ee.
    + intros Hfail.
      assert (E : fr = CUO) by (unfold fr; rewrite Hfail; reflexivity).
      split; [exact E|]. split; [apply Fix; exact E|].
      intros R1. destruct (Fix E) as (ai & R & _). apply (Excl ai R R1).
Qed.

(** C4: on a row whose first pass does not answer [CUO], the loop records
    the row's own bad code as the fix, the score 100 and the verdict [SHI],
    and sends no fix-generation or second-pass request: the first-pass
    request is the only one. *)
Theorem clean_branch_marks_row reviewer total index row bad good s first_result s1 :
  bad_code row = Some bad -> good_code row = Some good ->
  first_review reviewer bad s = (Ret first_result, s1) ->
  first_result <> CUO ->
  exists row' s',
    main_loop_body to_decimal max_str_digits int64_error_text reviewer total index row s
    = (Ret row', s')
    /\ row' = clean_row row first_result bad
    /\ ai_code row' = bad
    /\ similarity_score row' = 100%Z
    /\ suitable_for_training row' = SHI
    /\ requests_between s s' [first_review_request reviewer bad].
Proof.
  intros Hb Hg E1 N.
  destruct (first_review_run reviewer bad s) as (s1' & E1' & _).
  rewrite E1 in E1'. injection E1' as Efr _.
  destruct (main_loop_body_run reviewer total index row bad good s Hb Hg)
    as (r & s' & Erun & _ & Hclean).
  cbv zeta in Hclean. rewrite <- Efr in Hclean.
  destruct (Hclean N) as [Er R]. rewrite Er in Erun.
  eexists; exists s'. split; [exact Erun|]. split; [reflexivity|].
  repeat split. exact R.
Qed.

(** C5: [second_review] never raises; its result is the score of line one
    and the verdict of line two of the stripped reply, the verdict [FOU]
    when there is no second line, and [(0, FOU)] when the oracle call fails
    or line one is no integer.  The reply "85\n是" gives [(85, SHI)] and
    the reply "abc" gives [(0, FOU)]. *)
Theorem second_review_parses_reply self ai good bad analysis s :
  let req := second_review_request self ai good bad analysis in
  let run := second_review to_decimal max_str_digits self ai good bad analysis s in
  (exists s1,
     run = (Ret (spec_second_pass to_decimal max_str_digits (ask req s)), s1))
  /\ (reply_of (ask req s) = None -> exists s1, run = (Ret (0%Z, FOU), s1))
  /\ (forall content,
        reply_of (ask req s) = Some content ->
        int_of_str to_decimal max_str_digits (hd [] (split 10 (strip content))) = None ->
        exists s1, run = (Ret (0%Z, FOU), s1))
  /\ (forall content score,
        reply_of (ask req s) = Some content ->
        int_of_str to_decimal max_str_digits (hd [] (split 10 (strip content))) = Some score ->
        exists s1, run = (Ret (score, nth 1 (split 10 (strip content)) FOU), s1))
  /\ (reply_of (ask req s) = Some (u8 "85" ++ NL ++ u8 "是") ->
      exists s1, run = (Ret (85%Z, SHI), s1))
  /\ (reply_of (ask req s) = Some (u8 "abc") ->
      exists s1, run = (Ret (0%Z, FOU), s1)).
Proof.
  intros req run.
  destruct (second_review_run self ai good bad analysis s) as (s1 & E & _).
  fold req run in E.
  split; [exists s1; exact E|].
  split; [|split; [|split; [|split]]].
  - intros Hr. exists s1. rewrite E. unfold spec_second_pass. rewrite Hr. reflexivity.
  - intros content Hr Hi. exists s1. rewrite E. unfold spec_second_pass.
    rewrite Hr. cbv zeta. rewrite Hi. reflexivity.
  - intros content score Hr Hi. exists s1. rewrite E. unfold spec_second_pass.
    rewrite Hr. cbv zeta. rewrite Hi. reflexivity.
  - intros Hr. exists s1. rewrite E. unfold spec_second_pass. rewrite Hr. reflexivity.
  - intros Hr. exists s1. rewrite E. unfold spec_second_pass. rewrite Hr. reflexivity.
Qed.

(** C10: for a row whose first-pass request is answered with a text, the
    loop takes the fix branch if and only if the stripped text is exactly
    [CUO]; every other text, in or out of the two-word vocabulary, takes the
    clean branch (own code, score 100, verdict [SHI]).  The reply is stored
    as it is: the vocabulary is requested by the prompt and not checked.
    The branch is read off the requests, whatever the iteration's outcome:
    only the fix branch can leave with an exception, the [ValueError] of a
    score that the [int64] column refuses. *)
Theorem fix_branch_iff_reply_is_cuo reviewer total index row bad good s content :
  bad_code row = Some bad -> good_code row = Some good ->
  let req1 := first_review_request reviewer bad in
  let req2 := generate_fixed_code_request reviewer bad in
  let req3 := fun ai => second_review_request reviewer ai good bad (bug_analysis row) in
  reply_of (ask req1 s) = Some content ->
  (exists s1, first_review reviewer bad s = (Ret (strip content), s1))
  /\ (exists r s',
        main_loop_body to_decimal max_str_digits int64_error_text reviewer total index
          row s = (r, s')
        /\ (forall row', r = Ret row' -> first_review_col row' = strip content)
        /\ (strip content = CUO <->
            exists ai, requests_between s s' [req1; req2; req3 ai])
        /\ (strip content <> CUO ->
            requests_between s s' [req1]
            /\ exists row',
                 r = Ret row'
                 /\ row' = clean_row row (strip content) bad
                 /\ ai_code row' = bad
                 /\ similarity_score row' = 100%Z
                 /\ suitable_for_training row' = SHI)
        /\ (In content [u8 "对。"; u8 "这段代码没有错误"; []; u8 "错。"; DUI] ->
            r = Ret (clean_row row (strip content) bad))
        /\ (forall e, r = Raise e ->
            strip content = CUO
            /\ exists score,
                 in_int64 score = false
                 /\ e = Exception (u8 "ValueError") (int64_error_text score)))
  /\ (exists before,
        first_review_prompt bad =
        before ++ u8 "请只回答" ++ DQUOTE ++ DUI ++ DQUOTE ++ u8 "或" ++ DQUOTE ++ CUO
               ++ DQUOTE ++ u8 "，不要添加其他解释。").
Proof.
  intros Hb Hg req1 req2 req3 Hr.
  split; [|split].
  - destruct (first_review_run reviewer bad s) as (s1 & E1 & _).
    fold req1 in E1. rewrite Hr in E1. exists s1. exact E1.
  - destruct (main_loop_body_run reviewer total index row bad good s Hb Hg)
      as (r & s' & Erun & Hfix & Hclean).
    cbv zeta in Hfix, Hclean. fold req1 req2 in Hfix, Hclean.
    rewrite Hr in Hfix, Hclean.
    exists r, s'. split; [exact Erun|].
    assert (Clean : strip content <> CUO ->
                    requests_between s s' [req1]
                    /\ r = Ret (clean_row row (strip content) bad)).
    { intros N. destruct (Hclean N) as [Erow R]. split; assumption. }
    split; [|split; [|split; [|split]]].
    + intros row' Erow. destruct (pystr_eq_dec (strip content) CUO) as [E|N].
      * destruct (Hfix E) as (s2 & s3 & _ & Er). rewrite Er in Erow.
        unfold fix_outcome in Erow. destruct (in_int64 _); [|discriminate].
        injection Erow as <-. reflexivity.
      * destruct (Clean N) as [_ Er]. rewrite Er in Erow.
        injection Erow as <-. reflexivity.
    + split.
      * intros E. destruct (Hfix E) as (s1 & s2 & R & _). eexists. exact R.
      * intros (ai & R).
        destruct (pystr_eq_dec (strip content) CUO) as [E|N]; [exact E|].
        exfalso. destruct (Clean N) as [R1 _].
        pose proof (requests_between_inj _ _ _ _ R R1) as E. discriminate E.
    + intros N. destruct (Clean N) as [R1 Er].
      split; [exact R1|]. eexists. split; [exact Er|]. repeat split.
    + intros Hin. apply Clean.
      simpl in Hin.
      repeat (destruct Hin as [<-|Hin]; [vm_compute; discriminate|]).
      contradiction.
    + intros e Ee. destruct (pystr_eq_dec (strip content) CUO) as [E|N].
      * split; [exact E|]. destruct (Hfix E) as (s2 & s3 & _ & Er). rewrite Er in Ee.
        unfold fix_outcome in Ee.
        destruct (in_int64 _) eqn:Ei; [discriminate|].
        injection Ee as <-. eexists. split; [exact Ei|reflexivity].
      * destruct (Clean N) as [_ Er]. rewrite Er in Ee. discriminate Ee.
  - exists (u8 "你是一个专业的代码评审员：" ++ NL ++ u8 "请检查以下代码是否存在错误：" ++ NL ++ NL
            ++ bad ++ NL ++ NL).
    unfold first_review_prompt. repeat rewrite <- app_assoc. reflexivity.
Qed.

End Properties.

(** *** The claims on concrete runs *)

(** A stubbed oracle that throws on the first pass. *)
Definition throwing_script : script :=
  [Raise connection_error;
   Ret [Some (u8 "x = 1")];
   Ret [Some (u8 "85" ++ NL ++ u8 "是")]].

(** A stubbed oracle whose second pass answers with a score of twenty
    digits. *)
Definition overflowing_script : script :=
  [Ret [Some CUO];
   Ret [Some (u8 "x = 1")];
   Ret [Some (u8 "99999999999999999999" ++ NL ++ u8 "是")]].

Lemma first_pass_failure_witness :
  (exists s1,
     first_review sample_reviewer (u8 "x = 1/0") (start throwing_script) = (Ret CUO, s1))
  /\ exists r s',
       main_loop_body no_digits 4300 sample_error_text sample_reviewer 1 0 sample_row
         (start throwing_script) = (r, s')
       /\ exists ai,
            requests_between (start throwing_script) s'
              [first_review_request sample_reviewer (u8 "x = 1/0");
               generate_fixed_code_request sample_reviewer (u8 "x = 1/0");
               second_review_request sample_reviewer ai (u8 "x = 1") (u8 "x = 1/0")
                 (Some (u8 "division by zero"))]
            /\ forall row', r = Ret row' -> ai_code row' = ai.
Proof.
  destruct (first_pass_failure_routes_to_fix_branch no_digits 4300 sample_error_text
              sample_reviewer 1 0 sample_row (u8 "x = 1/0") (u8 "x = 1")
              (start throwing_script) eq_refl eq_refl)
    as [Hfirst (fr & s1 & r & s' & _ & Erun & _ & _ & _ & _ & Hfail)].
  split.
  - apply Hfirst. reflexivity.
  - exists r, s'. split; [exact Erun|].
    destruct (Hfail eq_refl) as (_ & Hreq & _). exact Hreq.
Defined.

Lemma clean_branch_witness :
  exists row' s',
    main_loop_body no_digits 4300 sample_error_text sample_reviewer 1 0 sample_row
      (start [Ret [Some (u8 " 对 ")]]) = (Ret row', s')
    /\ row' = clean_row sample_row DUI (u8 "x = 1/0")
    /\ ai_code row' = u8 "x = 1/0"
    /\ similarity_score row' = 100%Z
    /\ suitable_for_training row' = SHI
    /\ requests_between (start [Ret [Some (u8 " 对 ")]]) s'
         [first_review_request sample_reviewer (u8 "x = 1/0")].
Proof.
  eapply (clean_branch_marks_row no_digits 4300 sample_error_text sample_reviewer 1 0
            sample_row (u8 "x = 1/0") (u8 "x = 1") (start [Ret [Some (u8 " 对 ")]]) DUI).
  - reflexivity.
  - reflexivity.
  - vm_compute. reflexivity.
  - vm_compute. discriminate.
Defined.

Lemma second_review_witness :
  exists s1,
    second_review no_digits 4300 sample_reviewer (u8 "x = 1") (u8 "x = 1") (u8 "x = 1/0")
      None (start [Ret [Some (u8 "85" ++ NL ++ u8 "是")]]) = (Ret (85%Z, SHI), s1).
Proof.
  destruct (second_review_parses_reply no_digits 4300 sample_reviewer (u8 "x = 1")
              (u8 "x = 1") (u8 "x = 1/0") None
              (start [Ret [Some (u8 "85" ++ NL ++ u8 "是")]]))
    as (_ & _ & _ & _ & Hok & _).
  apply Hok. reflexivity.
Defined.

Lemma fix_branch_iff_witness :
  (exists s1,
     first_review sample_reviewer (u8 "x = 1/0") (start [Ret [Some (u8 "对。")]])
     = (Ret (strip (u8 "对。")), s1))
  /\ exists s',
       main_loop_body no_digits 4300 sample_error_text sample_reviewer 1 0 sample_row
         (start [Ret [Some (u8 "对。")]])
       = (Ret (clean_row sample_row (strip (u8 "对。")) (u8 "x = 1/0")), s').
Proof.
  assert (Hr : reply_of (ask (first_review_request sample_reviewer (u8 "x = 1/0"))
                             (start [Ret [Some (u8 "对。")]])) = Some (u8 "对。"))
    by reflexivity.
  destruct (fix_branch_iff_reply_is_cuo no_digits 4300 sample_error_text sample_reviewer
              1 0 sample_row (u8 "x = 1/0") (u8 "x = 1") (start [Ret [Some (u8 "对。")]])
              (u8 "对。") eq_refl eq_refl Hr)
    as (Hfirst & (r & s' & Erun & _ & _ & _ & Hvocab & _) & _).
  split; [exact Hfirst|].
  exists s'. rewrite <- Hvocab; [exact Erun|]. left. reflexivity.
Defined.

(** The same loop on a reply with a score outside [int64]: the iteration
    leaves with the [ValueError] of the store. *)
Example overflowing_score_raises :
  fst (main_loop_body no_digits 4300 sample_error_text sample_reviewer 1 0 sample_row
         (start overflowing_script))
  = Raise (Exception (u8 "ValueError") (sample_error_text 99999999999999999999%Z)).
Proof. vm_compute. reflexivity. Qed.

End ReviewLoop.
(* ====================================================================== *)
(** ** ReviewLoop: the other paths of [AI_check.py] *)
(* ====================================================================== *)

Module ReviewRun.
Import AI_check.

Section Properties.

Context {W : Type} `{Oracle W}.
Variable to_decimal : N -> option N.
Variable max_str_digits : N.
Variable int64_error_text : Z -> pystr.

(** [generate_fixed_code] never raises and sends one request: the result is
    the stripped reply, and the unchanged input code when the request
    raises, carries no choice or carries a null content. *)
Theorem generate_fixed_code_falls_back self bad s :
  let req := generate_fixed_code_request self bad in
  exists fixed s1,
    generate_fixed_code self bad s = (Ret fixed, s1)
    /\ requests_between s s1 [req]
    /\ (reply_of (ask req s) = None -> fixed = bad)
    /\ (forall content, reply_of (ask req s) = Some content -> fixed = strip content).
Proof.
  intros req.
  destruct (ReviewLoop.generate_fixed_code_run self bad s) as (s1 & E & R).
  fold req in E, R.
  eexists; exists s1. split; [exact E|]. split; [exact R|]. split.
  - intros Hr. rewrite Hr. reflexivity.
  - intros content Hr. rewrite Hr. reflexivity.
Qed.

(** The columns the loop reads are the same in [row'] as in [row]. *)
Definition same_inputs (row row' : df_row) : Prop :=
  bad_code row' = bad_code row /\ good_code row' = good_code row
  /\ bug_analysis row' = bug_analysis row /\ other_columns row' = other_columns row.

(** A row the loop reviews: both codes are present. *)
Definition reviewable (row : df_row) : bool :=
  negb (isna (bad_code row)) && negb (isna (good_code row)).

(** How the loop relates the rows it is given to the rows it leaves. *)
Definition row_step (row row' : df_row) : Prop :=
  same_inputs row row'
  /\ (reviewable row = false -> row' = row)
  /\ (in_int64 (similarity_score row) = true -> in_int64 (similarity_score row') = true).

(** The oracle requests of one iteration: one to three for a row with both
    codes, none for the others. *)
Definition row_requests (row : df_row) (reqs : list chat_request) : Prop :=
  if reviewable row then (1 <= List.length reqs <= 3)%nat else reqs = [].

(** The one exception of the loop: the [ValueError] of the store, for a
    second-pass reply whose score is outside [int64]. *)
Definition score_overflow (reviewer : AICodeReviewer) (e : exn) : Prop :=
  exists ai good bad analysis (s2 : state W),
    let req := second_review_request reviewer ai good bad analysis in
    let score := fst (spec_second_pass to_decimal max_str_digits (ask req s2)) in
    in_int64 score = false
    /\ e = Exception (u8 "ValueError") (int64_error_text score).

Lemma skipped_row_run reviewer total index row s :
  reviewable row = false ->
  main_loop_body to_decimal max_str_digits int64_error_text reviewer total index row s
  = (Ret row, s).
Proof.
  unfold reviewable, main_loop_body.
  destruct (bad_code row); [destruct (good_code row)|]; simpl; intros E;
    try discriminate; reflexivity.
Qed.
Lemma requests_between_refl (s : state W) : requests_between s s [].
Proof. unfold requests_between. rewrite app_nil_r. reflexivity. Qed.

(** Any row: what one iteration does, whatever its outcome. *)
Lemma main_loop_body_outcome reviewer total index row s :
  exists r s' reqs,
    main_loop_body to_decimal max_str_digits int64_error_text reviewer total index row s
    = (r, s')
    /\ requests_between s s' reqs
    /\ row_requests row reqs
    /\ match r with
       | Ret row' => row_step row row'
       | Raise e => score_overflow reviewer e
       end.
Proof.
  destruct (reviewable row) eqn:Hr.
  - unfold reviewable in Hr.
    destruct (bad_code row) as [bad|] eqn:Hb; [|discriminate].
    destruct (good_code row) as [good|] eqn:Hg; [|discriminate].
    assert (Hr' : reviewable row = true) by (unfold reviewable; rewrite Hb, Hg; reflexivity).
    destruct (ReviewLoop.main_loop_body_run to_decimal max_str_digits int64_error_text
                reviewer total index row bad good s Hb Hg) as (r & s' & Erun & Hfix & Hclean).
    cbv zeta in Hfix, Hclean.
    exists r, s'.
    destruct (pystr_eq_dec
                (match reply_of (ask (first_review_request reviewer bad) s) with
                 | Some c => strip c
                 | None => CUO
                 end) CUO) as [E|N].
    + destruct (Hfix E) as (s1 & s2 & R & Er).
      eexists. split; [exact Erun|]. split; [exact R|].
      split; [unfold row_requests; rewrite Hr'; simpl; lia|].
      rewrite Er. unfold ReviewLoop.fix_outcome.
      destruct (in_int64 _) eqn:Ei.
      * split; [repeat split|]. split; [intros Hf; congruence|].
        intros _. exact Ei.
      * eexists _, good, bad, (bug_analysis row), s2. cbv zeta.
        split; [exact Ei|reflexivity].
    + destruct (Hclean N) as [Er R].
      eexists. split; [exact Erun|]. split; [exact R|].
      split; [unfold row_requests; rewrite Hr'; simpl; lia|].
      rewrite Er. split; [repeat split|]. split; [intros Hf; congruence|].
      intros _. reflexivity.
  - exists (Ret row), s, []. rewrite (skipped_row_run reviewer total index row s Hr).
    split; [reflexivity|]. split; [apply requests_between_refl|].
    split; [unfold row_requests; rewrite Hr; reflexivity|].
    split; [repeat split|]. split; [reflexivity|]. intros Hi. exact Hi.
Qed.

(** The loop over the rows, whatever its outcome: [segments] holds the
    requests of the iterations that ran, one segment per row. *)
Lemma main_loop_outcome reviewer total rows : forall index s,
  exists r s' segments,
    main_loop to_decimal max_str_digits int64_error_text reviewer total index rows s
    = (r, s')
    /\ requests_between s s' (List.concat segments)
    /\ Forall2 row_requests (firstn (List.length segments) rows) segments
    /\ match r with
       | Ret rows' => Forall2 row_step rows rows' /\ List.length segments = List.length rows
       | Raise e => score_overflow reviewer e
       end.
Proof.
  induction rows as [|row rest IH]; intros index s.
  - exists (Ret []), s, []. split; [reflexivity|]. split; [apply requests_between_refl|].
    split; [constructor|]. split; [constructor|reflexivity].
  - destruct (main_loop_body_outcome reviewer total index row s)
      as (r1 & s1 & reqs1 & E1 & R1 & Q1 & O1).
    cbn [main_loop].
    destruct r1 as [row'|e].
    + rewrite (bind_run _ _ _ _ _ E1). cbv beta.
      destruct (IH (S index) s1) as (r2 & s2 & segs2 & E2 & R2 & Q2 & O2).
      destruct r2 as [rest'|e].
      * rewrite (bind_run _ _ _ _ _ E2). rewrite ret_run.
        exists (Ret (row' :: rest')), s2, (reqs1 :: segs2).
        split; [reflexivity|]. cbn [List.concat List.length firstn].
        split; [exact (requests_between_trans _ _ _ _ _ R1 R2)|].
        split; [constructor; assumption|].
        destruct O2 as [F2 L2]. split; [constructor; assumption|].
        rewrite L2. reflexivity.
      * rewrite (bind_raise_run _ _ _ _ _ E2).
        exists (Raise e), s2, (reqs1 :: segs2).
        split; [reflexivity|]. cbn [List.concat List.length firstn].
        split; [exact (requests_between_trans _ _ _ _ _ R1 R2)|].
        split; [constructor; assumption|exact O2].
    + rewrite (bind_raise_run _ _ _ _ _ E1).
      exists (Raise e), s1, [reqs1].
      split; [reflexivity|]. cbn [List.concat List.length firstn]. rewrite app_nil_r.
      split; [exact R1|]. split; [constructor; [exact Q1|constructor]|exact O1].
Qed.

Lemma Forall2_nth_error {A B} (R : A -> B -> Prop) l l' i x :
  Forall2 R l l' -> nth_error l i = Some x ->
  exists y, nth_error l' i = Some y /\ R x y.
Proof.
  intros F. revert i. induction F as [|a b l l' Hab F IH]; intros i Hi.
  - destruct i; discriminate.
  - destruct i as [|i]; simpl in *.
    + injection Hi as <-. exists b. split; [reflexivity|exact Hab].
    + apply IH. exact Hi.
Qed.



(** The rows [main] does not review: the iteration on a row with a missing
    bad or good code changes neither the row nor the state, and when [main]
    returns, such a row of the data frame comes out with the four added
    columns at their initial values (empty, empty, 0, empty). *)
Theorem main_skips_rows_without_code reviewer df s i row df' s' :
  nth_error df i = Some row ->
  reviewable row = false ->
  main to_decimal max_str_digits int64_error_text reviewer df s = (Ret df', s') ->
  nth_error df' i = Some (add_columns row)
  /\ forall total index s0,
       main_loop_body to_decimal max_str_digits int64_error_text reviewer total index
         (add_columns row) s0
       = (Ret (add_columns row), s0).
Proof.
  intros Hi Hr Emain. split.
  - unfold main in Emain.
    destruct (main_loop_outcome reviewer (List.length (map add_columns df))
                (map add_columns df) 0%nat s) as (r & s1 & segments & E & _ & _ & O).
    destruct r as [df1|e].
    + rewrite (bind_run _ _ _ _ _ E) in Emain. cbv beta in Emain.
      erewrite bind_run in Emain by apply print_run. rewrite ret_run in Emain.
      injection Emain as <- _.
      assert (Hi' : nth_error (map add_columns df) i = Some (add_columns row))
        by (rewrite nth_error_map, Hi; reflexivity).
      destruct O as [F _].
      destruct (Forall2_nth_error _ _ _ _ _ F Hi') as (row' & Hn & _ & Hskip & _).
      rewrite Hn. f_equal. apply Hskip. exact Hr.
    + rewrite (bind_raise_run _ _ _ _ _ E) in Emain. discriminate Emain.
  - intros total index s0. apply skipped_row_run. exact Hr.
Qed.

End Properties.

Lemma generate_fixed_code_witness :
  exists s1,
    generate_fixed_code sample_reviewer (u8 "x = 1/0") (start [Ret [None]])
    = (Ret (u8 "x = 1/0"), s1).
Proof.
  destruct (generate_fixed_code_falls_back sample_reviewer (u8 "x = 1/0")
              (start [Ret [None]])) as (fixed & s1 & E & _ & Hfail & _).
  exists s1. pose proof (Hfail eq_refl) as Ef. rewrite Ef in E. exact E.
Defined.

Lemma main_skips_witness :
  exists df' s',
    main no_digits 4300 sample_error_text sample_reviewer [sample_row; nan_row]
      (start [Ret [Some DUI]]) = (Ret df', s')
    /\ nth_error df' 1 = Some (add_columns nan_row).
Proof.
  destruct (main no_digits 4300 sample_error_text sample_reviewer [sample_row; nan_row]
              (start [Ret [Some DUI]])) as [[df'|e] s'] eqn:E.
  - exists df', s'. split; [reflexivity|].
    apply (main_skips_rows_without_code no_digits 4300 sample_error_text sample_reviewer
             [sample_row; nan_row] (start [Ret [Some DUI]]) 1 nan_row df' s');
      [reflexivity|reflexivity|exact E].
  - exfalso. vm_compute in E. discriminate E.
Defined.

End ReviewRun.
(* ====================================================================== *)
(** ** PatchSplitter ([gerrit_AI.py]) *)
(* ====================================================================== *)

Module PatchSplitter.
Import gerrit_AI.

(** The accumulating loop is a filter followed by a map. *)
Lemma fold_left_collect {A B} (p : A -> bool) (f : A -> B) (l : list A) (acc : list B) :
  fold_left (fun acc x => if p x then acc ++ [f x] else acc) l acc
  = acc ++ map f (filter p l).
Proof.
  revert acc. induction l as [|x l IH]; intros acc; simpl.
  - rewrite app_nil_r. reflexivity.
  - rewrite IH. destruct (p x); simpl; [rewrite <- app_assoc|]; reflexivity.
Qed.

Lemma extract_bad_code_spec patch : _extract_bad_code patch = spec_split_side 45 patch.
Proof.
  unfold _extract_bad_code, spec_split_side.
  change (fun (bad_lines : list pystr) (line : pystr) =>
            if startswith (u8 "-") line && negb (startswith (u8 "---") line)
            then bad_lines ++ [slice1 line] else bad_lines)
    with (fun (acc : list pystr) (x : pystr) =>
            if spec_marked 45 x then acc ++ [slice1 x] else acc).
  rewrite fold_left_collect. reflexivity.
Qed.

Lemma extract_good_code_spec patch : _extract_good_code patch = spec_split_side 43 patch.
Proof.
  unfold _extract_good_code, spec_split_side.
  change (fun (good_lines : list pystr) (line : pystr) =>
            if startswith (u8 "+") line && negb (startswith (u8 "+++") line)
            then good_lines ++ [slice1 line] else good_lines)
    with (fun (acc : list pystr) (x : pystr) =>
            if spec_marked 43 x then acc ++ [slice1 x] else acc).
  rewrite fold_left_collect. reflexivity.
Qed.

Lemma split_cons sep c (s : pystr) :
  split sep (c :: s)
  = if c =? sep then [] :: split sep s
    else match split sep s with
         | [] => [[c]]
         | l :: ls => (c :: l) :: ls
         end.
Proof. reflexivity. Qed.

(** Splitting at newlines undoes joining lines that hold no newline. *)
Lemma split_no_newline (l : pystr) : ~ In 10 l -> split 10 l = [l].
Proof.
  induction l as [|c l IH]; intros Hn; [reflexivity|].
  rewrite split_cons. destruct (N.eqb_spec c 10) as [->|_].
  - exfalso. apply Hn. left. reflexivity.
  - rewrite IH; [reflexivity|]. intros Hin. apply Hn. right. exact Hin.
Qed.

Lemma split_line_app (l rest : pystr) :
  ~ In 10 l -> split 10 (l ++ 10 :: rest) = l :: split 10 rest.
Proof.
  induction l as [|c l IH]; intros Hn.
  - reflexivity.
  - cbn [app]. rewrite split_cons. destruct (N.eqb_spec c 10) as [->|_].
    + exfalso. apply Hn. left. reflexivity.
    + rewrite IH; [reflexivity|]. intros Hin. apply Hn. right. exact Hin.
Qed.

Lemma split_join (lines : list pystr) :
  lines <> [] -> Forall (fun l => ~ In 10 l) lines ->
  split 10 (join NL lines) = lines.
Proof.
  induction lines as [|l rest IH]; intros Hne Hall; [contradiction|].
  inversion Hall as [|? ? Hl Hrest]; subst.
  destruct rest as [|l' rest'].
  - cbn [join]. apply split_no_newline. exact Hl.
  - change (join NL (l :: l' :: rest')) with (l ++ 10 :: join NL (l' :: rest')).
    rewrite split_line_app by exact Hl.
    rewrite IH; [reflexivity|discriminate|exact Hrest].
Qed.

(** C2: for every patch text the before-code is the lines that start with
    "-" but not with "---", without the marker, joined by newlines, and the
    after-code is the same for "+" and "+++"; every other line is ignored.
    The text "-int x = 1;\n+int x = 2;\n" splits to "int x = 1;" and
    "int x = 2;". *)
Theorem patch_splitter_spec :
  (forall patch,
     _extract_bad_code patch = spec_split_side 45 patch
     /\ _extract_good_code patch = spec_split_side 43 patch)
  /\ (forall lines,
        lines <> [] -> Forall (fun l => ~ In 10 l) lines ->
        _extract_bad_code (join NL lines)
        = join NL (map (skipn 1) (filter (spec_marked 45) lines))
        /\ _extract_good_code (join NL lines)
           = join NL (map (skipn 1) (filter (spec_marked 43) lines)))
  /\ _extract_bad_code (u8 "-int x = 1;" ++ NL ++ u8 "+int x = 2;" ++ NL) = u8 "int x = 1;"
  /\ _extract_good_code (u8 "-int x = 1;" ++ NL ++ u8 "+int x = 2;" ++ NL) = u8 "int x = 2;".
Proof.
  split; [|split; [|split]].
  - intros patch. split; [apply extract_bad_code_spec|apply extract_good_code_spec].
  - intros lines Hne Hall.
    rewrite extract_bad_code_spec, extract_good_code_spec. unfold spec_split_side.
    rewrite split_join by assumption. split; reflexivity.
  - vm_compute. reflexivity.
  - vm_compute. reflexivity.
Qed.

(** A patch with file headers, a hunk header and context lines. *)
Definition sample_lines : list pystr :=
  [u8 "--- a/f.c"; u8 "+++ b/f.c"; u8 "@@ -1,2 +1,2 @@"; u8 " int y;";
   u8 "-int x = 1;"; u8 "+int x = 2;"].

Lemma patch_splitter_witness :
  _extract_bad_code (join NL sample_lines) = u8 "int x = 1;"
  /\ _extract_good_code (join NL sample_lines) = u8 "int x = 2;".
Proof.
  destruct patch_splitter_spec as (_ & Hlines & _).
  destruct (Hlines sample_lines) as [Hbad Hgood].
  - discriminate.
  - unfold sample_lines. repeat constructor; vm_compute; intuition discriminate.
  - rewrite Hbad, Hgood. split; vm_compute; reflexivity.
Defined.

End PatchSplitter.

(* ====================================================================== *)
(** ** BugClassifier ([gerrit_AI.py]) *)
(* ====================================================================== *)

Module BugClassifier.
Import gerrit_AI.

Lemma re_search_after_absent tag s :
  contains tag s = false -> re_search_after tag s = None.
Proof.
  induction s as [|c s IH]; cbn [contains re_search_after]; intros Hc.
  - apply orb_false_iff in Hc. destruct Hc as [-> _]. reflexivity.
  - apply orb_false_iff in Hc. destruct Hc as [-> Hc]. apply IH. exact Hc.
Qed.

Lemma startswith_app (p r : pystr) : startswith p (p ++ r) = true.
Proof.
  induction p as [|a p IH]; [reflexivity|].
  cbn [app startswith]. rewrite N.eqb_refl, IH. reflexivity.
Qed.

Lemma startswith_app_l tag : forall u r,
  startswith tag u = true -> startswith tag (u ++ r) = true.
Proof.
  induction tag as [|a tag IH]; intros u r Hs; [reflexivity|].
  destruct u as [|b u]; [discriminate|]. cbn [app startswith] in *.
  apply andb_true_iff in Hs. destruct Hs as [-> Hs]. cbn [andb].
  apply IH. exact Hs.
Qed.

Lemma startswith_before_newline tag : forall t rest,
  ~ In 10 tag -> startswith tag (t ++ 10 :: rest) = true -> startswith tag t = true.
Proof.
  induction tag as [|a tag IH]; intros t rest Hn Hs; [reflexivity|].
  destruct t as [|b t]; cbn [app startswith] in *.
  - apply andb_true_iff in Hs. destruct Hs as [Ha _]. apply N.eqb_eq in Ha.
    exfalso. apply Hn. left. exact Ha.
  - apply andb_true_iff in Hs. destruct Hs as [Ha Hs]. rewrite Ha. cbn [andb].
    apply (IH t rest); [|exact Hs]. intros Hin. apply Hn. right. exact Hin.
Qed.

Lemma startswith_at_newline tag rest :
  tag <> [] -> ~ In 10 tag -> startswith tag (10 :: rest) = false.
Proof.
  intros Hne Hn. destruct tag as [|a tag]; [contradiction|].
  cbn [startswith]. destruct (N.eqb_spec a 10) as [->|_]; [|reflexivity].
  exfalso. apply Hn. left. reflexivity.
Qed.

(** The search passes over a line that does not hold the tag. *)
Lemma re_search_after_next_line tag t rest :
  tag <> [] -> ~ In 10 tag -> contains tag t = false ->
  re_search_after tag (t ++ 10 :: rest) = re_search_after tag rest.
Proof.
  intros Hne Hn. induction t as [|c t IH]; intros Hc.
  - cbn [app re_search_after]. rewrite startswith_at_newline by assumption. reflexivity.
  - cbn [contains] in Hc. apply orb_false_iff in Hc. destruct Hc as [Hs Hc].
    cbn [app re_search_after].
    destruct (startswith tag (c :: t ++ 10 :: rest)) eqn:E.
    + apply (startswith_before_newline tag (c :: t) rest Hn) in E. congruence.
    + apply IH. exact Hc.
Qed.

Lemma contains_lines tag t rest :
  tag <> [] -> ~ In 10 tag ->
  contains tag (t ++ 10 :: rest) = contains tag t || contains tag rest.
Proof.
  intros Hne Hn. induction t as [|c t IH].
  - cbn [app contains]. rewrite startswith_at_newline by assumption.
    destruct tag; [contradiction|]. reflexivity.
  - cbn [app contains]. rewrite IH.
    destruct (startswith tag (c :: t ++ 10 :: rest)) eqn:E.
    + apply (startswith_before_newline tag (c :: t) rest Hn) in E.
      cbn [app] in E. rewrite E. reflexivity.
    + destruct (startswith tag (c :: t)) eqn:E'; [|reflexivity].
      apply (startswith_app_l tag (c :: t) (10 :: rest)) in E'.
      cbn [app] in E'. congruence.
Qed.

Lemma line_rest_line (t rest : pystr) : ~ In 10 t -> line_rest (t ++ 10 :: rest) = t.
Proof.
  induction t as [|c t IH]; intros Hn; [reflexivity|].
  cbn [app line_rest]. destruct (N.eqb_spec c 10) as [->|_].
  - exfalso. apply Hn. left. reflexivity.
  - rewrite IH; [reflexivity|]. intros Hin. apply Hn. right. exact Hin.
Qed.

Lemma line_rest_last (t : pystr) : ~ In 10 t -> line_rest t = t.
Proof.
  induction t as [|c t IH]; intros Hn; [reflexivity|].
  cbn [line_rest]. destruct (N.eqb_spec c 10) as [->|_].
  - exfalso. apply Hn. left. reflexivity.
  - rewrite IH; [reflexivity|]. intros Hin. apply Hn. right. exact Hin.
Qed.

Lemma re_search_after_here tag x :
  re_search_after tag (tag ++ x) = Some (line_rest x).
Proof.
  destruct (tag ++ x) as [|c r] eqn:E; cbn [re_search_after]; rewrite <- E;
    rewrite startswith_app, skipn_app, skipn_all, Nat.sub_diag; reflexivity.
Qed.

(** A reply in the format the prompt asks for reads back as its fields:
    the verdict line, then the type line, then the description line.  The
    type must not hold the description tag, and after a no-verdict neither
    field may hold the yes-tag, because the tags are searched in the whole
    text. *)
Theorem parse_answer_reads_format (yes : bool) (ty desc : pystr) :
  ~ In 10 ty -> ~ In 10 desc ->
  contains TAG_DESC ty = false ->
  (yes = false ->
   contains TAG_JUDGE_YES ty = false /\ contains TAG_JUDGE_YES desc = false) ->
  parse_answer (u8 "[判断]" ++ u8 (if yes then "是" else "否") ++ NL
                ++ TAG_TYPE ++ ty ++ NL ++ TAG_DESC ++ desc)
  = (yes, strip ty, strip desc).
Proof.
  intros Hty Hdesc Hd Hyes.
  assert (Tt : TAG_TYPE <> [] /\ ~ In 10 TAG_TYPE)
    by (split; [discriminate|vm_compute; intuition discriminate]).
  assert (Td : TAG_DESC <> [] /\ ~ In 10 TAG_DESC)
    by (split; [discriminate|vm_compute; intuition discriminate]).
  assert (Tj : TAG_JUDGE_YES <> [] /\ ~ In 10 TAG_JUDGE_YES)
    by (split; [discriminate|vm_compute; intuition discriminate]).
  set (line1 := u8 "[判断]" ++ u8 (if yes then "是" else "否")).
  assert (E : u8 "[判断]" ++ u8 (if yes then "是" else "否") ++ NL
              ++ TAG_TYPE ++ ty ++ NL ++ TAG_DESC ++ desc
              = line1 ++ 10 :: (TAG_TYPE ++ ty) ++ 10 :: TAG_DESC ++ desc).
  { unfold line1, NL. repeat rewrite <- app_assoc. reflexivity. }
  rewrite E. clear E. unfold parse_answer.
  assert (L1t : contains TAG_TYPE line1 = false) by (destruct yes; vm_compute; reflexivity).
  assert (L1d : contains TAG_DESC line1 = false) by (destruct yes; vm_compute; reflexivity).
  assert (L1j : contains TAG_JUDGE_YES line1 = yes) by (destruct yes; vm_compute; reflexivity).
  assert (L2d : contains TAG_DESC (TAG_TYPE ++ ty) = false).
  { change TAG_TYPE with [91; 31867; 22411; 93].
    change TAG_DESC with [91; 25551; 36848; 93].
    cbn [app contains startswith N.eqb Pos.eqb andb orb]. exact Hd. }
  assert (L2j : contains TAG_JUDGE_YES (TAG_TYPE ++ ty) = contains TAG_JUDGE_YES ty).
  { change TAG_TYPE with [91; 31867; 22411; 93].
    change TAG_JUDGE_YES with [91; 21028; 26029; 93; 26159].
    cbn [app contains startswith N.eqb Pos.eqb andb orb]. reflexivity. }
  assert (L3j : contains TAG_JUDGE_YES (TAG_DESC ++ desc) = contains TAG_JUDGE_YES desc).
  { change TAG_DESC with [91; 25551; 36848; 93].
    change TAG_JUDGE_YES with [91; 21028; 26029; 93; 26159].
    cbn [app contains startswith N.eqb Pos.eqb andb orb]. reflexivity. }
  f_equal; [f_equal|].
  - rewrite contains_lines by apply Tj. rewrite contains_lines by apply Tj.
    rewrite L1j, L2j, L3j. destruct yes; [reflexivity|].
    destruct (Hyes eq_refl) as [-> ->]. reflexivity.
  - rewrite re_search_after_next_line by (try apply Tt; exact L1t).
    rewrite <- app_assoc. rewrite re_search_after_here.
    rewrite line_rest_line by exact Hty. reflexivity.
  - rewrite re_search_after_next_line by (try apply Td; exact L1d).
    rewrite re_search_after_next_line by (try apply Td; exact L2d).
    rewrite re_search_after_here. rewrite line_rest_last by exact Hdesc. reflexivity.
Qed.

Lemma parse_answer_witness :
  parse_answer (u8 "[判断]" ++ u8 "是" ++ NL ++ TAG_TYPE ++ u8 "空指针异常" ++ NL
                ++ TAG_DESC ++ u8 " 修复了空指针 ")
  = (true, u8 "空指针异常", u8 "修复了空指针").
Proof.
  rewrite (parse_answer_reads_format true (u8 "空指针异常") (u8 " 修复了空指针 ")).
  - vm_compute. reflexivity.
  - vm_compute. intuition discriminate.
  - vm_compute. intuition discriminate.
  - vm_compute. reflexivity.
  - intros Hf. discriminate Hf.
Defined.

Section Properties.

Context {W : Type} `{Oracle W} `{Gerrit W} `{FileSystem W} `{Regex}.

(** The request the classifier sends, when the configuration names a model. *)
Definition request_of (self : GerritClient) (diff subject : pystr) : option chat_request :=
  match config_model_name self with
  | Some m => Some (analyze_request m diff subject)
  | None => None
  end.

(** The text the classifier gets to parse, if any. *)
Definition answer_of (self : GerritClient) (diff subject : pystr) (s : state W)
  : option pystr :=
  if truthy diff then
    match request_of self diff subject with
    | Some req =>
        match reply_of (ask req s) with
        | Some content => Some (strip content)
        | None => None
        end
    | None => None
    end
  else None.

Lemma analyze_run self diff subject s :
  exists s1,
    _analyze_bug_with_ai self diff subject s =
      (Ret (match answer_of self diff subject s with
            | Some answer => parse_answer answer
            | None => (false, [], [])
            end), s1)
    /\ requests_between s s1
         (if truthy diff then
            match request_of self diff subject with
            | Some req => [req]
            | None => []
            end
          else []).
Proof.
  unfold _analyze_bug_with_ai, answer_of, request_of, requests_between.
  destruct (truthy diff); cbn [negb].
  2:{ exists s. split; [reflexivity|]. rewrite app_nil_r. reflexivity. }
  unfold config_getitem_model_name, try_except, bind, create, perform, ask.
  destruct (config_model_name self) as [m|]; simpl.
  2:{ eexists; split; [reflexivity|]. simpl. trace_requests. }
  destruct (chat_completions_create (analyze_request m diff subject) (world s))
    as [[[|[content|] rest]|e] w'] eqn:E; simpl;
    eexists; (split; [reflexivity|]); simpl; trace_requests.
Qed.

(** The classifier never raises.  Whenever it has no reply text to parse
    (the request raised, the completion had no choice or a null content, or
    the configuration has no model name) the result is exactly
    [(False, "", "")]; for an empty diff nothing at all happens: no request
    is sent and nothing is printed. *)
Theorem analyze_bug_never_raises self diff subject s :
  (exists r s1, _analyze_bug_with_ai self diff subject s = (Ret r, s1))
  /\ (answer_of self diff subject s = None ->
      exists s1, _analyze_bug_with_ai self diff subject s = (Ret (false, [], []), s1))
  /\ (forall m,
        config_model_name self = Some m ->
        reply_of (ask (analyze_request m diff subject) s) = None ->
        exists s1, _analyze_bug_with_ai self diff subject s = (Ret (false, [], []), s1))
  /\ (diff = [] -> _analyze_bug_with_ai self diff subject s = (Ret (false, [], []), s)).
Proof.
  destruct (analyze_run self diff subject s) as (s1 & E & _).
  split; [eexists; exists s1; exact E|]. split; [|split].
  - intros Ha. rewrite Ha in E. exists s1. exact E.
  - intros m Hm Hr. exists s1. rewrite E. unfold answer_of, request_of.
    rewrite Hm, Hr. destruct (truthy diff); reflexivity.
  - intros ->. reflexivity.
Qed.

(** With a reply text, the three fields come from the stripped text alone:
    the verdict is whether it contains the yes-tag anywhere, and a field
    whose tag does not occur in it is the empty string. *)
Theorem analyze_bug_missing_marker self diff subject s m content :
  diff <> [] ->
  config_model_name self = Some m ->
  reply_of (ask (analyze_request m diff subject) s) = Some content ->
  exists is_bug bug_type bug_desc s1,
    _analyze_bug_with_ai self diff subject s = (Ret (is_bug, bug_type, bug_desc), s1)
    /\ requests_between s s1 [analyze_request m diff subject]
    /\ is_bug = contains TAG_JUDGE_YES (strip content)
    /\ (contains TAG_TYPE (strip content) = false -> bug_type = [])
    /\ (contains TAG_DESC (strip content) = false -> bug_desc = []).
Proof.
  intros Hd Hm Hr.
  destruct (analyze_run self diff subject s) as (s1 & E & R).
  unfold answer_of, request_of in E, R. rewrite Hm, Hr in *.
  destruct diff as [|c diff]; [contradiction|]. cbn [truthy] in E, R.
  unfold parse_answer in E.
  eexists; eexists; eexists; exists s1. split; [exact E|]. split; [exact R|].
  split; [reflexivity|]. split.
  - intros Hc. rewrite (re_search_after_absent _ _ Hc). reflexivity.
  - intros Hc. rewrite (re_search_after_absent _ _ Hc). reflexivity.
Qed.

End Properties.

(** *** Concrete runs *)

Lemma analyze_bug_failure_witness :
  exists s1,
    _analyze_bug_with_ai Corpus.sample_client Corpus.sample_patch (u8 "Fix bug")
      (start [Raise connection_error])
    = (Ret (false, [], []), s1).
Proof.
  destruct (analyze_bug_never_raises Corpus.sample_client Corpus.sample_patch
              (u8 "Fix bug") (start [Raise connection_error])) as (_ & _ & Hfail & _).
  apply (Hfail (u8 "qwen-plus")); reflexivity.
Defined.

Lemma analyze_bug_missing_marker_witness :
  exists is_bug bug_desc s1,
    _analyze_bug_with_ai Corpus.sample_client Corpus.sample_patch (u8 "Fix bug")
      (start [Ret [Some (u8 "[判断]是" ++ NL ++ u8 "[描述]修复")]])
    = (Ret (is_bug, [], bug_desc), s1).
Proof.
  assert (Hr : reply_of (ask (analyze_request (u8 "qwen-plus") Corpus.sample_patch
                                (u8 "Fix bug"))
                             (start [Ret [Some (u8 "[判断]是" ++ NL ++ u8 "[描述]修复")]]))
               = Some (u8 "[判断]是" ++ NL ++ u8 "[描述]修复")) by reflexivity.
  destruct (analyze_bug_missing_marker Corpus.sample_client Corpus.sample_patch
              (u8 "Fix bug") _ (u8 "qwen-plus") _ ltac:(discriminate) eq_refl Hr)
    as (is_bug & bug_type & bug_desc & s1 & E & _ & _ & Hty & _).
  exists is_bug, bug_desc, s1. rewrite <- (Hty ltac:(vm_compute; reflexivity)). exact E.
Defined.

End BugClassifier.
(* ====================================================================== *)
(** ** CorpusBuilder ([gerrit_AI.py]): the scan *)
(* ====================================================================== *)

Module CorpusScan.
Import gerrit_AI Corpus.

Section Traces.
Context {W : Type}.

(** [m] adds only events that satisfy [Q], and a value it returns
    satisfies [P]. *)
Definition emits {A} (Q : event -> Prop) (P : A -> Prop) (m : M W A) : Prop :=
  forall s r s',
    m s = (r, s') ->
    (exists delta, trace s' = trace s ++ delta /\ Forall Q delta)
    /\ (forall a, r = Ret a -> P a).

Lemma emits_ret {A} Q (P : A -> Prop) a : P a -> emits Q P (ret a).
Proof.
  intros Hp s r s' E. injection E as <- <-. split.
  - exists []. rewrite app_nil_r. split; [reflexivity|constructor].
  - intros a' Ea. injection Ea as <-. exact Hp.
Qed.

Lemma emits_raise {A} Q (P : A -> Prop) e : emits Q P (raise e).
Proof.
  intros s r s' E. injection E as <- <-. split.
  - exists []. rewrite app_nil_r. split; [reflexivity|constructor].
  - intros a' Ea. discriminate Ea.
Qed.

Lemma emits_bind {A B} Q (P' : A -> Prop) (P : B -> Prop) (m : M W A) (k : A -> M W B) :
  emits Q P' m -> (forall a, P' a -> emits Q P (k a)) -> emits Q P (bind m k).
Proof.
  intros Hm Hk s r s' E. unfold bind in E.
  destruct (m s) as [[a|e] s1] eqn:Em.
  - destruct (Hm s _ _ Em) as [(d1 & T1 & F1) Pa].
    destruct (Hk a (Pa a eq_refl) s1 r s' E) as [(d2 & T2 & F2) Pr].
    split; [|exact Pr].
    exists (d1 ++ d2). rewrite T2, T1, app_assoc. split; [reflexivity|].
    apply Forall_app. split; assumption.
  - injection E as <- <-. destruct (Hm s _ _ Em) as [Hd _].
    split; [exact Hd|]. intros a Ea. discriminate Ea.
Qed.

Lemma emits_try {A} Q (P : A -> Prop) (body : M W A) handler :
  emits Q P body -> (forall e, emits Q P (handler e)) ->
  emits Q P (try_except body handler).
Proof.
  intros Hb Hh s r s' E. unfold try_except in E.
  destruct (body s) as [[a|e] s1] eqn:Eb.
  - injection E as <- <-. exact (Hb s _ _ Eb).
  - destruct (Hb s _ _ Eb) as [(d1 & T1 & F1) _].
    destruct (Hh e s1 r s' E) as [(d2 & T2 & F2) Pr].
    split; [|exact Pr].
    exists (d1 ++ d2). rewrite T2, T1, app_assoc. split; [reflexivity|].
    apply Forall_app. split; assumption.
Qed.

Lemma emits_print Q (P : unit -> Prop) text :
  Q (EvPrint text) -> P tt -> emits Q P (print text).
Proof.
  intros Hq Hp s r s' E. rewrite print_run in E. injection E as <- <-. split.
  - exists [EvPrint text]. split; [reflexivity|]. constructor; [exact Hq|constructor].
  - intros [] _. exact Hp.
Qed.

Lemma emits_perform {A} Q (P : A -> Prop) (ev : res A -> event) op :
  (forall r, Q (ev r)) -> (forall a, P a) -> emits Q P (perform ev op).
Proof.
  intros Hq Hp s r s' E. unfold perform in E.
  destruct (op (world s)) as [r0 w']. injection E as <- <-. split.
  - exists [ev r0]. split; [reflexivity|]. constructor; [apply Hq|constructor].
  - intros a _. apply Hp.
Qed.

Lemma emits_weaken {A} Q (P P' : A -> Prop) (m : M W A) :
  emits Q P m -> (forall a, P a -> P' a) -> emits Q P' m.
Proof.
  intros Hm Hw s r s' E. destruct (Hm s r s' E) as [Hd Hp].
  split; [exact Hd|]. intros a Ea. apply Hw, Hp, Ea.
Qed.

End Traces.

Section Scan.

Context {W : Type} `{Oracle W} `{Gerrit W} `{FileSystem W} `{Regex}.

Lemma nonblank_of_cond (bad good : pystr) :
  negb (truthy (strip bad)) || negb (truthy (strip good)) = false ->
  nonblank bad /\ nonblank good.
Proof.
  unfold nonblank. intros Hc. apply orb_false_iff in Hc. destruct Hc as [Hb Hg].
  apply negb_false_iff in Hb, Hg. split; assumption.
Qed.

Lemma analyze_emits self patch subject :
  nonblank (_extract_bad_code patch) -> nonblank (_extract_good_code patch) ->
  emits scan_event (fun _ => True) (_analyze_bug_with_ai self patch subject).
Proof.
  intros Hb Hg. unfold _analyze_bug_with_ai.
  destruct (negb (truthy patch)); [apply emits_ret; exact I|].
  apply emits_try.
  - apply emits_bind with (P' := fun _ => True).
    { unfold config_getitem_model_name. destruct (config_model_name self);
        [apply emits_ret; exact I|apply emits_raise]. }
    intros m _. apply emits_bind with (P' := fun _ => True).
    { apply emits_perform; [|intros; exact I].
      intros _. exists m, patch, subject. repeat split; assumption. }
    intros response _. apply emits_bind with (P' := fun _ => True).
    { unfold index. destruct (nth_error response 0);
        [apply emits_ret; exact I|apply emits_raise]. }
    intros choice _. apply emits_bind with (P' := fun _ => True).
    { unfold strip_content. destruct choice;
        [apply emits_ret; exact I|apply emits_raise]. }
    intros answer _. apply emits_ret. exact I.
  - intros e. apply emits_bind with (P' := fun _ => True).
    + apply emits_print; exact I.
    + intros _ _. apply emits_ret. exact I.
Qed.

Lemma file_step_emits self c change_id file_path valuable_files :
  Forall record_ok valuable_files ->
  emits scan_event (Forall record_ok)
    (file_step self c change_id file_path valuable_files).
Proof.
  intros Hvf. unfold file_step. apply emits_try.
  - apply emits_bind with (P' := fun _ => True).
    { apply emits_perform; [intros; exact I|intros; exact I]. }
    intros patch _.
    destruct (negb (truthy (strip (_extract_bad_code patch)))
              || negb (truthy (strip (_extract_good_code patch)))) eqn:Hc.
    + apply emits_bind with (P' := fun _ => True).
      * apply emits_print; exact I.
      * intros _ _. apply emits_ret. exact Hvf.
    + destruct (nonblank_of_cond _ _ Hc) as [Hb Hg].
      apply emits_bind with (P' := fun _ => True).
      { unfold getitem. destruct (ch_subject c);
          [apply emits_ret; exact I|apply emits_raise]. }
      intros subject _. apply emits_bind with (P' := fun _ => True).
      { apply analyze_emits; assumption. }
      intros [[is_bug bug_type] bug_desc] _. destruct is_bug.
      * apply emits_bind with (P' := fun _ => True); [apply emits_print; exact I|].
        intros _ _.
        apply emits_bind with (P' := fun _ => True); [apply emits_print; exact I|].
        intros _ _.
        apply emits_bind with (P' := fun _ => True); [apply emits_print; exact I|].
        intros _ _. apply emits_ret.
        apply Forall_app. split; [exact Hvf|].
        constructor; [|constructor]. repeat split; assumption.
      * apply emits_bind with (P' := fun _ => True); [apply emits_print; exact I|].
        intros _ _. apply emits_ret. exact Hvf.
  - intros e. apply emits_bind with (P' := fun _ => True).
    + apply emits_print; exact I.
    + intros _ _. apply emits_ret. exact Hvf.
Qed.

Lemma files_loop_emits self c change_id files : forall valuable_files,
  Forall record_ok valuable_files ->
  emits scan_event (Forall record_ok)
    (files_loop self c change_id files valuable_files).
Proof.
  induction files as [|file_path rest IH]; intros vf Hvf; cbn [files_loop].
  - apply emits_ret. exact Hvf.
  - apply emits_bind with (P' := Forall record_ok).
    + apply file_step_emits. exact Hvf.
    + intros vf' Hvf'. apply IH. exact Hvf'.
Qed.

(** What holds of every change in the result of a scan. *)
Definition change_ok (bc : bugfix_change) : Prop :=
  files bc <> [] /\ Forall record_ok (files bc).

Lemma change_step_emits self keyword_pattern total i c result :
  Forall change_ok result ->
  emits scan_event (Forall change_ok)
    (change_step self keyword_pattern total i c result).
Proof.
  intros Hres. unfold change_step.
  apply emits_bind with (P' := fun _ => True).
  { unfold getitem. destruct (ch_id c); [apply emits_ret; exact I|apply emits_raise]. }
  intros change_id _. apply emits_bind with (P' := fun _ => True).
  { apply emits_perform; intros; exact I. }
  intros files _. apply emits_bind with (P' := fun _ => True).
  { unfold getitem. destruct (ch_subject c); [apply emits_ret; exact I|apply emits_raise]. }
  intros subject _. apply emits_bind with (P' := fun _ => True).
  { apply emits_print; exact I. }
  intros _ _. apply emits_bind with (P' := Forall record_ok).
  { apply files_loop_emits. constructor. }
  intros vf Hvf. destruct vf as [|f vf'].
  - apply emits_ret. exact Hres.
  - apply emits_bind with (P' := fun _ => True).
    { unfold getitem. destruct (ch_number c); [apply emits_ret; exact I|apply emits_raise]. }
    intros number _. apply emits_ret.
    apply Forall_app. split; [exact Hres|].
    constructor; [|constructor]. split; [discriminate|exact Hvf].
Qed.

Lemma changes_loop_emits self keyword_pattern total changes : forall i result,
  Forall change_ok result ->
  emits scan_event (Forall change_ok)
    (changes_loop self keyword_pattern total i changes result).
Proof.
  induction changes as [|c rest IH]; intros i result Hres; cbn [changes_loop].
  - apply emits_ret. exact Hres.
  - apply emits_bind with (P' := Forall change_ok).
    + apply change_step_emits. exact Hres.
    + intros result' Hres'. apply IH. exact Hres'.
Qed.

Lemma filter_bug_fixes_emits self changes bug_keywords :
  emits scan_event (Forall change_ok) (filter_bug_fixes self changes bug_keywords).
Proof.
  unfold filter_bug_fixes.
  destruct (re_compile_ignorecase (join (u8 "|") bug_keywords)) as [e|kp].
  - apply emits_raise.
  - apply emits_bind with (P' := fun _ => True).
    + apply emits_print; exact I.
    + intros _ _. apply changes_loop_emits. constructor.
Qed.

Lemma nonblank_nonempty s : nonblank s -> s <> [].
Proof. intros Hn ->. discriminate Hn. Qed.

(** Every record [filter_bug_fixes] returns has a before-code and an
    after-code that are not blank (so not empty), both being the splitter's
    output for the record's own patch; and no change is returned without a
    record. *)
Theorem filter_bug_fixes_records self changes bug_keywords s result s' :
  filter_bug_fixes self changes bug_keywords s = (Ret result, s') ->
  Forall (fun bc =>
            files bc <> []
            /\ Forall (fun f =>
                         record_ok f /\ bad_code f <> [] /\ good_code f <> [])
                      (files bc))
         result.
Proof.
  intros E.
  destruct (filter_bug_fixes_emits self changes bug_keywords s _ _ E) as [_ Hp].
  specialize (Hp result eq_refl).
  eapply Forall_impl; [|exact Hp].
  intros bc [Hne Hf]. split; [exact Hne|].
  eapply Forall_impl; [|exact Hf].
  intros f Hok. split; [exact Hok|].
  destruct Hok as (_ & _ & Hb & Hg). split; apply nonblank_nonempty; assumption.
Qed.

(** Whatever the outcome of a scan, every oracle request it sent is a
    classification request for a patch whose two halves are not blank: a
    file with a blank half is dropped before the oracle is asked.  The scan
    also writes no file. *)
Theorem filter_bug_fixes_asks_only_for_two_sided_patches self changes bug_keywords s r s' :
  filter_bug_fixes self changes bug_keywords s = (r, s') ->
  exists delta,
    trace s' = trace s ++ delta
    /\ Forall scan_event delta
    /\ Forall (fun req =>
                 exists m patch subject,
                   req = analyze_request m patch subject
                   /\ nonblank (_extract_bad_code patch)
                   /\ nonblank (_extract_good_code patch))
              (chat_requests delta)
    /\ write_attempts delta = [] /\ datasets delta = [].
Proof.
  intros E.
  destruct (filter_bug_fixes_emits self changes bug_keywords s _ _ E)
    as [(delta & T & F) _].
  exists delta. split; [exact T|]. split; [exact F|].
  clear - F. induction F as [|ev delta Hev F IH].
  - split; [constructor|split; reflexivity].
  - destruct IH as (IH1 & IH2 & IH3).
    destruct ev; cbn [scan_event] in Hev; try contradiction; simpl;
      repeat split; try assumption.
    constructor; assumption.
Qed.

(** One file never stops the scan of a change: [file_step] always returns.
    When fetching the patch raises, the failure is printed, the list of
    accepted files is unchanged and the oracle is not asked. *)
Theorem file_step_isolates_failures self c change_id file_path valuable_files s :
  (exists vf' s', file_step self c change_id file_path valuable_files s = (Ret vf', s'))
  /\ (forall e w',
        http_well_formatted_patch change_id file_path (world s) = (Raise e, w') ->
        file_step self c change_id file_path valuable_files s
        = (Ret valuable_files,
           {| world := w';
              trace := trace s
                       ++ [EvGerrit (u8 "get_well_formatted_patch") [change_id; file_path];
                           EvPrint (u8 "  ⚠️ 处理文件 " ++ file_path ++ u8 " 时出错: "
                                    ++ exn_str e)] |})).
Proof.
  split.
  - unfold file_step, try_except.
    match goal with |- context [match ?b s with _ => _ end] => destruct (b s) as [[vf|e] s1] end.
    + exists vf, s1. reflexivity.
    + eexists; eexists. rewrite (bind_run _ _ _ _ _ (print_run _ _)). reflexivity.
  - intros e w' Hf. unfold file_step, try_except, get_well_formatted_patch.
    unfold bind at 1. unfold perform. rewrite Hf.
    rewrite (bind_run _ _ _ _ _ (print_run _ _)). cbv beta. rewrite ret_run.
    cbn [world trace]. rewrite <- app_assoc. reflexivity.
Qed.

(** The keyword stage.  Changes whose subject the keyword pattern does not
    match have no effect on a scan: leaving them out of the input changes
    neither the result nor anything the scan does.  When no subject
    matches, the scan prints its count line and returns the empty list; and
    keywords that do not compile stop the scan before it does anything. *)
Theorem filter_bug_fixes_keyword_stage self changes bug_keywords :
  (forall kp,
     re_compile_ignorecase (join (u8 "|") bug_keywords) = inr kp ->
     filter_bug_fixes self changes bug_keywords
     = filter_bug_fixes self
         (filter (fun c => re_search kp (get_subject c)) changes) bug_keywords)
  /\ (forall kp s,
        re_compile_ignorecase (join (u8 "|") bug_keywords) = inr kp ->
        Forall (fun c => re_search kp (get_subject c) = false) changes ->
        filter_bug_fixes self changes bug_keywords s
        = (Ret [],
           {| world := world s;
              trace := trace s
                       ++ [EvPrint (u8 "找到 " ++ str_of_int 0
                                    ++ u8 " 个关键词匹配的变更，开始AI筛选...")] |}))
  /\ (forall e s,
        re_compile_ignorecase (join (u8 "|") bug_keywords) = inl e ->
        filter_bug_fixes self changes bug_keywords s = (Raise e, s)).
Proof.
  split; [|split].
  - intros kp Hkp. unfold filter_bug_fixes. rewrite Hkp.
    assert (Eidem : forall (p : change -> bool) l, filter p (filter p l) = filter p l).
    { intros p l. induction l as [|x l IH]; [reflexivity|].
      cbn [filter]. destruct (p x) eqn:Ep; [|exact IH].
      cbn [filter]. rewrite Ep, IH. reflexivity. }
    rewrite Eidem. reflexivity.
  - intros kp s Hkp Hall. unfold filter_bug_fixes. rewrite Hkp.
    assert (Enone : filter (fun c => re_search kp (get_subject c)) changes = []).
    { induction Hall as [|c l Hc Hall IH]; [reflexivity|].
      cbn [filter]. rewrite Hc. exact IH. }
    rewrite Enone. cbn [List.length changes_loop].
    rewrite (bind_run _ _ _ _ _ (print_run _ _)). reflexivity.
  - intros e s He. unfold filter_bug_fixes. rewrite He. reflexivity.
Qed.

(** A failure of the file listing is not isolated: when a change has no
    "id", or when listing its files raises, the loop over the changes
    raises at once, whatever it had collected and whatever changes remain. *)
Theorem scan_aborts_when_file_listing_fails self kp total i c rest result s :
  (ch_id c = None ->
   changes_loop self kp total i (c :: rest) result s
   = (Raise (Exception (u8 "KeyError") (u8 "'id'")), s))
  /\ (forall id e w',
        ch_id c = Some id ->
        http_change_files id (world s) = (Raise e, w') ->
        changes_loop self kp total i (c :: rest) result s
        = (Raise e,
           {| world := w';
              trace := trace s ++ [EvGerrit (u8 "get_change_files") [id]] |})).
Proof.
  split.
  - intros Hid. cbn [changes_loop]. unfold change_step, getitem. rewrite Hid.
    reflexivity.
  - intros id e w' Hid Hf. cbn [changes_loop]. unfold change_step, getitem.
    rewrite Hid. unfold bind at 1. unfold bind at 1. rewrite ret_run.
    unfold bind at 1. unfold get_change_files, perform. rewrite Hf. reflexivity.
Qed.

End Scan.

(** *** Concrete runs *)

Definition scan_start : state sim :=
  start {| oracle_script := [yes_reply]; disk_failures := 0; patch_fetch_fails := false |}.

Lemma filter_bug_fixes_records_witness :
  Forall (fun bc =>
            files bc <> []
            /\ Forall (fun f =>
                         record_ok f /\ bad_code f <> [] /\ good_code f <> [])
                      (files bc))
         [sample_bugfix].
Proof.
  eapply (filter_bug_fixes_records sample_client [sample_change] [u8 "bug"] scan_start).
  vm_compute. reflexivity.
Defined.

Lemma filter_bug_fixes_requests_witness :
  exists delta,
    trace (snd (filter_bug_fixes sample_client [sample_change] [u8 "bug"] scan_start))
    = trace scan_start ++ delta
    /\ Forall scan_event delta.
Proof.
  destruct (filter_bug_fixes_asks_only_for_two_sided_patches sample_client
              [sample_change] [u8 "bug"] scan_start _ _ (surjective_pairing _))
    as (delta & T & F & _).
  exists delta. split; assumption.
Defined.

Lemma file_step_witness :
  exists s',
    file_step sample_client sample_change (u8 "demo~main~I42") (u8 "src/a.c") []
      (start {| oracle_script := []; disk_failures := 0; patch_fetch_fails := true |})
    = (Ret [], s').
Proof.
  destruct (file_step_isolates_failures sample_client sample_change (u8 "demo~main~I42")
              (u8 "src/a.c") []
              (start {| oracle_script := []; disk_failures := 0; patch_fetch_fails := true |}))
    as [_ Hfail].
  eexists. apply (Hfail http_500). reflexivity.
Defined.

Lemma keyword_stage_witness :
  exists s',
    filter_bug_fixes sample_client
      [{| ch_id := Some (u8 "c1"); ch_subject := Some (u8 "Add feature");
          ch_number := Some 7%Z |}]
      [u8 "bug"] scan_start
    = (Ret [], s').
Proof.
  destruct (filter_bug_fixes_keyword_stage (W := sim) sample_client
              [{| ch_id := Some (u8 "c1"); ch_subject := Some (u8 "Add feature");
                  ch_number := Some 7%Z |}] [u8 "bug"]) as (_ & Hnone & _).
  eexists. apply (Hnone (tt : @pattern sim_regex)).
  - reflexivity.
  - constructor; [vm_compute; reflexivity|constructor].
Defined.

Lemma scan_aborts_witness :
  changes_loop sample_client (tt : @pattern sim_regex) 1 1
    [{| ch_id := None; ch_subject := Some (u8 "Fix bug"); ch_number := Some 7%Z |}]
    [sample_bugfix] scan_start
  = (Raise (Exception (u8 "KeyError") (u8 "'id'")), scan_start).
Proof.
  destruct (scan_aborts_when_file_listing_fails sample_client (tt : @pattern sim_regex)
              1%nat 1%Z
              {| ch_id := None; ch_subject := Some (u8 "Fix bug"); ch_number := Some 7%Z |}
              [] [sample_bugfix] scan_start) as [Hnoid _].
  apply Hnoid. reflexivity.
Defined.

End CorpusScan.
(* ====================================================================== *)
(** ** CorpusBuilder ([gerrit_AI.py]): saving patches and the dataset *)
(* ====================================================================== *)

Module CorpusSave.
Import gerrit_AI Corpus.

Lemma write_attempts_app t1 t2 :
  write_attempts (t1 ++ t2) = write_attempts t1 ++ write_attempts t2.
Proof.
  induction t1 as [|ev t1 IH]; [reflexivity|].
  destruct ev; cbn [app write_attempts]; rewrite IH; reflexivity.
Qed.

Lemma saved_writes_app t1 t2 :
  saved_writes (t1 ++ t2) = saved_writes t1 ++ saved_writes t2.
Proof.
  induction t1 as [|ev t1 IH]; [reflexivity|].
  destruct ev as [| | | | |p d [e|]|]; cbn [app saved_writes]; rewrite IH; reflexivity.
Qed.

Lemma datasets_app t1 t2 : datasets (t1 ++ t2) = datasets t1 ++ datasets t2.
Proof.
  induction t1 as [|ev t1 IH]; [reflexivity|].
  destruct ev; cbn [app datasets]; rewrite IH; reflexivity.
Qed.

(** The log of failed attempts holds one failed write per exception and
    nothing else but console output. *)
Lemma failure_log_facts max_retries file_path data filename errs : forall retry_count,
  let log := failure_log max_retries retry_count file_path data filename errs in
  write_attempts log = map (fun e => (file_path, data, Some e)) errs
  /\ saved_writes log = []
  /\ datasets log = []
  /\ chat_requests log = [].
Proof.
  induction errs as [|e errs IH]; intros retry_count; cbn [failure_log map].
  - repeat split.
  - destruct (IH (retry_count + 1)%Z) as (Hw & Hs & Hd & Hc).
    cbn [write_attempts saved_writes datasets chat_requests].
    rewrite write_attempts_app, saved_writes_app, datasets_app, chat_requests_app.
    rewrite Hw, Hs, Hd, Hc.
    destruct (retry_count + 1 =? max_retries)%Z; repeat split.
Qed.

(** When the count reaches the maximum, the log ends with the final
    report. *)
Lemma failure_log_ends_with_give_up max_retries file_path data filename errs :
  forall retry_count,
    errs <> [] ->
    (retry_count + Z.of_nat (List.length errs) = max_retries)%Z ->
    exists before,
      failure_log max_retries retry_count file_path data filename errs
      = before ++ [EvPrint (give_up_text filename)].
Proof.
  induction errs as [|e errs IH]; intros retry_count Hne Hlen; [contradiction|].
  cbn [failure_log]. destruct errs as [|e' errs'].
  - cbn [List.length] in Hlen.
    destruct (Z.eqb_spec (retry_count + 1) max_retries) as [_|Hn]; [|lia].
    cbn [failure_log app]. eexists [_; _]. reflexivity.
  - destruct (IH (retry_count + 1)%Z ltac:(discriminate)
                ltac:(cbn [List.length] in *; lia)) as (before & Eb).
    rewrite Eb. eexists (_ :: _ :: _ ++ before).
    cbn [app]. rewrite <- app_assoc. reflexivity.
Qed.

Section Save.

Context {W : Type} `{Oracle W} `{Gerrit W} `{FileSystem W} `{Regex}.

(** One turn of the retry loop. *)
Lemma save_patch_unfold fuel max_retries retry_count output_dir c f csv_data :
  save_patch (S fuel) max_retries retry_count output_dir c f csv_data
  = let filename := patch_filename c f in
    let file_path := os_path_join output_dir filename in
    if (retry_count <? max_retries)%Z then
      bind
        (try_except
           (bind (perform (fun r => EvOpenWrite file_path (patch f) (failure_of r))
                          (open_write file_path (patch f)))
                 (fun _ => bind (print (u8 "  ✅ 保存: " ++ filename))
                                (fun _ => ret (Some (csv_data ++ [csv_row c f])))))
           (fun e =>
              let retry_count := (retry_count + 1)%Z in
              bind (print (u8 "  ⚠️ 保存文件 " ++ filename ++ u8 " 失败 (尝试 "
                           ++ str_of_int retry_count ++ u8 "/" ++ str_of_int max_retries
                           ++ u8 "): " ++ exn_str e))
                   (fun _ =>
                      bind (if (retry_count =? max_retries)%Z
                            then print (u8 "  ❌ 无法保存文件 " ++ filename)
                            else ret tt)
                           (fun _ => ret None))))
        (fun saved =>
           match saved with
           | Some csv_data => ret csv_data
           | None =>
               save_patch fuel max_retries (retry_count + 1)%Z output_dir c f csv_data
           end)
    else ret csv_data.
Proof. reflexivity. Qed.

Lemma save_patch_done fuel max_retries retry_count output_dir c f csv_data :
  (max_retries <= retry_count)%Z ->
  save_patch fuel max_retries retry_count output_dir c f csv_data = ret csv_data.
Proof.
  intros Hge. destruct fuel; cbn [save_patch];
    destruct (Z.ltb_spec retry_count max_retries); try lia; reflexivity.
Qed.

(** The state after a failed attempt number [retry_count + 1]. *)
Definition after_failure (max_retries retry_count : Z) (file_path data filename : pystr)
    (e : exn) (w1 : W) (s : state W) : state W :=
  {| world := w1;
     trace := trace s ++ failure_log max_retries retry_count file_path data filename [e] |}.

Lemma save_patch_step fuel max_retries retry_count output_dir c f csv_data s :
  (retry_count < max_retries)%Z ->
  let filename := patch_filename c f in
  let file_path := os_path_join output_dir filename in
  save_patch (S fuel) max_retries retry_count output_dir c f csv_data s
  = match open_write file_path (patch f) (world s) with
    | (Ret _, w1) =>
        (Ret (csv_data ++ [csv_row c f]),
         {| world := w1;
            trace := trace s ++ [EvOpenWrite file_path (patch f) None;
                                 EvPrint (saved_text filename)] |})
    | (Raise e, w1) =>
        save_patch fuel max_retries (retry_count + 1) output_dir c f csv_data
          (after_failure max_retries retry_count file_path (patch f) filename e w1 s)
    end.
Proof.
  intros Hlt filename file_path.
  rewrite save_patch_unfold. cbv zeta. fold filename file_path.
  destruct (Z.ltb_spec retry_count max_retries) as [_|Hge]; [|lia].
  unfold bind at 1. unfold try_except. unfold bind at 1. unfold perform.
  destruct (open_write file_path (patch f) (world s)) as [[[]|e] w1].
  - rewrite (bind_run _ _ _ _ _ (print_run _ _)). cbv beta. rewrite !ret_run.
    cbn [trace world failure_of]. unfold saved_text. rewrite <- app_assoc. reflexivity.
  - rewrite (bind_run _ _ _ _ _ (print_run _ _)). cbv beta.
    unfold after_failure. cbn [failure_log failure_of trace world].
    unfold warn_text, give_up_text.
    destruct (retry_count + 1 =? max_retries)%Z.
    + rewrite (bind_run _ _ _ _ _ (print_run _ _)). cbv beta. rewrite ret_run.
      cbn [trace world app]. repeat rewrite <- app_assoc. reflexivity.
    + rewrite (bind_run _ _ _ _ _ (ret_run _ _)). cbv beta. rewrite ret_run.
      cbn [trace world app]. repeat rewrite <- app_assoc. reflexivity.
Qed.

Lemma failure_log_cons max_retries retry_count file_path data filename e errs :
  failure_log max_retries retry_count file_path data filename (e :: errs)
  = failure_log max_retries retry_count file_path data filename [e]
    ++ failure_log max_retries (retry_count + 1) file_path data filename errs.
Proof.
  cbn [failure_log app]. rewrite app_nil_r. reflexivity.
Qed.

(** The retry loop on one file, in full.  [errs] are the exceptions of the
    failed attempts, in order. *)
Lemma save_patch_run : forall fuel max_retries retry_count output_dir c f csv_data s,
  (max_retries - retry_count <= Z.of_nat fuel)%Z ->
  let filename := patch_filename c f in
  let file_path := os_path_join output_dir filename in
  exists errs s',
    ((save_patch fuel max_retries retry_count output_dir c f csv_data s
      = (Ret (csv_data ++ [csv_row c f]), s')
      /\ trace s' = trace s
                    ++ failure_log max_retries retry_count file_path (patch f) filename errs
                    ++ [EvOpenWrite file_path (patch f) None; EvPrint (saved_text filename)]
      /\ (retry_count + Z.of_nat (List.length errs) < max_retries)%Z)
     \/
     (save_patch fuel max_retries retry_count output_dir c f csv_data s = (Ret csv_data, s')
      /\ trace s' = trace s
                    ++ failure_log max_retries retry_count file_path (patch f) filename errs
      /\ Z.of_nat (List.length errs) = Z.max 0 (max_retries - retry_count))).
Proof.
  induction fuel as [|fuel IH]; intros max_retries retry_count output_dir c f csv_data s Hfuel
    filename file_path.
  - rewrite save_patch_done by lia.
    exists [], s. right. split; [reflexivity|]. split; [rewrite app_nil_r; reflexivity|].
    cbn [List.length]. lia.
  - destruct (Z.ltb_spec retry_count max_retries) as [Hlt|Hge].
    2:{ rewrite save_patch_done by lia.
        exists [], s. right. split; [reflexivity|].
        split; [rewrite app_nil_r; reflexivity|]. cbn [List.length]. lia. }
    rewrite (save_patch_step fuel max_retries retry_count output_dir c f csv_data s Hlt).
    cbv zeta. fold filename file_path.
    destruct (open_write file_path (patch f) (world s)) as [[[]|e] w1].
    + eexists [], _. left. split; [reflexivity|]. split; [reflexivity|].
      cbn [List.length]. lia.
    + destruct (IH max_retries (retry_count + 1)%Z output_dir c f csv_data
                  (after_failure max_retries retry_count file_path (patch f) filename e w1 s)
                  ltac:(lia)) as (errs & s' & Hcase).
      cbv zeta in Hcase. fold filename file_path in Hcase.
      exists (e :: errs), s'. rewrite failure_log_cons.
      destruct Hcase as [(E & T & L)|(E & T & L)]; [left|right].
      * split; [exact E|]. split.
        -- rewrite T. unfold after_failure. cbn [trace].
           repeat rewrite <- app_assoc. reflexivity.
        -- cbn [List.length]. lia.
      * split; [exact E|]. split.
        -- rewrite T. unfold after_failure. cbn [trace].
           repeat rewrite <- app_assoc. reflexivity.
        -- cbn [List.length]. lia.
Qed.

(** The retry loop for one accepted file never raises.  It tries the write
    at most [max_retries] times; every failed try is followed by a report
    that carries its number and the maximum; the first successful try ends
    the loop and adds the file's row; and when [max_retries] tries have
    failed (for a positive [max_retries]) the loop ends with the final
    report and adds no row. *)
Theorem save_patch_gives_up_after_max_retries max_retries output_dir c f csv_data s :
  let filename := patch_filename c f in
  let file_path := os_path_join output_dir filename in
  exists errs csv_data' s',
    save_patch (Z.to_nat max_retries) max_retries 0 output_dir c f csv_data s
    = (Ret csv_data', s')
    /\ exists tail,
        trace s' = trace s
                   ++ failure_log max_retries 0 file_path (patch f) filename errs ++ tail
        /\ (List.length (write_attempts
                           (failure_log max_retries 0 file_path (patch f) filename errs
                            ++ tail)) <= Z.to_nat max_retries)%nat
        /\ ((csv_data' = csv_data ++ [csv_row c f]
             /\ tail = [EvOpenWrite file_path (patch f) None; EvPrint (saved_text filename)])
            \/
            (csv_data' = csv_data /\ tail = []
             /\ List.length errs = Z.to_nat max_retries
             /\ ((0 < max_retries)%Z ->
                 exists before,
                   failure_log max_retries 0 file_path (patch f) filename errs
                   = before ++ [EvPrint (give_up_text filename)]))).
Proof.
  intros filename file_path.
  destruct (save_patch_run (Z.to_nat max_retries) max_retries 0 output_dir c f csv_data s
              ltac:(lia)) as (errs & s' & Hcase).
  cbv zeta in Hcase. fold filename file_path in Hcase.
  pose proof (failure_log_facts max_retries file_path (patch f) filename errs 0%Z)
    as (Hw & _).
  destruct Hcase as [(E & T & L)|(E & T & L)].
  - exists errs, (csv_data ++ [csv_row c f]), s'. split; [exact E|].
    eexists. split; [exact T|]. split.
    + rewrite write_attempts_app, Hw, length_app, length_map.
      cbn [write_attempts List.length]. lia.
    + left. split; reflexivity.
  - exists errs, csv_data, s'. split; [exact E|].
    exists []. split; [rewrite app_nil_r; exact T|]. split.
    + rewrite app_nil_r, Hw, length_map. lia.
    + right. split; [reflexivity|]. split; [reflexivity|]. split; [lia|].
      intros Hpos. apply failure_log_ends_with_give_up.
      * intros ->. cbn [List.length] in L. lia.
      * lia.
Qed.

(** The write of an accepted file: where, and what. *)
Definition write_of (output_dir : pystr) (cf : bugfix_change * file_record)
  : pystr * pystr :=
  (patch_path output_dir cf, patch (snd cf)).

(** A try at the write of an accepted file, with its failure if any. *)
Definition attempt_of (output_dir : pystr) (cf : bugfix_change * file_record)
    (failure : option exn) : pystr * pystr * option exn :=
  (patch_path output_dir cf, patch (snd cf), failure).

(** The tries at one accepted file: failed tries, then either the
    successful one, before [max_retries] tries have failed, or nothing more
    once [max_retries] tries have failed. *)
Definition file_attempts (max_retries : Z) (output_dir : pystr)
    (cf : bugfix_change * file_record) (segment : list (pystr * pystr * option exn))
  : Prop :=
  exists errs,
    (segment = map (fun e => attempt_of output_dir cf (Some e)) errs
               ++ [attempt_of output_dir cf None]
     /\ (Z.of_nat (List.length errs) < max_retries)%Z)
    \/ (segment = map (fun e => attempt_of output_dir cf (Some e)) errs
        /\ Z.of_nat (List.length errs) = Z.max 0 max_retries).

(** What the tries at one file come to. *)
Definition file_bound (max_retries : Z) (output_dir : pystr)
    (cf : bugfix_change * file_record) (segment : list (pystr * pystr * option exn))
  : Prop :=
  (List.length segment <= Z.to_nat max_retries)%nat
  /\ ((0 < max_retries)%Z -> segment <> [])
  /\ Forall (fun a => fst a = write_of output_dir cf) segment.

Lemma file_attempts_bound max_retries output_dir cf segment :
  file_attempts max_retries output_dir cf segment ->
  file_bound max_retries output_dir cf segment.
Proof.
  intros [errs [[-> L]|[-> L]]]; unfold file_bound.
  - split; [rewrite length_app, length_map; cbn [List.length]; lia|].
    split; [intros _ E; apply app_eq_nil in E; destruct E as [_ E]; discriminate E|].
    apply Forall_app. split; [apply Forall_map, Forall_forall; reflexivity|].
    constructor; [reflexivity|constructor].
  - split; [rewrite length_map; lia|].
    split; [|apply Forall_map, Forall_forall; reflexivity].
    intros Hpos E. destruct errs; [cbn [List.length] in L; lia|discriminate E].
Qed.

(** What one run of the save loops adds to the trace, for the accepted
    files [todo] of which [saved] were saved. *)
Record save_facts (max_retries : Z) (output_dir : pystr)
    (todo saved : list (bugfix_change * file_record)) (delta : list event) : Prop := {
  sf_subseq : subseq saved todo;
  sf_saved : saved_writes delta = map (write_of output_dir) saved;
  sf_segments : exists segments,
                  write_attempts delta = List.concat segments
                  /\ Forall2 (file_attempts max_retries output_dir) todo segments;
  sf_bound : (List.length (write_attempts delta)
              <= Z.to_nat max_retries * List.length todo)%nat;
  sf_tried : (0 < max_retries)%Z ->
             Forall (fun cf =>
                       exists r,
                         In (patch_path output_dir cf, patch (snd cf), r)
                            (write_attempts delta))
                    todo;
  sf_datasets : datasets delta = [];
  sf_requests : chat_requests delta = []
}.

Lemma save_facts_nil max_retries output_dir : save_facts max_retries output_dir [] [] [].
Proof.
  constructor; try reflexivity;
    [constructor|exists []; split; [reflexivity|constructor]|simpl; lia
    |intros _; constructor].
Qed.

Lemma save_facts_app max_retries output_dir todo1 saved1 delta1 todo2 saved2 delta2 :
  save_facts max_retries output_dir todo1 saved1 delta1 ->
  save_facts max_retries output_dir todo2 saved2 delta2 ->
  save_facts max_retries output_dir (todo1 ++ todo2) (saved1 ++ saved2) (delta1 ++ delta2).
Proof.
  intros [S1 W1 (g1 & A1 & G1) B1 T1 D1 R1] [S2 W2 (g2 & A2 & G2) B2 T2 D2 R2].
  constructor.
  - clear - S1 S2. induction S1; cbn [app]; [exact S2| |]; constructor; assumption.
  - rewrite saved_writes_app, W1, W2, map_app. reflexivity.
  - exists (g1 ++ g2). split; [|apply Forall2_app; assumption].
    rewrite write_attempts_app, A1, A2, concat_app. reflexivity.
  - rewrite write_attempts_app, !length_app. nia.
  - intros Hpos. apply Forall_app. split.
    + eapply Forall_impl; [|exact (T1 Hpos)]. intros cf [r Hin]. exists r.
      rewrite write_attempts_app. apply in_or_app. left. exact Hin.
    + eapply Forall_impl; [|exact (T2 Hpos)]. intros cf [r Hin]. exists r.
      rewrite write_attempts_app. apply in_or_app. right. exact Hin.
  - rewrite datasets_app, D1, D2. reflexivity.
  - rewrite chat_requests_app, R1, R2. reflexivity.
Qed.

Lemma save_facts_prints max_retries output_dir texts :
  save_facts max_retries output_dir [] [] (map EvPrint texts).
Proof.
  assert (E : write_attempts (map EvPrint texts) = [])
    by (induction texts; [reflexivity|assumption]).
  constructor; try (clear E; induction texts; [reflexivity|assumption]).
  - constructor.
  - exists []. split; [exact E|constructor].
  - rewrite E. simpl. lia.
  - intros _. constructor.
Qed.

Lemma save_patch_facts max_retries output_dir c f csv_data s :
  exists saved delta s',
    save_patch (Z.to_nat max_retries) max_retries 0 output_dir c f csv_data s
    = (Ret (csv_data ++ map (fun cf => csv_row (fst cf) (snd cf)) saved), s')
    /\ trace s' = trace s ++ delta
    /\ save_facts max_retries output_dir [(c, f)] saved delta.
Proof.
  destruct (save_patch_run (Z.to_nat max_retries) max_retries 0 output_dir c f csv_data s
              ltac:(lia)) as (errs & s' & Hcase).
  cbv zeta in Hcase.
  set (filename := patch_filename c f) in *.
  set (file_path := os_path_join output_dir filename) in *.
  pose proof (failure_log_facts max_retries file_path (patch f) filename errs 0%Z)
    as (Hw & Hs & Hd & Hc).
  destruct Hcase as [(E & T & L)|(E & T & L)].
  - exists [(c, f)]. eexists. exists s'. split; [exact E|]. split; [exact T|].
    constructor.
    + apply subseq_keep, subseq_nil.
    + rewrite saved_writes_app, Hs. reflexivity.
    + eexists [_]. cbn [List.concat]. rewrite app_nil_r. split; [reflexivity|].
      constructor; [|constructor]. exists errs. left.
      split; [|lia]. rewrite write_attempts_app, Hw. reflexivity.
    + rewrite write_attempts_app, Hw, length_app, length_map.
      cbn [write_attempts List.length]. lia.
    + intros _. constructor; [|constructor]. exists None.
      rewrite write_attempts_app. apply in_or_app. right. left. reflexivity.
    + rewrite datasets_app, Hd. reflexivity.
    + rewrite chat_requests_app, Hc. reflexivity.
  - exists []. eexists. exists s'. cbn [map]. rewrite app_nil_r.
    split; [exact E|]. split; [exact T|].
    constructor.
    + apply subseq_skip, subseq_nil.
    + exact Hs.
    + eexists [_]. cbn [List.concat]. rewrite app_nil_r. split; [reflexivity|].
      constructor; [|constructor]. exists errs. right.
      split; [exact Hw|]. rewrite L. f_equal. lia.
    + rewrite Hw, length_map. cbn [List.length]. lia.
    + intros Hpos. constructor; [|constructor].
      destruct errs as [|e errs]; [cbn [List.length] in L; lia|].
      exists (Some e). rewrite Hw. left. reflexivity.
    + exact Hd.
    + exact Hc.
Qed.

Lemma save_files_facts max_retries output_dir c fs : forall csv_data s,
  exists saved delta s',
    save_files max_retries output_dir c fs csv_data s
    = (Ret (csv_data ++ map (fun cf => csv_row (fst cf) (snd cf)) saved), s')
    /\ trace s' = trace s ++ delta
    /\ save_facts max_retries output_dir (map (fun f => (c, f)) fs) saved delta.
Proof.
  induction fs as [|f rest IH]; intros csv_data s; cbn [save_files map].
  - exists [], [], s. cbn [map]. rewrite !app_nil_r.
    split; [reflexivity|]. split; [reflexivity|apply save_facts_nil].
  - destruct (save_patch_facts max_retries output_dir c f csv_data s)
      as (saved1 & d1 & s1 & E1 & T1 & F1).
    destruct (IH (csv_data ++ map (fun cf => csv_row (fst cf) (snd cf)) saved1) s1)
      as (saved2 & d2 & s2 & E2 & T2 & F2).
    exists (saved1 ++ saved2), (d1 ++ d2), s2.
    split; [|split].
    + rewrite (bind_run _ _ _ _ _ E1). cbv beta. rewrite E2.
      rewrite map_app, app_assoc. reflexivity.
    + rewrite T2, T1, app_assoc. reflexivity.
    + exact (save_facts_app _ _ _ _ _ _ _ _ F1 F2).
Qed.

(** Joining the keywords of a change. *)
Lemma str_join_ok sep c (s : state W) :
  keywords_are_strings c = true ->
  exists text, str_join sep (matched_keywords c) s = (Ret text, s) /\ join_error c = None.
Proof.
  unfold keywords_are_strings, str_join, join_error.
  destruct (texts_of 0 (matched_keywords c)) as [i|texts]; [discriminate|].
  intros _. eexists. split; reflexivity.
Qed.

Lemma str_join_error sep c (s : state W) :
  keywords_are_strings c = false ->
  exists e, str_join sep (matched_keywords c) s = (Raise e, s) /\ join_error c = Some e.
Proof.
  unfold keywords_are_strings, str_join, join_error.
  destruct (texts_of 0 (matched_keywords c)) as [i|texts]; [|discriminate].
  intros _. eexists. split; reflexivity.
Qed.

Lemma printable_all bugfix_changes :
  Forall (fun c => keywords_are_strings c = true) bugfix_changes ->
  printable bugfix_changes = bugfix_changes
  /\ forall rows, save_outcome bugfix_changes rows = Ret rows.
Proof.
  induction 1 as [|c rest Hc _ [IH1 IH2]]; [split; reflexivity|].
  cbn [printable save_outcome]. rewrite Hc, IH1.
  split; [reflexivity|]. intros rows.
  unfold join_error. unfold keywords_are_strings in Hc.
  destruct (texts_of 0 (matched_keywords c)); [discriminate|]. apply IH2.
Qed.

Lemma save_outcome_raise bugfix_changes rows e :
  save_outcome bugfix_changes rows = Raise e ->
  exists c, In c bugfix_changes /\ join_error c = Some e.
Proof.
  induction bugfix_changes as [|c rest IH]; cbn [save_outcome]; [discriminate|].
  destruct (join_error c) as [e'|] eqn:Ej.
  - intros E. injection E as <-. exists c. split; [left; reflexivity|exact Ej].
  - intros E. destruct (IH E) as (c' & Hin & Ec'). exists c'.
    split; [right; exact Hin|exact Ec'].
Qed.

Lemma subseq_refl {A} (l : list A) : subseq l l.
Proof. induction l; constructor; assumption. Qed.

Lemma subseq_nil_l {A} (l : list A) : subseq [] l.
Proof. induction l; constructor; assumption. Qed.

Lemma subseq_app {A} (l1 l2 k1 k2 : list A) :
  subseq l1 k1 -> subseq l2 k2 -> subseq (l1 ++ l2) (k1 ++ k2).
Proof. intros S1 S2. induction S1; cbn [app]; [exact S2| |]; constructor; assumption. Qed.

Lemma subseq_trans {A} (l1 l2 l3 : list A) :
  subseq l1 l2 -> subseq l2 l3 -> subseq l1 l3.
Proof.
  intros S12 S23. revert l1 S12.
  induction S23 as [|x l2 l3 S23 IH|x l2 l3 S23 IH]; intros l1 S12.
  - exact S12.
  - apply subseq_skip, IH, S12.
  - inversion S12 as [|y a b S|y a b S]; subst.
    + apply subseq_skip, IH, S.
    + apply subseq_keep, IH, S.
Qed.

Lemma accepted_printable bugfix_changes :
  subseq (accepted (printable bugfix_changes)) (accepted bugfix_changes).
Proof.
  induction bugfix_changes as [|c rest IH]; [constructor|].
  cbn [printable]. destruct (keywords_are_strings c).
  - cbn [accepted flat_map]. apply subseq_app; [apply subseq_refl|exact IH].
  - apply subseq_nil_l.
Qed.

(** The saving stage in full, whatever its outcome: it gets through the
    changes whose keywords can be joined, and stops with the [TypeError]
    of the first one whose keywords cannot. *)
Lemma save_changes_facts max_retries output_dir bugfix_changes : forall csv_data s,
  exists saved delta s',
    save_changes max_retries output_dir bugfix_changes csv_data s
    = (save_outcome bugfix_changes
         (csv_data ++ map (fun cf => csv_row (fst cf) (snd cf)) saved), s')
    /\ trace s' = trace s ++ delta
    /\ save_facts max_retries output_dir (accepted (printable bugfix_changes)) saved delta.
Proof.
  induction bugfix_changes as [|c rest IH]; intros csv_data s;
    cbn [save_changes accepted flat_map printable save_outcome].
  - exists [], [], s. cbn [map]. rewrite !app_nil_r.
    split; [reflexivity|]. split; [reflexivity|apply save_facts_nil].
  - rewrite (bind_run _ _ _ _ _ (print_run _ _)); cbv beta.
    match goal with |- context [bind (str_join _ _) _ ?st] => set (s0 := st) end.
    destruct (keywords_are_strings c) eqn:Hk.
    + destruct (str_join_ok (u8 ", ") c s0 Hk) as (text & Ej & ->).
      rewrite (bind_run _ _ _ _ _ Ej); cbv beta.
      repeat (rewrite (bind_run _ _ _ _ _ (print_run _ _)); cbv beta).
      match goal with |- context [bind (save_files _ _ _ _ _) _ ?st] => set (s0' := st) end.
      destruct (save_files_facts max_retries output_dir c (files c) csv_data s0')
        as (saved1 & d1 & s1 & E1 & T1 & F1).
      destruct (IH (csv_data ++ map (fun cf => csv_row (fst cf) (snd cf)) saved1) s1)
        as (saved2 & d2 & s2 & E2 & T2 & F2).
      exists (saved1 ++ saved2).
      exists (map EvPrint
                [NL ++ u8 "🔍 变更 " ++ str_of_int (number c) ++ u8 ": " ++ subject c;
                 u8 "  匹配关键词: " ++ text;
                 u8 "  有效文件: " ++ str_of_int (Z.of_nat (List.length (files c)));
                 u8 "  链接: " ++ url c]
              ++ d1 ++ d2).
      exists s2.
      split; [|split].
      * rewrite (bind_run _ _ _ _ _ E1). cbv beta. rewrite E2.
        rewrite map_app, app_assoc. reflexivity.
      * rewrite T2, T1. unfold s0', s0. cbn [trace map app].
        repeat rewrite <- app_assoc. reflexivity.
      * cbn [accepted flat_map].
        apply (save_facts_app _ _ [] [] _ _ _ _ (save_facts_prints _ _ _)).
        exact (save_facts_app _ _ _ _ _ _ _ _ F1 F2).
    + destruct (str_join_error (u8 ", ") c s0 Hk) as (e & Ej & ->).
      rewrite (bind_raise_run _ _ _ _ _ Ej).
      exists [], [EvPrint (NL ++ u8 "🔍 变更 " ++ str_of_int (number c) ++ u8 ": "
                           ++ subject c)], s0.
      split; [reflexivity|]. split; [reflexivity|].
      exact (save_facts_prints max_retries output_dir [_]).
Qed.

(** The saving stage survives every failure of the disk, and every
    accepted file it reaches gets its turn.  The write attempts fall into
    one segment per such file, in order: failed tries at the file's path,
    then at most one successful try; at most [max_retries] tries, and at
    least one for a positive [max_retries].  The stage neither asks the
    oracle nor writes a dataset.  The one exception that leaves it is the
    [TypeError] of joining matched keywords that are tuples, which ends the
    stage at that change; with string keywords it reaches every accepted
    file and returns. *)
Theorem save_changes_continues_after_failures max_retries output_dir bugfix_changes
    csv_data s :
  exists r s' delta segments,
    save_changes max_retries output_dir bugfix_changes csv_data s = (r, s')
    /\ trace s' = trace s ++ delta
    /\ write_attempts delta = List.concat segments
    /\ Forall2 (file_attempts max_retries output_dir)
         (accepted (printable bugfix_changes)) segments
    /\ Forall2 (file_bound max_retries output_dir)
         (accepted (printable bugfix_changes)) segments
    /\ chat_requests delta = []
    /\ datasets delta = []
    /\ (Forall (fun c => keywords_are_strings c = true) bugfix_changes ->
        printable bugfix_changes = bugfix_changes /\ exists csv_data', r = Ret csv_data')
    /\ (forall e, r = Raise e ->
        exists c, In c bugfix_changes /\ join_error c = Some e).
Proof.
  destruct (save_changes_facts max_retries output_dir bugfix_changes csv_data s)
    as (saved & delta & s' & E & T & [_ _ (segments & A & G) _ _ D R]).
  eexists; exists s', delta, segments.
  split; [exact E|]. split; [exact T|]. split; [exact A|]. split; [exact G|].
  split; [eapply Forall2_impl; [|exact G]; intros cf seg;
          apply file_attempts_bound|].
  split; [exact R|]. split; [exact D|]. split.
  - intros Hall. destruct (printable_all _ Hall) as [Ep Eo].
    split; [exact Ep|]. eexists. apply Eo.
  - intros e Ee. exact (save_outcome_raise _ _ _ Ee).
Qed.

Lemma dict_to_list_csv_row c f (s : state W) :
  dict_to_list csv_fieldnames (csv_row c f) s = (Ret (row_cells (c, f)), s).
Proof.
  unfold dict_to_list.
  assert (E : existsb (fun kv => negb (existsb (str_eqb (fst kv)) csv_fieldnames))
                (csv_row c f) = false) by (vm_compute; reflexivity).
  rewrite E.
  assert (Em : map (fun key =>
                      match dict_get (csv_row c f) key with
                      | Some v => str_of_value v
                      | None => []
                      end) csv_fieldnames = row_cells (c, f))
    by (vm_compute; reflexivity).
  rewrite Em. reflexivity.
Qed.

Lemma dicts_to_lists_csv_rows saved (s : state W) :
  dicts_to_lists csv_fieldnames (map (fun cf => csv_row (fst cf) (snd cf)) saved) s
  = (Ret (map row_cells saved), s).
Proof.
  induction saved as [|[c f] saved IH]; [reflexivity|].
  cbn [map dicts_to_lists fst snd].
  rewrite (bind_run _ _ _ _ _ (dict_to_list_csv_row c f s)). cbv beta.
  rewrite (bind_run _ _ _ _ _ IH). reflexivity.
Qed.

Lemma save_csv_rows output_dir saved (s1 : state W) :
  saved <> [] ->
  let csv_path := os_path_join output_dir (u8 "bugfix_analysis.csv") in
  let ev := EvCsv csv_path csv_fieldnames (map row_cells saved) in
  save_csv output_dir (map (fun cf => csv_row (fst cf) (snd cf)) saved) s1
  = match open_write_csv csv_path csv_fieldnames (map row_cells saved) (world s1) with
    | (Ret _, w2) =>
        (Ret tt,
         {| world := w2;
            trace := trace s1
                     ++ [ev; EvPrint (NL ++ u8 "✅ 已保存分析结果到: " ++ csv_path)] |})
    | (Raise e, w2) => (Raise e, {| world := w2; trace := trace s1 ++ [ev] |})
    end.
Proof.
  intros Hne csv_path ev. destruct saved as [|cf saved']; [contradiction|].
  pose proof (dicts_to_lists_csv_rows (cf :: saved') s1) as Ed.
  unfold save_csv. fold csv_path. cbn [map] in Ed |- *.
  rewrite (bind_run _ _ _ _ _ Ed). cbv beta.
  unfold bind, perform. fold ev.
  destruct (open_write_csv _ _ _ (world s1)) as [[[]|e] w2].
  - rewrite print_run. cbn [trace world]. rewrite <- app_assoc. reflexivity.
  - reflexivity.
Qed.

(** The dataset holds the saved records, not the accepted ones.  The rows
    collected by the saving stage are those of the accepted files whose
    patch write succeeded, in order; the dataset file is written once, with
    the fixed header and one row of eight cells per such file; and when no
    patch was saved no dataset file is written at all.  The stage returns
    these rows whenever the matched keywords are strings; otherwise it
    leaves with the [TypeError] of the join and the rows are lost. *)
Theorem dataset_holds_the_saved_records max_retries output_dir bugfix_changes s :
  exists saved s1 delta,
    save_changes max_retries output_dir bugfix_changes [] s
    = (save_outcome bugfix_changes (map (fun cf => csv_row (fst cf) (snd cf)) saved), s1)
    /\ (Forall (fun c => keywords_are_strings c = true) bugfix_changes ->
        save_changes max_retries output_dir bugfix_changes [] s
        = (Ret (map (fun cf => csv_row (fst cf) (snd cf)) saved), s1))
    /\ trace s1 = trace s ++ delta
    /\ subseq saved (accepted bugfix_changes)
    /\ saved_writes delta = map (write_of output_dir) saved
    /\ datasets delta = []
    /\ (saved = [] -> save_csv output_dir [] s1 = (Ret tt, s1))
    /\ forall r s2,
        save_csv output_dir (map (fun cf => csv_row (fst cf) (snd cf)) saved) s1 = (r, s2) ->
        exists delta2,
          trace s2 = trace s1 ++ delta2
          /\ datasets delta2
             = match saved with
               | [] => []
               | _ :: _ =>
                   [(os_path_join output_dir (u8 "bugfix_analysis.csv"),
                     csv_fieldnames, map row_cells saved)]
               end.
Proof.
  destruct (save_changes_facts max_retries output_dir bugfix_changes [] s)
    as (saved & delta & s1 & E & T & [Sub Sw _ _ _ D _]).
  exists saved, s1, delta. cbn [app] in E.
  split; [exact E|].
  split; [intros Hall; rewrite E; destruct (printable_all _ Hall) as [_ ->]; reflexivity|].
  split; [exact T|].
  split; [exact (subseq_trans _ _ _ Sub (accepted_printable bugfix_changes))|].
  split; [exact Sw|]. split; [exact D|].
  split; [intros _; reflexivity|].
  intros r s2 Ecsv. destruct saved as [|cf saved'].
  - cbn [map save_csv] in Ecsv. injection Ecsv as <- <-.
    exists []. rewrite app_nil_r. split; reflexivity.
  - rewrite save_csv_rows in Ecsv by discriminate.
    destruct (open_write_csv _ _ _ (world s1)) as [[[]|e] w2];
      injection Ecsv as <- <-; eexists; (split; [reflexivity|]); reflexivity.
Qed.

(** The saving stage on a disk where every write succeeds. *)
Lemma save_changes_on_working_disk max_retries output_dir bugfix_changes :
  (0 < max_retries)%Z ->
  (forall p d w, exists w', open_write p d w = (Ret tt, w')) ->
  forall csv_data s,
  exists s' delta,
    let reached := accepted (printable bugfix_changes) in
    save_changes max_retries output_dir bugfix_changes csv_data s
    = (save_outcome bugfix_changes
         (csv_data ++ map (fun cf => csv_row (fst cf) (snd cf)) reached), s')
    /\ trace s' = trace s ++ delta
    /\ write_attempts delta = map (fun cf => attempt_of output_dir cf None) reached
    /\ saved_writes delta = map (write_of output_dir) reached
    /\ (Forall (fun c => keywords_are_strings c = true) bugfix_changes ->
        reached = accepted bugfix_changes
        /\ save_changes max_retries output_dir bugfix_changes csv_data s
           = (Ret (csv_data ++ map (fun cf => csv_row (fst cf) (snd cf))
                                   (accepted bugfix_changes)), s')).
Proof.
  intros Hpos Hdisk.
  assert (Hfile : forall c f csv_data s,
             exists s',
               save_patch (Z.to_nat max_retries) max_retries 0 output_dir c f csv_data s
               = (Ret (csv_data ++ [csv_row c f]), s')
               /\ trace s' = trace s
                             ++ [EvOpenWrite (patch_path output_dir (c, f)) (patch f) None;
                                 EvPrint (saved_text (patch_filename c f))]).
  { intros c f csv_data s.
    destruct (Z.to_nat max_retries) as [|fuel] eqn:Ef; [lia|].
    rewrite (save_patch_step fuel max_retries 0 output_dir c f csv_data s Hpos).
    cbv zeta.
    destruct (Hdisk (os_path_join output_dir (patch_filename c f)) (patch f) (world s))
      as (w' & ->).
    eexists. split; reflexivity. }
  assert (Hfiles : forall c fs csv_data s,
             exists s' delta,
               save_files max_retries output_dir c fs csv_data s
               = (Ret (csv_data ++ map (fun cf => csv_row (fst cf) (snd cf))
                                       (map (fun f => (c, f)) fs)), s')
               /\ trace s' = trace s ++ delta
               /\ write_attempts delta
                  = map (fun cf => attempt_of output_dir cf None) (map (fun f => (c, f)) fs)
               /\ saved_writes delta
                  = map (write_of output_dir) (map (fun f => (c, f)) fs)).
  { intros c fs. induction fs as [|f rest IH]; intros csv_data s; cbn [save_files map].
    - exists s, []. rewrite !app_nil_r. repeat split; reflexivity.
    - destruct (Hfile c f csv_data s) as (s1 & E1 & T1).
      rewrite (bind_run _ _ _ _ _ E1). cbv beta.
      destruct (IH (csv_data ++ [csv_row c f]) s1) as (s2 & d2 & E2 & T2 & A2 & S2).
      exists s2. eexists (_ :: _ :: d2).
      split; [rewrite E2; cbn [fst snd]; rewrite <- app_assoc; reflexivity|].
      split; [rewrite T2, T1, <- app_assoc; reflexivity|].
      cbn [write_attempts saved_writes]. rewrite A2, S2. split; reflexivity. }
  induction bugfix_changes as [|c rest IH]; intros csv_data s;
    cbn [save_changes accepted flat_map map printable save_outcome].
  - exists s, []. cbv zeta. cbn [accepted flat_map map]. rewrite !app_nil_r.
    repeat split; reflexivity.
  - rewrite (bind_run _ _ _ _ _ (print_run _ _)); cbv beta.
    match goal with |- context [bind (str_join _ _) _ ?st] => set (s0 := st) end.
    destruct (keywords_are_strings c) eqn:Hk.
    + destruct (str_join_ok (u8 ", ") c s0 Hk) as (text & Ej & ->).
      rewrite (bind_run _ _ _ _ _ Ej); cbv beta.
      repeat (rewrite (bind_run _ _ _ _ _ (print_run _ _)); cbv beta).
      match goal with |- context [bind (save_files _ _ _ _ _) _ ?st] => set (s0' := st) end.
      destruct (Hfiles c (files c) csv_data s0') as (s1 & d1 & E1 & T1 & A1 & S1).
      rewrite (bind_run _ _ _ _ _ E1). cbv beta.
      destruct (IH (csv_data ++ map (fun cf => csv_row (fst cf) (snd cf))
                                    (map (fun f => (c, f)) (files c))) s1)
        as (s2 & d2 & E2 & T2 & A2 & S2 & Hall2).
      cbv zeta in E2, A2, S2, Hall2.
      exists s2.
      exists (map EvPrint
                [NL ++ u8 "🔍 变更 " ++ str_of_int (number c) ++ u8 ": " ++ subject c;
                 u8 "  匹配关键词: " ++ text;
                 u8 "  有效文件: " ++ str_of_int (Z.of_nat (List.length (files c)));
                 u8 "  链接: " ++ url c]
              ++ d1 ++ d2).
      cbv zeta. cbn [accepted flat_map].
      assert (Erun : save_changes max_retries output_dir rest
                       (csv_data ++ map (fun cf => csv_row (fst cf) (snd cf))
                                        (map (fun f => (c, f)) (files c))) s1
                     = (save_outcome rest
                          (csv_data ++ map (fun cf => csv_row (fst cf) (snd cf))
                             (map (fun f => (c, f)) (files c)
                              ++ flat_map (fun c0 => map (fun f => (c0, f)) (files c0))
                                   (printable rest))), s2)).
      { rewrite E2. unfold accepted. rewrite map_app, app_assoc. reflexivity. }
      split; [exact Erun|].
      split; [rewrite T2, T1; unfold s0', s0; cbn [trace map app];
              repeat rewrite <- app_assoc; reflexivity|].
      split; [cbn [map app write_attempts]; rewrite write_attempts_app, A1, A2, map_app;
              reflexivity|].
      split; [cbn [map app saved_writes]; rewrite saved_writes_app, S1, S2, map_app;
              reflexivity|].
      intros Hall. inversion Hall as [|c0 l0 Hc Hrest]; subst.
      destruct (Hall2 Hrest) as [Er Eret]. unfold accepted in Er.
      split; [rewrite Er; reflexivity|].
      rewrite Eret. unfold accepted. rewrite map_app, app_assoc. reflexivity.
    + destruct (str_join_error (u8 ", ") c s0 Hk) as (e & Ej & ->).
      rewrite (bind_raise_run _ _ _ _ _ Ej).
      exists s0, [EvPrint (NL ++ u8 "🔍 变更 " ++ str_of_int (number c) ++ u8 ": "
                           ++ subject c)].
      cbv zeta. cbn [accepted flat_map map write_attempts saved_writes].
      split; [reflexivity|]. split; [reflexivity|]. split; [reflexivity|].
      split; [reflexivity|].
      intros Hall. inversion Hall as [|c0 l0 Hc Hrest]; subst. congruence.
Qed.

(** On a disk where every write succeeds, and with a positive
    [max_retries], every accepted record the stage reaches is saved at the
    first try: the write attempts of the stage are exactly one successful
    write per such record, at its path and with its patch, in the order of
    the scan, and the rows collected are theirs.  With string keywords the
    stage reaches every accepted record and returns the rows. *)
Theorem working_disk_saves_every_accepted_record max_retries output_dir bugfix_changes :
  (0 < max_retries)%Z ->
  (forall p d w, exists w', open_write p d w = (Ret tt, w')) ->
  forall csv_data s,
  exists s' delta,
    let reached := accepted (printable bugfix_changes) in
    save_changes max_retries output_dir bugfix_changes csv_data s
    = (save_outcome bugfix_changes
         (csv_data ++ map (fun cf => csv_row (fst cf) (snd cf)) reached), s')
    /\ trace s' = trace s ++ delta
    /\ write_attempts delta = map (fun cf => attempt_of output_dir cf None) reached
    /\ saved_writes delta = map (write_of output_dir) reached
    /\ (Forall (fun c => keywords_are_strings c = true) bugfix_changes ->
        reached = accepted bugfix_changes
        /\ save_changes max_retries output_dir bugfix_changes csv_data s
           = (Ret (csv_data ++ map (fun cf => csv_row (fst cf) (snd cf))
                                   (accepted bugfix_changes)), s')).
Proof. exact (save_changes_on_working_disk max_retries output_dir bugfix_changes). Qed.

Lemma saved_writes_of_no_attempt t : write_attempts t = [] -> saved_writes t = [].
Proof.
  induction t as [|ev t IH]; [reflexivity|].
  destruct ev; cbn [write_attempts saved_writes]; try exact IH. discriminate.
Qed.

(** With [max_retries] zero or negative the saving stage never opens a
    file: no patch is saved, no row is collected and no dataset is written,
    whatever was accepted.  The stage returns the empty list of rows
    whenever the matched keywords are strings, and leaves with the
    [TypeError] of the join otherwise. *)
Theorem no_retries_saves_nothing max_retries output_dir bugfix_changes s :
  (max_retries <= 0)%Z ->
  exists s' delta,
    save_changes max_retries output_dir bugfix_changes [] s
    = (save_outcome bugfix_changes [], s')
    /\ (Forall (fun c => keywords_are_strings c = true) bugfix_changes ->
        save_changes max_retries output_dir bugfix_changes [] s = (Ret [], s'))
    /\ trace s' = trace s ++ delta
    /\ write_attempts delta = []
    /\ save_csv output_dir [] s' = (Ret tt, s').
Proof.
  intros Hmax.
  destruct (save_changes_facts max_retries output_dir bugfix_changes [] s)
    as (saved & delta & s' & E & T & [_ Sw _ B _ _ _]).
  assert (Hw : write_attempts delta = []).
  { destruct (write_attempts delta); [reflexivity|].
    replace (Z.to_nat max_retries) with 0%nat in B by lia. cbn [List.length] in B. lia. }
  rewrite (saved_writes_of_no_attempt _ Hw) in Sw.
  destruct saved; [|discriminate].
  exists s', delta. split; [exact E|].
  split; [intros Hall; rewrite E; destruct (printable_all _ Hall) as [_ ->]; reflexivity|].
  split; [exact T|]. split; [exact Hw|reflexivity].
Qed.

End Save.

Lemma save_patch_witness :
  exists s',
    save_patch 2 2 0 (u8 "out") sample_bugfix sample_file []
      (start {| oracle_script := []; disk_failures := 5; patch_fetch_fails := false |})
    = (Ret [], s').
Proof.
  destruct (save_patch_gives_up_after_max_retries 2 (u8 "out") sample_bugfix sample_file []
              (start {| oracle_script := []; disk_failures := 5;
                        patch_fetch_fails := false |}))
    as (errs & csv' & s' & E & tail & T & _ & Hcase).
  exists s'. change (Z.to_nat 2) with 2%nat in E. rewrite E. f_equal. f_equal.
  destruct Hcase as [[-> ->]|[-> _]]; [|reflexivity].
  exfalso. vm_compute in E. discriminate E.
Defined.

Definition full_disk : state sim :=
  start {| oracle_script := []; disk_failures := 5; patch_fetch_fails := false |}.

Lemma save_changes_witness :
  exists csv_data' s' segment,
    save_changes 3 (u8 "out") [sample_bugfix] [] full_disk = (Ret csv_data', s')
    /\ write_attempts (trace s') = segment
    /\ file_bound 3 (u8 "out") (sample_bugfix, sample_file) segment.
Proof.
  destruct (save_changes_continues_after_failures 3 (u8 "out") [sample_bugfix] []
              full_disk) as (r & s' & delta & segments & E & T & A & _ & B & _ & _ & Hret & _).
  assert (Hall : Forall (fun c => keywords_are_strings c = true) [sample_bugfix])
    by (constructor; [reflexivity|constructor]).
  destruct (Hret Hall) as [_ [csv_data' ->]].
  exists csv_data', s'. cbn [printable accepted flat_map] in B.
  change (keywords_are_strings sample_bugfix) with true in B.
  cbn [accepted flat_map files sample_bugfix map app] in B.
  inversion B as [|cf seg l l' Hseg Hnil]; subst. inversion Hnil; subst.
  exists seg. split; [exact E|]. split; [|exact Hseg].
  rewrite T. cbn [full_disk start trace app]. rewrite A. cbn [List.concat].
  apply app_nil_r.
Defined.

(** An accepted record on a full disk: nothing is saved and the dataset
    file is not written. *)
Lemma dataset_witness :
  exists s1,
    save_changes 3 (u8 "out") [sample_bugfix] [] full_disk = (Ret [], s1)
    /\ save_csv (u8 "out") [] s1 = (Ret tt, s1).
Proof.
  destruct (dataset_holds_the_saved_records 3 (u8 "out") [sample_bugfix] full_disk)
    as (saved & s1 & delta & _ & Hret & T & _ & Sw & _ & Hnone & _).
  assert (Hall : Forall (fun c => keywords_are_strings c = true) [sample_bugfix])
    by (constructor; [reflexivity|constructor]).
  pose proof (Hret Hall) as E.
  assert (Esaved : saved = []).
  { destruct saved as [|cf saved']; [reflexivity|]. exfalso.
    assert (Ed : saved_writes delta = []).
    { assert (Et : trace s1 = trace (snd (save_changes 3 (u8 "out") [sample_bugfix] []
                                            full_disk))) by (rewrite E; reflexivity).
      rewrite T in Et. cbn [full_disk start trace app] in Et. rewrite Et.
      vm_compute. reflexivity. }
    rewrite Ed in Sw. discriminate Sw. }
  subst saved. exists s1. split; [exact E|]. apply Hnone. reflexivity.
Defined.

Lemma working_disk_witness :
  exists s',
    save_changes 3 (u8 "out") [sample_bugfix] [] (start ([] : good_disk))
    = (Ret [csv_row sample_bugfix sample_file], s')
    /\ write_attempts (trace s')
       = [attempt_of (u8 "out") (sample_bugfix, sample_file) None].
Proof.
  destruct (working_disk_saves_every_accepted_record 3 (u8 "out") [sample_bugfix]
              ltac:(lia) ltac:(intros p d w; eexists; reflexivity) []
              (start ([] : good_disk))) as (s' & delta & E & T & A & _).
  exists s'. split; [exact E|]. rewrite T. exact A.
Defined.

Lemma no_retries_witness :
  exists s',
    save_changes 0 (u8 "out") [sample_bugfix] []
      (start {| oracle_script := []; disk_failures := 0; patch_fetch_fails := false |})
    = (Ret [], s').
Proof.
  destruct (no_retries_saves_nothing 0 (u8 "out") [sample_bugfix]
              (start {| oracle_script := []; disk_failures := 0;
                        patch_fetch_fails := false |}) ltac:(lia))
    as (s' & delta & E & _).
  exists s'. exact E.
Defined.

(** Keywords recorded as tuples: the saving stage leaves with a
    [TypeError] before any file is opened. *)
Example grouped_keywords_raise :
  exists s',
    save_changes 3 (u8 "out") [grouped_bugfix] [] (start ([] : good_disk))
    = (Raise (Exception (u8 "TypeError")
                (u8 "sequence item 0: expected str instance, tuple found")), s')
    /\ write_attempts (trace s') = [].
Proof. eexists. split; [vm_compute; reflexivity|reflexivity]. Qed.

End CorpusSave.
(* ====================================================================== *)
(** ** CorpusBuilder ([gerrit_AI.py]): a whole run *)
(* ====================================================================== *)

Module CorpusRun.
Import gerrit_AI Corpus CorpusScan CorpusSave.

(** A patch text both halves of which are not blank. *)
Definition two_sided (patch_text : pystr) : Prop :=
  nonblank (_extract_bad_code patch_text) /\ nonblank (_extract_good_code patch_text).

(** A dataset row: eight cells, the first two not blank. *)
Definition row_ok (cells : list pystr) : Prop :=
  exists bad good rest,
    cells = bad :: good :: rest /\ List.length rest = 6%nat
    /\ nonblank bad /\ nonblank good.

(** What a run of [download_bugfix_patches] may add to the trace. *)
Definition run_event (ev : event) : Prop :=
  match ev with
  | EvChat req =>
      exists m patch_text subject,
        req = analyze_request m patch_text subject /\ two_sided patch_text
  | EvOpenWrite _ data _ => two_sided data
  | EvCsv _ header rows => header = csv_fieldnames /\ Forall row_ok rows
  | EvSleep _ => False
  | _ => True
  end.

(** A dictionary of [csv_data]: the row of a well-formed record. *)
Definition good_row (d : dict) : Prop :=
  exists c f, d = csv_row c f /\ record_ok f.

Section Run.

Context {W : Type} `{Oracle W} `{Gerrit W} `{FileSystem W} `{Regex}.

Lemma emits_events_weaken {A} (Q Q' : event -> Prop) (P : A -> Prop) (m : M W A) :
  (forall ev, Q ev -> Q' ev) -> emits Q P m -> emits Q' P m.
Proof.
  intros Hq Hm s r s' E. destruct (Hm s r s' E) as [(delta & T & F) Hp].
  split; [|exact Hp]. exists delta. split; [exact T|].
  eapply Forall_impl; [|exact F]. exact Hq.
Qed.

Lemma scan_event_run_event ev : scan_event ev -> run_event ev.
Proof.
  destruct ev; cbn [scan_event run_event]; tauto.
Qed.

Lemma record_two_sided f : record_ok f -> two_sided (patch f).
Proof.
  intros (Eb & Eg & Hb & Hg). unfold two_sided. rewrite <- Eb, <- Eg. split; assumption.
Qed.

Lemma save_patch_emits c f : record_ok f ->
  forall fuel max_retries retry_count output_dir csv_data,
    Forall good_row csv_data ->
    emits run_event (Forall good_row)
      (save_patch fuel max_retries retry_count output_dir c f csv_data).
Proof.
  intros Hok. induction fuel as [|fuel IH];
    intros max_retries retry_count output_dir csv_data Hcsv; cbn [save_patch].
  - destruct (retry_count <? max_retries)%Z; [apply emits_raise|apply emits_ret; exact Hcsv].
  - destruct (retry_count <? max_retries)%Z; [|apply emits_ret; exact Hcsv].
    apply emits_bind with
      (P' := fun saved => match saved with
                          | Some csv => Forall good_row csv
                          | None => True
                          end).
    + apply emits_try.
      * apply emits_bind with (P' := fun _ => True).
        { apply emits_perform; [|intros; exact I].
          intros r. apply record_two_sided. exact Hok. }
        intros _ _. apply emits_bind with (P' := fun _ => True).
        { apply emits_print; exact I. }
        intros _ _. apply emits_ret. apply Forall_app. split; [exact Hcsv|].
        constructor; [|constructor]. exists c, f. split; [reflexivity|exact Hok].
      * intros e. apply emits_bind with (P' := fun _ => True).
        { apply emits_print; exact I. }
        intros _ _. apply emits_bind with (P' := fun _ => True).
        { destruct (retry_count + 1 =? max_retries)%Z;
            [apply emits_print; exact I|apply emits_ret; exact I]. }
        intros _ _. apply emits_ret. exact I.
    + intros [csv|] Hsaved; [apply emits_ret; exact Hsaved|].
      apply IH. exact Hcsv.
Qed.

Lemma save_files_emits max_retries output_dir c fs :
  Forall record_ok fs ->
  forall csv_data,
    Forall good_row csv_data ->
    emits run_event (Forall good_row) (save_files max_retries output_dir c fs csv_data).
Proof.
  induction 1 as [|f rest Hf Hrest IH]; intros csv_data Hcsv; cbn [save_files].
  - apply emits_ret. exact Hcsv.
  - apply emits_bind with (P' := Forall good_row).
    + apply save_patch_emits; assumption.
    + intros csv' Hcsv'. apply IH. exact Hcsv'.
Qed.

Lemma save_changes_emits max_retries output_dir bugfix_changes :
  Forall change_ok bugfix_changes ->
  forall csv_data,
    Forall good_row csv_data ->
    emits run_event (Forall good_row)
      (save_changes max_retries output_dir bugfix_changes csv_data).
Proof.
  induction 1 as [|c rest [_ Hc] Hrest IH]; intros csv_data Hcsv; cbn [save_changes].
  - apply emits_ret. exact Hcsv.
  - apply emits_bind with (P' := fun _ => True); [apply emits_print; exact I|]. intros _ _.
    apply emits_bind with (P' := fun _ => True).
    { unfold str_join. destruct (texts_of 0 (matched_keywords c));
        [apply emits_raise|apply emits_ret; exact I]. }
    intros keywords _.
    apply emits_bind with (P' := fun _ => True); [apply emits_print; exact I|]. intros _ _.
    apply emits_bind with (P' := fun _ => True); [apply emits_print; exact I|]. intros _ _.
    apply emits_bind with (P' := fun _ => True); [apply emits_print; exact I|]. intros _ _.
    apply emits_bind with (P' := Forall good_row).
    + apply save_files_emits; assumption.
    + intros csv' Hcsv'. apply IH. exact Hcsv'.
Qed.

Lemma row_cells_ok c f : record_ok f -> row_ok (row_cells (c, f)).
Proof.
  intros (_ & _ & Hb & Hg). cbn [row_cells].
  eexists; eexists; eexists. split; [reflexivity|]. split; [reflexivity|].
  split; assumption.
Qed.

Lemma dicts_to_lists_emits csv_data :
  Forall good_row csv_data ->
  emits (W := W) run_event (Forall row_ok) (dicts_to_lists csv_fieldnames csv_data).
Proof.
  induction 1 as [|d rest (c & f & -> & Hok) Hrest IH]; cbn [dicts_to_lists].
  - apply emits_ret. constructor.
  - apply emits_bind with (P' := row_ok).
    + intros s r s' E. rewrite dict_to_list_csv_row in E. injection E as <- <-.
      split.
      * exists []. rewrite app_nil_r. split; [reflexivity|constructor].
      * intros a Ea. injection Ea as <-. apply row_cells_ok. exact Hok.
    + intros l Hl. apply emits_bind with (P' := Forall row_ok); [exact IH|].
      intros ls Hls. apply emits_ret. constructor; assumption.
Qed.

Lemma save_csv_emits output_dir csv_data :
  Forall good_row csv_data ->
  emits run_event (fun _ => True) (save_csv output_dir csv_data).
Proof.
  intros Hcsv. unfold save_csv. destruct csv_data as [|d rest].
  - apply emits_ret. exact I.
  - apply emits_bind with (P' := Forall row_ok).
    + apply dicts_to_lists_emits. exact Hcsv.
    + intros rows Hrows. apply emits_bind with (P' := fun _ => True).
      * apply emits_perform; [|intros; exact I]. intros _. split; [reflexivity|exact Hrows].
      * intros _ _. apply emits_print; exact I.
Qed.

Lemma download_emits self project_name output_dir bug_keywords max_retries :
  emits run_event (fun _ => True)
    (download_bugfix_patches self project_name output_dir bug_keywords max_retries).
Proof.
  unfold download_bugfix_patches.
  apply emits_bind with (P' := fun _ => True).
  { apply emits_perform; intros; exact I. }
  intros _ _.
  apply emits_bind with (P' := fun _ => True); [apply emits_print; exact I|]. intros _ _.
  apply emits_bind with (P' := fun _ => True); [apply emits_print; exact I|]. intros _ _.
  apply emits_bind with (P' := fun _ => True).
  { apply emits_perform; intros; exact I. }
  intros changes _.
  apply emits_bind with (P' := Forall change_ok).
  { apply (emits_events_weaken scan_event); [exact scan_event_run_event|].
    apply filter_bug_fixes_emits. }
  intros bugfix_changes Hchanges.
  apply emits_bind with (P' := fun _ => True); [apply emits_print; exact I|]. intros _ _.
  apply emits_bind with (P' := Forall good_row).
  { apply save_changes_emits; [exact Hchanges|constructor]. }
  intros csv_data Hcsv.
  apply emits_bind with (P' := fun _ => True).
  { apply save_csv_emits. exact Hcsv. }
  intros _ _ s r s' E. rewrite print_run in E. injection E as <- <-.
  split; [|intros; exact I].
  eexists [_]. split; [reflexivity|]. constructor; [exact I|constructor].
Qed.

(** A whole run of [download_bugfix_patches], whatever its outcome: every
    oracle request and every patch file written is for a patch whose
    before-code and after-code are not blank, and every dataset written has
    the fixed header and rows of eight cells whose first two (bad_code and
    good_code) are not blank. *)
Theorem download_handles_only_two_sided_patches self project_name output_dir
    bug_keywords max_retries s r s' :
  download_bugfix_patches self project_name output_dir bug_keywords max_retries s = (r, s') ->
  exists delta,
    trace s' = trace s ++ delta
    /\ Forall (fun req =>
                 exists m patch_text subject,
                   req = analyze_request m patch_text subject /\ two_sided patch_text)
              (chat_requests delta)
    /\ Forall (fun a => two_sided (snd (fst a))) (write_attempts delta)
    /\ Forall (fun d => snd (fst d) = csv_fieldnames /\ Forall row_ok (snd d))
              (datasets delta).
Proof.
  intros E.
  destruct (download_emits self project_name output_dir bug_keywords max_retries s r s' E)
    as [(delta & T & F) _].
  exists delta. split; [exact T|]. clear - F.
  induction F as [|ev delta Hev F (IH1 & IH2 & IH3)].
  - repeat split; constructor.
  - destruct ev; cbn [run_event] in Hev;
      cbn [chat_requests write_attempts datasets]; repeat split;
      try assumption; try contradiction; constructor; assumption.
Qed.

End Run.

Lemma download_witness :
  exists delta,
    trace (snd (download_bugfix_patches sample_client (u8 "demo") (u8 "out") None 3
                  scan_start))
    = trace scan_start ++ delta
    /\ Forall (fun d => snd (fst d) = csv_fieldnames /\ Forall row_ok (snd d))
              (datasets delta).
Proof.
  destruct (download_handles_only_two_sided_patches sample_client (u8 "demo") (u8 "out")
              None 3 scan_start _ _ (surjective_pairing _)) as (delta & T & _ & _ & D).
  exists delta. split; assumption.
Defined.

End CorpusRun.
(* ====================================================================== *)
(** ** The patch text and the file names ([gerrit_AI.py]) *)
(* ====================================================================== *)

Module PatchText.
Import gerrit_AI Corpus patch_text.

Lemma replace_cr_no_cr (s : pystr) : ~ In 13 (replace_cr s).
Proof.
  induction s as [|c s IH]; [intros []|].
  cbn [replace_cr map]. intros [E|Hin]; [|exact (IH Hin)].
  destruct (N.eqb_spec c 13) as [->|Hn]; [discriminate E|]. congruence.
Qed.

Lemma replace_cr_id (s : pystr) : ~ In 13 s -> replace_cr s = s.
Proof.
  induction s as [|c s IH]; intros Hn; [reflexivity|].
  cbn [replace_cr map]. destruct (N.eqb_spec c 13) as [->|_].
  - exfalso. apply Hn. left. reflexivity.
  - f_equal. apply IH. intros Hin. apply Hn. right. exact Hin.
Qed.

Lemma replace_crlf_id (s : pystr) : ~ In 13 s -> replace_crlf s = s.
Proof.
  induction s as [|c s IH]; intros Hn; [reflexivity|].
  cbn [replace_crlf]. destruct s as [|d s']; [reflexivity|].
  destruct (N.eqb_spec c 13) as [->|_].
  - exfalso. apply Hn. left. reflexivity.
  - cbn [andb]. f_equal. apply IH. intros Hin. apply Hn. right. exact Hin.
Qed.

Lemma replace_crlf_keeps_final_newline : forall n (d : pystr),
  (List.length d <= n)%nat -> exists b, replace_crlf (d ++ [10]) = b ++ [10].
Proof.
  induction n as [|n IH]; intros d Hlen.
  - destruct d; [|cbn [List.length] in Hlen; lia]. exists []. reflexivity.
  - destruct d as [|c d]; [exists []; reflexivity|].
    cbn [List.length] in Hlen. cbn [app replace_crlf].
    destruct d as [|x d']; cbn [app].
    + destruct ((c =? 13) && (10 =? 10)).
      * exists []. reflexivity.
      * exists [c]. reflexivity.
    + destruct ((c =? 13) && (x =? 10)).
      * destruct (IH d' ltac:(cbn [List.length] in Hlen; lia)) as (b & Eb).
        exists (10 :: b). rewrite Eb. reflexivity.
      * destruct (IH (x :: d') ltac:(lia)) as (b & Eb).
        exists (c :: b). cbn [app] in Eb. rewrite Eb. reflexivity.
Qed.

Lemma endswith_nl_snoc (d : pystr) :
  endswith_nl d = true -> exists d', d = d' ++ [10].
Proof.
  unfold endswith_nl. intros E.
  destruct (rev d) as [|c r] eqn:Er; [discriminate|].
  apply N.eqb_eq in E. subst c. exists (rev r).
  rewrite <- (rev_involutive d), Er. reflexivity.
Qed.

Lemma endswith_nl_app (b : pystr) : endswith_nl (b ++ [10]) = true.
Proof. unfold endswith_nl. rewrite rev_app_distr. reflexivity. Qed.

(** The text [get_well_formatted_patch] returns holds no carriage return
    and ends with a newline; a decoded text that already is like that is
    returned as it is, so formatting a returned text again changes
    nothing. *)
Theorem well_formatted_text (decoded : pystr) :
  ~ In 13 (well_formatted decoded)
  /\ (exists body, well_formatted decoded = body ++ NL)
  /\ (~ In 13 decoded -> endswith_nl decoded = true -> well_formatted decoded = decoded)
  /\ well_formatted (well_formatted decoded) = well_formatted decoded.
Proof.
  assert (P1 : forall d, ~ In 13 (well_formatted d)).
  { intros d Hin. unfold well_formatted in Hin. apply in_app_or in Hin.
    destruct Hin as [Hin|Hin]; [exact (replace_cr_no_cr _ Hin)|].
    destruct (endswith_nl d); [exact Hin|].
    destruct Hin as [E|[]]. discriminate E. }
  assert (P2 : forall d, exists body, well_formatted d = body ++ NL).
  { intros d. unfold well_formatted. destruct (endswith_nl d) eqn:Ee.
    - destruct (endswith_nl_snoc d Ee) as (d' & ->).
      destruct (replace_crlf_keeps_final_newline (List.length d') d' (le_n _)) as (b & Eb).
      rewrite Eb, app_nil_r. exists (replace_cr b).
      unfold replace_cr. rewrite map_app. reflexivity.
    - eexists. reflexivity. }
  assert (P3 : forall d, ~ In 13 d -> endswith_nl d = true -> well_formatted d = d).
  { intros d Hn Ee. unfold well_formatted.
    rewrite Ee, app_nil_r, (replace_crlf_id d Hn). apply replace_cr_id. exact Hn. }
  split; [apply P1|]. split; [apply P2|]. split; [apply P3|].
  apply P3; [apply P1|]. destruct (P2 decoded) as (body & ->). apply endswith_nl_app.
Qed.

Lemma well_formatted_witness :
  well_formatted (u8 "-a" ++ NL ++ u8 "+b" ++ NL) = u8 "-a" ++ NL ++ u8 "+b" ++ NL.
Proof.
  destruct (well_formatted_text (u8 "-a" ++ NL ++ u8 "+b" ++ NL)) as (_ & _ & Hid & _).
  apply Hid; [vm_compute; intuition discriminate|vm_compute; reflexivity].
Defined.

(** *** File names *)

Lemma replace_slash_no_slash (s : pystr) : ~ In 47 (replace_slash s).
Proof.
  induction s as [|c s IH]; [intros []|].
  cbn [replace_slash map]. intros [E|Hin]; [|exact (IH Hin)].
  destruct (N.eqb_spec c 47) as [->|Hn]; [discriminate E|]. congruence.
Qed.

Lemma uint_text_no_slash (d : Decimal.uint) : ~ In 47 (u8 (NilEmpty.string_of_uint d)).
Proof.
  unfold u8.
  induction d as [|d IH|d IH|d IH|d IH|d IH|d IH|d IH|d IH|d IH|d IH];
    cbn [NilEmpty.string_of_uint utf8_decode]; [intros []|..];
    (intros [E|Hin]; [vm_compute in E; discriminate E|exact (IH Hin)]).
Qed.

Lemma str_of_int_no_slash (z : Z) : ~ In 47 (str_of_int z).
Proof.
  unfold str_of_int. destruct (Z.to_int z) as [d|d]; cbn [NilEmpty.string_of_int].
  - apply uint_text_no_slash.
  - intros Hin. change (u8 (String "-" (NilEmpty.string_of_uint d)))
      with (45 :: u8 (NilEmpty.string_of_uint d)) in Hin.
    destruct Hin as [E|Hin]; [discriminate E|exact (uint_text_no_slash d Hin)].
Qed.

(** The name of a patch file holds no "/", so that the file lies directly
    in the output directory; the price is that two files of one change whose
    paths differ only in "/" against "_" get the same name, the later patch
    replacing the earlier on disk. *)
Theorem patch_filename_has_no_slash c f :
  ~ In 47 (patch_filename c f)
  /\ (forall output_dir,
        patch_path output_dir (c, f)
        = if negb (truthy output_dir) || startswith [47] (rev output_dir)
          then output_dir ++ patch_filename c f
          else output_dir ++ [47] ++ patch_filename c f)
  /\ (In 47 (path f) ->
      let f' := {| path := replace_slash (path f); patch := patch f;
                   bug_type := bug_type f; bug_desc := bug_desc f;
                   bad_code := bad_code f; good_code := good_code f |} in
      path f' <> path f /\ patch_filename c f' = patch_filename c f).
Proof.
  assert (Hno : ~ In 47 (patch_filename c f)).
  { unfold patch_filename. intros Hin.
    apply in_app_or in Hin. destruct Hin as [Hin|Hin];
      [exact (str_of_int_no_slash _ Hin)|].
    apply in_app_or in Hin. destruct Hin as [Hin|Hin];
      [vm_compute in Hin; intuition discriminate|].
    apply in_app_or in Hin. destruct Hin as [Hin|Hin];
      [exact (replace_slash_no_slash _ Hin)|].
    vm_compute in Hin. intuition discriminate. }
  split; [exact Hno|]. split.
  - intros output_dir. unfold patch_path, os_path_join. cbn [fst snd].
    destruct (patch_filename c f) as [|ch rest] eqn:Ef; [reflexivity|].
    cbn [startswith]. destruct (N.eqb_spec 47 ch) as [<-|_]; [|reflexivity].
    exfalso. apply Hno. left. reflexivity.
  - intros Hin f'. split.
    + cbn [path f']. intros E. apply (replace_slash_no_slash (path f)).
      rewrite E. exact Hin.
    + unfold patch_filename. cbn [path f']. f_equal. f_equal.
      assert (Eid : forall s, replace_slash (replace_slash s) = replace_slash s).
      { intros s. unfold replace_slash. rewrite map_map. apply map_ext.
        intros a. destruct (N.eqb_spec a 47) as [->|Hn]; [reflexivity|].
        destruct (N.eqb_spec a 47); [contradiction|reflexivity]. }
      rewrite Eid. reflexivity.
Qed.

Lemma patch_filename_witness :
  patch_filename sample_bugfix
    {| path := u8 "src_a.c"; patch := sample_patch; bug_type := u8 "逻辑错误";
       bug_desc := u8 "修复了初始值"; bad_code := u8 "int x = 1;";
       good_code := u8 "int x = 2;" |}
  = patch_filename sample_bugfix sample_file.
Proof.
  destruct (patch_filename_has_no_slash sample_bugfix sample_file) as (_ & _ & Hsame).
  destruct (Hsame ltac:(vm_compute; intuition)) as [_ E].
  exact E.
Defined.

End PatchText.
(* ====================================================================== *)
(** ** CorpusBuilder ([gerrit_AI.py]): one-sided patches, and completion *)
(* ====================================================================== *)

Module CorpusEnd.
Import gerrit_AI Corpus CorpusScan CorpusSave.

(** A change that carries the three keys the scan reads. *)
Definition well_formed (c : change) : Prop :=
  ch_id c <> None /\ ch_subject c <> None /\ ch_number c <> None.

Section Properties.

Context {W : Type} `{Oracle W} `{Gerrit W} `{FileSystem W} `{Regex}.

(** A patch that only adds lines (a new file) or only removes lines is
    never classified: the file is reported as an empty-code change, the list
    of accepted files is unchanged and the oracle is not asked. *)
Theorem one_sided_patch_is_dropped self c change_id file_path valuable_files s patch_text w' :
  http_well_formatted_patch change_id file_path (world s) = (Ret patch_text, w') ->
  filter (spec_marked 45) (split 10 patch_text) = []
  \/ filter (spec_marked 43) (split 10 patch_text) = [] ->
  file_step self c change_id file_path valuable_files s
  = (Ret valuable_files,
     {| world := w';
        trace := trace s
                 ++ [EvGerrit (u8 "get_well_formatted_patch") [change_id; file_path];
                     EvPrint (u8 "  ❌ 文件 " ++ file_path
                              ++ u8 " 被识别为低价值变更 (空代码)")] |}).
Proof.
  intros Hf Hside.
  assert (Hc : negb (truthy (strip (_extract_bad_code patch_text)))
               || negb (truthy (strip (_extract_good_code patch_text))) = true).
  { rewrite PatchSplitter.extract_bad_code_spec, PatchSplitter.extract_good_code_spec.
    unfold spec_split_side. destruct Hside as [-> | ->]; cbn [map join].
    - reflexivity.
    - apply orb_true_r. }
  unfold file_step, try_except, get_well_formatted_patch.
  unfold bind at 1. unfold perform. rewrite Hf. rewrite Hc.
  rewrite (bind_run _ _ _ _ _ (print_run _ _)). cbv beta. rewrite ret_run.
  cbn [world trace]. rewrite <- app_assoc. reflexivity.
Qed.

(** Always returning, with a value that satisfies [P]. *)
Definition always {A} (P : A -> Prop) (m : M W A) : Prop :=
  forall s, exists a s', m s = (Ret a, s') /\ P a.

Lemma always_ret {A} (P : A -> Prop) a : P a -> always P (ret a).
Proof. intros Hp s. exists a, s. split; [reflexivity|exact Hp]. Qed.

Lemma always_bind {A B} (P' : A -> Prop) (P : B -> Prop) (m : M W A) (k : A -> M W B) :
  always P' m -> (forall a, P' a -> always P (k a)) -> always P (bind m k).
Proof.
  intros Hm Hk s. destruct (Hm s) as (a & s1 & E1 & Pa).
  destruct (Hk a Pa s1) as (b & s2 & E2 & Pb).
  exists b, s2. split; [|exact Pb]. rewrite (bind_run _ _ _ _ _ E1). exact E2.
Qed.

Lemma always_print (P : unit -> Prop) text : P tt -> always P (print text).
Proof. intros Hp s. eexists; eexists. split; [apply print_run|exact Hp]. Qed.

Lemma always_of_run {A} (P : A -> Prop) (m : M W A) :
  (forall s, exists a s', m s = (Ret a, s')) -> emits (fun _ => True) P m -> always P m.
Proof.
  intros Hrun Hem s. destruct (Hrun s) as (a & s' & E).
  exists a, s'. split; [exact E|]. destruct (Hem s _ _ E) as [_ Hp]. apply Hp. reflexivity.
Qed.

Lemma emits_any {A} (Q : event -> Prop) (P : A -> Prop) (m : M W A) :
  emits Q P m -> emits (fun _ => True) P m.
Proof.
  intros Hm s r s' E. destruct (Hm s r s' E) as [(delta & T & _) Hp].
  split; [|exact Hp]. exists delta. split; [exact T|].
  clear. induction delta; constructor; [exact I|assumption].
Qed.

Lemma files_loop_always self c change_id files : forall valuable_files,
  Forall record_ok valuable_files ->
  always (Forall record_ok) (files_loop self c change_id files valuable_files).
Proof.
  induction files as [|file_path rest IH]; intros vf Hvf; cbn [files_loop].
  - apply always_ret. exact Hvf.
  - apply always_bind with (P' := Forall record_ok).
    + apply always_of_run.
      * intros s. exact (proj1 (file_step_isolates_failures self c change_id file_path vf s)).
      * apply (emits_any scan_event). apply file_step_emits. exact Hvf.
    + intros vf' Hvf'. apply IH. exact Hvf'.
Qed.

(** The gateway answers every file listing. *)
Definition listing_works : Prop :=
  forall change_id w, exists files w', http_change_files change_id w = (Ret files, w').

(** The keyword pattern finds strings, not tuples: it has at most one
    group. *)
Definition finds_strings (kp : pattern) : Prop :=
  forall subject, strings_only (list_set (re_findall kp subject)).

(** A record of the scan whose keywords can be joined. *)
Definition joinable (c : bugfix_change) : Prop :=
  change_ok c /\ keywords_are_strings c = true.

Lemma strings_only_texts items :
  strings_only items -> forall i, exists texts, texts_of i items = inr texts.
Proof.
  induction 1 as [|item rest [text ->] _ IH]; intros i; cbn [texts_of].
  - exists []. reflexivity.
  - destruct (IH (S i)) as (texts & ->). eexists. reflexivity.
Qed.

Lemma change_step_always self kp total i c result :
  finds_strings kp ->
  listing_works -> well_formed c -> Forall joinable result ->
  always (Forall joinable) (change_step self kp total i c result).
Proof.
  intros Hstr Hlist (Hid & Hsub & Hnum) Hres. unfold change_step, getitem.
  destruct (ch_id c) as [id|]; [|contradiction].
  destruct (ch_subject c) as [subject|]; [|contradiction].
  destruct (ch_number c) as [number|]; [|contradiction].
  apply always_bind with (P' := fun _ => True); [apply always_ret; exact I|].
  intros change_id _.
  apply always_bind with (P' := fun _ => True).
  { intros s. unfold get_change_files, perform.
    destruct (Hlist change_id (world s)) as (files & w' & ->). eexists; eexists.
    split; [reflexivity|exact I]. }
  intros files _.
  apply always_bind with (P' := fun _ => True); [apply always_ret; exact I|].
  intros subject' _.
  apply always_bind with (P' := fun _ => True); [apply always_print; exact I|]. intros _ _.
  apply always_bind with (P' := Forall record_ok).
  { apply files_loop_always. constructor. }
  intros vf Hvf. destruct vf as [|f vf'].
  - apply always_ret. exact Hres.
  - apply always_bind with (P' := fun _ => True); [apply always_ret; exact I|].
    intros number' _.
    apply always_ret. apply Forall_app. split; [exact Hres|].
    constructor; [|constructor]. split; [split; [discriminate|exact Hvf]|].
    unfold keywords_are_strings. cbn [matched_keywords].
    destruct (strings_only_texts _ (Hstr (get_subject c)) 0%nat) as (texts & ->).
    reflexivity.
Qed.

Lemma changes_loop_always self kp total changes : forall i result,
  finds_strings kp ->
  listing_works -> Forall well_formed changes -> Forall joinable result ->
  always (Forall joinable) (changes_loop self kp total i changes result).
Proof.
  induction changes as [|c rest IH]; intros i result Hstr Hlist Hwf Hres;
    cbn [changes_loop].
  - apply always_ret. exact Hres.
  - inversion Hwf as [|? ? Hc Hrest]; subst.
    apply always_bind with (P' := Forall joinable).
    + apply change_step_always; assumption.
    + intros result' Hres'. apply IH; assumption.
Qed.

(** The run completes.  When the keywords of the run (the five default
    ones when none are given) compile to a pattern that finds strings, the
    gateway answers every request with well-formed changes and file lists,
    and the output directory and the dataset file can be written,
    [download_bugfix_patches] returns normally, whatever the oracle does,
    whichever patch fetches fail and however many patch writes fail. *)
Theorem download_completes self project_name output_dir bug_keywords max_retries kp :
  re_compile_ignorecase
    (join (u8 "|")
       match bug_keywords with
       | None => [u8 "Bug"; u8 "BUG"; u8 "bug"; u8 "错误"; u8 "修复"]
       | Some ks => ks
       end) = inr kp ->
  finds_strings kp ->
  (forall p w, exists changes w',
      http_project_changes p w = (Ret changes, w') /\ Forall well_formed changes) ->
  listing_works ->
  (forall p w, exists w', os_makedirs p w = (Ret tt, w')) ->
  (forall p h rows w, exists w', open_write_csv p h rows w = (Ret tt, w')) ->
  forall s,
  exists s',
    download_bugfix_patches self project_name output_dir bug_keywords max_retries s
    = (Ret tt, s').
Proof.
  intros Hre Hstr Hchanges Hlist Hmk Hcsv s.
  assert (Hall : always (fun _ => True)
                   (download_bugfix_patches self project_name output_dir bug_keywords
                      max_retries)).
  { unfold download_bugfix_patches.
    apply always_bind with (P' := fun _ => True).
    { intros s0. unfold perform. destruct (Hmk output_dir (world s0)) as (w' & ->).
      eexists; eexists. split; [reflexivity|exact I]. }
    intros _ _.
    apply always_bind with (P' := fun _ => True); [apply always_print; exact I|]. intros _ _.
    apply always_bind with (P' := fun _ => True); [apply always_print; exact I|]. intros _ _.
    apply always_bind with (P' := Forall well_formed).
    { intros s0. unfold get_project_changes, perform.
      destruct (Hchanges project_name (world s0)) as (changes & w' & -> & Hwf).
      eexists; eexists. split; [reflexivity|exact Hwf]. }
    intros changes Hwf.
    apply always_bind with (P' := Forall joinable).
    { unfold filter_bug_fixes. rewrite Hre.
      apply always_bind with (P' := fun _ => True); [apply always_print; exact I|].
      intros _ _. apply changes_loop_always; [exact Hstr|exact Hlist| |constructor].
      clear - Hwf. induction Hwf as [|c l Hc Hl IH]; cbn [filter]; [constructor|].
      destruct (re_search kp (get_subject c)); [constructor; assumption|exact IH]. }
    intros bugfix_changes Hjoin.
    apply always_bind with (P' := fun _ => True); [apply always_print; exact I|]. intros _ _.
    apply always_bind with
      (P' := fun csv => exists saved, csv = map (fun cf => csv_row (fst cf) (snd cf)) saved).
    { intros s0.
      destruct (save_changes_facts max_retries output_dir bugfix_changes [] s0)
        as (saved & delta & s1 & E & _).
      assert (Hk : Forall (fun c => keywords_are_strings c = true) bugfix_changes).
      { eapply Forall_impl; [|exact Hjoin]. intros c [_ Hc]. exact Hc. }
      destruct (printable_all _ Hk) as [_ Eo]. rewrite Eo in E.
      eexists; exists s1. split; [exact E|]. exists saved. reflexivity. }
    intros csv (saved & ->).
    apply always_bind with (P' := fun _ => True).
    { intros s0. destruct saved as [|cf saved'].
      - exists tt, s0. split; [reflexivity|exact I].
      - rewrite save_csv_rows by discriminate. cbv zeta.
        match goal with |- context [open_write_csv ?p ?h ?rows ?w] =>
          destruct (Hcsv p h rows w) as (w' & ->) end.
        eexists; eexists. split; [reflexivity|exact I]. }
    intros _ _ s0. eexists; eexists. split; [apply print_run|exact I]. }
  destruct (Hall s) as ([] & s' & E & _). exists s'. exact E.
Qed.

End Properties.

(** *** Concrete runs *)

Lemma one_sided_patch_witness :
  exists s',
    file_step sample_client sample_change (u8 "demo~main~I42") (u8 "src/new.c") []
      (start NewFileWorld)
    = (Ret [], s')
    /\ chat_requests (trace s') = [].
Proof.
  eexists. split.
  - apply (one_sided_patch_is_dropped sample_client sample_change (u8 "demo~main~I42")
             (u8 "src/new.c") [] (start NewFileWorld) new_file_patch NewFileWorld).
    + reflexivity.
    + left. vm_compute. reflexivity.
  - reflexivity.
Defined.

Lemma download_completes_witness :
  exists s',
    download_bugfix_patches sample_client (u8 "demo") (u8 "out") None 3
      (start {| oracle_script := [yes_reply]; disk_failures := 5;
                patch_fetch_fails := false |})
    = (Ret tt, s').
Proof.
  apply (download_completes sample_client (u8 "demo") (u8 "out") None 3
           (tt : @pattern sim_regex)).
  - reflexivity.
  - intros subject. cbn [list_set re_findall sim_regex].
    destruct (contains (u8 "bug") subject); repeat constructor. eexists. reflexivity.
  - intros p w. exists [sample_change], w. split; [reflexivity|].
    constructor; [|constructor]. repeat split; discriminate.
  - intros id w. eexists; eexists. reflexivity.
  - intros p w. eexists. reflexivity.
  - intros p h rows w. eexists. reflexivity.
Defined.

End CorpusEnd.
(* ====================================================================== *)
(** ** Manifest parser ([utils/menifest_paeser.py]) *)
(* ====================================================================== *)

Module Manifest.
Import menifest_paeser.

Section Properties.

Variable repr : option pystr -> pystr.

Lemma projects_loop_run self remotes dname drev ps : forall acc out,
  projects_loop repr self remotes dname drev ps acc = Ret out ->
  exists new,
    out = acc ++ new /\ Forall2 (describes self remotes dname drev) ps new.
Proof.
  induction ps as [|p rest IH]; intros acc out E; cbn [projects_loop] in E.
  - injection E as <-. exists []. rewrite app_nil_r. split; [reflexivity|constructor].
  - unfold remotes_getitem in E.
    destruct (remotes_get remotes
                (match get p "remote" with Some r => Some r | None => dname end))
      as [address|] eqn:Er; [|discriminate].
    destruct (IH _ _ E) as (new & -> & F).
    eexists (_ :: new). rewrite <- app_assoc. split; [reflexivity|].
    constructor; [|exact F].
    unfold describes. cbn [field trinityProjectId branch target].
    repeat split. exists address. split; [exact Er|reflexivity].
Qed.

Lemma projects_loop_ok self remotes dname drev ps : forall acc,
  Forall (fun p => remotes_get remotes (remote_key dname p) <> None) ps ->
  exists out, projects_loop repr self remotes dname drev ps acc = Ret out.
Proof.
  induction ps as [|p rest IH]; intros acc Hall; cbn [projects_loop].
  - exists acc. reflexivity.
  - inversion Hall as [|? ? Hp Hrest]; subst. unfold remotes_getitem.
    unfold remote_key in Hp.
    destruct (remotes_get remotes
                (match get p "remote" with Some r => Some r | None => dname end))
      as [address|]; [|contradiction].
    apply IH. exact Hrest.
Qed.

Lemma projects_loop_key_error self remotes dname drev ps : forall acc,
  Exists (fun p => remotes_get remotes (remote_key dname p) = None) ps ->
  exists key,
    projects_loop repr self remotes dname drev ps acc
    = Raise (Exception (u8 "KeyError") (repr key))
    /\ remotes_get remotes key = None.
Proof.
  induction ps as [|p rest IH]; intros acc Hex; [inversion Hex|].
  cbn [projects_loop]. unfold remotes_getitem.
  destruct (remotes_get remotes
              (match get p "remote" with Some r => Some r | None => dname end))
    as [address|] eqn:Er.
  - apply IH. inversion Hex as [? ? Hp|? ? Hrest]; subst; [|exact Hrest].
    unfold remote_key in Hp. congruence.
  - eexists. split; [reflexivity|exact Er].
Qed.

(** When [run] returns, it returns one descriptor for every project
    element of the manifest, in document order.  The branch of a descriptor
    is the project's revision, or the default's when the project has none;
    the address in its target is that of the project's remote, or of the
    default's remote when the project names none; but the branch written in
    the target is the project's own revision as formatted, which is the
    text "None" when the project has none. *)
Theorem run_describes_every_project self root projects :
  run repr self root = Ret projects ->
  exists manifest others d more,
    iter (u8 "manifest") root = manifest :: others
    /\ iter (u8 "default") manifest = d :: more
    /\ Forall2 (describes self (remotes_of manifest) (get d "remote") (get d "revision"))
               (iter (u8 "project") manifest) projects
    /\ List.length projects = List.length (iter (u8 "project") manifest).
Proof.
  unfold run. intros E.
  destruct (iter (u8 "manifest") root) as [|manifest others]; [discriminate|].
  destruct (iter (u8 "default") manifest) as [|d more] eqn:Ed; [discriminate|].
  destruct (projects_loop_run _ _ _ _ _ _ _ E) as (new & -> & F).
  exists manifest, others, d, more. cbn [app].
  split; [reflexivity|]. split; [exact Ed|]. split; [exact F|].
  symmetry. exact (Forall2_length F).
Qed.

Lemma Forall2_nth {A B} (R : A -> B -> Prop) l l' i x :
  Forall2 R l l' -> nth_error l i = Some x ->
  exists y, nth_error l' i = Some y /\ R x y.
Proof.
  intros F. revert i. induction F as [|a b l l' Hab F IH]; intros i Hi.
  - destruct i; discriminate.
  - destruct i as [|i]; cbn [nth_error] in *.
    + injection Hi as <-. exists b. split; [reflexivity|exact Hab].
    + apply IH. exact Hi.
Qed.

(** The revision is inherited by the branch but not by the target: for a
    project element without a revision attribute the descriptor's branch is
    the default's revision, while its target ends with " -b None". *)
Theorem target_does_not_inherit_revision self root projects manifest others d more i p :
  run repr self root = Ret projects ->
  iter (u8 "manifest") root = manifest :: others ->
  iter (u8 "default") manifest = d :: more ->
  nth_error (iter (u8 "project") manifest) i = Some p ->
  get p "revision" = None ->
  exists desc before,
    nth_error projects i = Some desc
    /\ branch desc = get d "revision"
    /\ target desc = before ++ u8 " -b None".
Proof.
  intros E Em Ed Hp Hrev.
  destruct (run_describes_every_project self root projects E)
    as (manifest' & others' & d' & more' & Em' & Ed' & F & _).
  rewrite Em in Em'. injection Em' as <- <-.
  rewrite Ed in Ed'. injection Ed' as <- <-.
  destruct (Forall2_nth _ _ _ _ _ F Hp) as (desc & Hn & _ & _ & Hb & address & _ & Ht).
  rewrite Hrev in Hb, Ht. cbn [format_opt] in Ht.
  exists desc.
  exists (format_opt address ++ u8 "/"
          ++ match get p "name" with Some n => n | None => [] end).
  split; [exact Hn|]. split; [exact Hb|].
  rewrite Ht. repeat rewrite <- app_assoc.
  change (u8 " -b " ++ u8 "None") with (u8 " -b None"). reflexivity.
Qed.

(** [run] returns exactly when the document has a manifest element, the
    manifest has a default element, and every project refers (by its own
    remote attribute, or else by the default's) to a declared remote.
    Without a manifest or a default element it raises [IndexError]; with an
    undeclared remote it raises [KeyError] and returns no descriptor at
    all. *)
Theorem run_succeeds_iff self root :
  ((exists projects, run repr self root = Ret projects) <->
   (exists manifest others d more,
      iter (u8 "manifest") root = manifest :: others
      /\ iter (u8 "default") manifest = d :: more
      /\ Forall (fun p =>
                   remotes_get (remotes_of manifest) (remote_key (get d "remote") p) <> None)
                (iter (u8 "project") manifest)))
  /\ (iter (u8 "manifest") root = [] ->
      run repr self root
      = Raise (Exception (u8 "IndexError") (u8 "list index out of range")))
  /\ (forall manifest others,
        iter (u8 "manifest") root = manifest :: others ->
        iter (u8 "default") manifest = [] ->
        run repr self root
        = Raise (Exception (u8 "IndexError") (u8 "list index out of range")))
  /\ (forall manifest others d more,
        iter (u8 "manifest") root = manifest :: others ->
        iter (u8 "default") manifest = d :: more ->
        Exists (fun p =>
                  remotes_get (remotes_of manifest) (remote_key (get d "remote") p) = None)
               (iter (u8 "project") manifest) ->
        exists key,
          run repr self root = Raise (Exception (u8 "KeyError") (repr key))
          /\ remotes_get (remotes_of manifest) key = None).
Proof.
  split; [split|split; [|split]].
  - intros (projects & E).
    destruct (run_describes_every_project self root projects E)
      as (manifest & others & d & more & Em & Ed & F & _).
    exists manifest, others, d, more. split; [exact Em|]. split; [exact Ed|].
    clear - F. induction F as [|p desc ps descs Hd F IH]; constructor; [|exact IH].
    destruct Hd as (_ & _ & _ & address & Ha & _). unfold remote_key. congruence.
  - intros (manifest & others & d & more & Em & Ed & Hall).
    unfold run. rewrite Em, Ed.
    apply (projects_loop_ok self _ _ _ _ [] Hall).
  - intros Em. unfold run. rewrite Em. reflexivity.
  - intros manifest others Em Ed. unfold run. rewrite Em, Ed. reflexivity.
  - intros manifest others d more Em Ed Hex. unfold run. rewrite Em, Ed.
    apply (projects_loop_key_error self _ _ _ _ [] Hex).
Qed.

End Properties.

(** Among the remote elements of one name, the last one in document order
    gives the address: later declarations override earlier ones. *)
Theorem last_remote_declaration_wins (before after : list element) r key :
  get r "name" = key ->
  Forall (fun r' => get r' "name" <> key) after ->
  remotes_get
    (fold_left (fun remotes _rObj => (get _rObj "name", get _rObj "fetch") :: remotes)
               (before ++ r :: after) [])
    key
  = Some (get r "fetch").
Proof.
  intros Hk Hafter. rewrite fold_left_app. cbn [fold_left].
  generalize (fold_left
                (fun remotes _rObj => (get _rObj "name", get _rObj "fetch") :: remotes)
                before []) as acc0.
  intros acc0.
  assert (Hkey : forall a b, key_eqb a b = true <-> a = b).
  { intros [a|] [b|]; cbn [key_eqb]; split; intros E; try discriminate; try reflexivity.
    - apply str_eqb_eq in E. congruence.
    - apply str_eqb_eq. congruence. }
  assert (Hgen : forall acc,
             remotes_get acc key = Some (get r "fetch") ->
             remotes_get
               (fold_left
                  (fun remotes _rObj => (get _rObj "name", get _rObj "fetch") :: remotes)
                  after acc) key = Some (get r "fetch")).
  { induction Hafter as [|r' after' Hr' Hafter' IH]; intros acc Hacc; cbn [fold_left];
      [exact Hacc|].
    apply IH. cbn [remotes_get].
    destruct (key_eqb (get r' "name") key) eqn:Ek; [|exact Hacc].
    apply Hkey in Ek. contradiction. }
  apply Hgen. cbn [remotes_get].
  destruct (key_eqb (get r "name") key) eqn:Ek; [reflexivity|].
  assert (Et : key_eqb (get r "name") key = true) by (apply Hkey; exact Hk).
  congruence.
Qed.

(** *** Concrete runs *)

Lemma run_describes_witness :
  exists projects,
    run sample_repr {| projectId := Some (u8 "7") |} sample_manifest = Ret projects
    /\ List.length projects = 2%nat.
Proof.
  eexists. split; [vm_compute; reflexivity|].
  destruct (run_describes_every_project sample_repr {| projectId := Some (u8 "7") |}
              sample_manifest _ ltac:(vm_compute; reflexivity))
    as (manifest & others & d & more & Em & _ & _ & Hlen).
  reflexivity.
Defined.

Lemma target_revision_witness :
  exists desc before,
    nth_error
      (match run sample_repr {| projectId := None |} sample_manifest with
       | Ret projects => projects
       | Raise _ => []
       end) 0 = Some desc
    /\ branch desc = Some (u8 "main")
    /\ target desc = before ++ u8 " -b None".
Proof.
  destruct (target_does_not_inherit_revision sample_repr {| projectId := None |}
              sample_manifest _ sample_manifest []
              (Element (u8 "default") [(u8 "remote", u8 "aosp"); (u8 "revision", u8 "main")] [])
              [] 0 (Element (u8 "project") [(u8 "name", u8 "platform/build")] [])
              ltac:(vm_compute; reflexivity) ltac:(vm_compute; reflexivity)
              ltac:(vm_compute; reflexivity) ltac:(vm_compute; reflexivity)
              ltac:(vm_compute; reflexivity))
    as (desc & before & Hn & Hb & Ht).
  exists desc, before. split; [|split].
  - rewrite <- Hn. vm_compute. reflexivity.
  - rewrite Hb. vm_compute. reflexivity.
  - exact Ht.
Defined.

Lemma run_succeeds_witness :
  run sample_repr {| projectId := None |}
    (Element (u8 "manifest") [] [Element (u8 "project") [(u8 "name", u8 "p")] []])
  = Raise (Exception (u8 "IndexError") (u8 "list index out of range")).
Proof.
  destruct (run_succeeds_iff sample_repr {| projectId := None |}
              (Element (u8 "manifest") []
                 [Element (u8 "project") [(u8 "name", u8 "p")] []]))
    as (_ & _ & Hnodefault & _).
  eapply Hnodefault; vm_compute; reflexivity.
Defined.

Lemma last_remote_witness :
  remotes_get
    (fold_left (fun remotes _rObj => (get _rObj "name", get _rObj "fetch") :: remotes)
       ([Element (u8 "remote") [(u8 "name", u8 "aosp"); (u8 "fetch", u8 "https://old")] []]
        ++ Element (u8 "remote") [(u8 "name", u8 "aosp"); (u8 "fetch", u8 "https://new")] []
        :: [Element (u8 "remote") [(u8 "name", u8 "vendor"); (u8 "fetch", u8 "https://v")] []])
       [])
    (Some (u8 "aosp"))
  = Some (Some (u8 "https://new")).
Proof.
  rewrite (last_remote_declaration_wins _ _ _ (Some (u8 "aosp"))).
  - vm_compute. reflexivity.
  - vm_compute. reflexivity.
  - constructor; [vm_compute; discriminate|constructor].
Defined.

End Manifest.
(* ====================================================================== *)
(** ** The corpus builder and the manifest parser against the specification *)
(* ====================================================================== *)

Module CorpusSpec.
Import gerrit_AI Corpus CorpusScan CorpusSave CorpusRun.

Section Properties.

Context {W : Type} `{Oracle W} `{Gerrit W} `{FileSystem W} `{Regex}.

(** A classification request for a patch with two non-blank halves. *)
Definition two_sided_request (req : chat_request) : Prop :=
  exists m patch_text subject,
    req = analyze_request m patch_text subject
    /\ nonblank (_extract_bad_code patch_text)
    /\ nonblank (_extract_good_code patch_text).

(** A record with both halves: they are the splitter's output for the
    record's patch, and neither is blank nor empty. *)
Definition both_halves (f : file_record) : Prop :=
  bad_code f = _extract_bad_code (patch f)
  /\ good_code f = _extract_good_code (patch f)
  /\ nonblank (bad_code f) /\ nonblank (good_code f)
  /\ bad_code f <> [] /\ good_code f <> [].

Lemma scan_requests delta :
  Forall scan_event delta -> Forall two_sided_request (chat_requests delta).
Proof.
  induction 1 as [|ev delta Hev F IH]; [constructor|].
  destruct ev; cbn [scan_event] in Hev; try contradiction; cbn [chat_requests];
    try exact IH.
  constructor; [exact Hev|exact IH].
Qed.

Lemma run_datasets delta :
  Forall run_event delta ->
  Forall (fun d => snd (fst d) = csv_fieldnames /\ Forall row_ok (snd d)) (datasets delta).
Proof.
  induction 1 as [|ev delta Hev F IH]; [constructor|].
  destruct ev; cbn [run_event] in Hev; cbn [datasets]; try exact IH.
  constructor; [exact Hev|exact IH].
Qed.

(** C1: no record with an empty half.  A file whose extracted before-code
    or after-code is blank (empty after stripping white space) is skipped
    before the oracle is asked: the iteration returns the accepted files
    unchanged and sends no request.  So every oracle request of a scan is
    for a patch with two non-blank halves, every record a scan returns has
    both halves non-blank, hence non-empty, and every row of a dataset a run
    writes has non-blank [bad_code] and [good_code] cells. *)
Theorem no_record_with_an_empty_half self :
  (forall c change_id file_path valuable_files s patch_text w',
     http_well_formatted_patch change_id file_path (world s) = (Ret patch_text, w') ->
     truthy (strip (_extract_bad_code patch_text)) = false
     \/ truthy (strip (_extract_good_code patch_text)) = false ->
     exists s',
       file_step self c change_id file_path valuable_files s = (Ret valuable_files, s')
       /\ requests_between s s' [])
  /\ (forall changes bug_keywords s r s',
        filter_bug_fixes self changes bug_keywords s = (r, s') ->
        (exists delta,
           trace s' = trace s ++ delta
           /\ Forall two_sided_request (chat_requests delta))
        /\ forall result,
             r = Ret result ->
             Forall (fun cf => both_halves (snd cf)) (accepted result))
  /\ (forall project_name output_dir bug_keywords max_retries s r s',
        download_bugfix_patches self project_name output_dir bug_keywords max_retries s
        = (r, s') ->
        exists delta,
          trace s' = trace s ++ delta
          /\ Forall (fun d => snd (fst d) = csv_fieldnames /\ Forall row_ok (snd d))
                    (datasets delta)).
Proof.
  split; [|split].
  - intros c change_id file_path valuable_files s patch_text w' Hf Hblank.
    assert (Hc : negb (truthy (strip (_extract_bad_code patch_text)))
                 || negb (truthy (strip (_extract_good_code patch_text))) = true).
    { destruct Hblank as [-> | ->]; [reflexivity|apply orb_true_r]. }
    unfold file_step, try_except, get_well_formatted_patch.
    unfold bind at 1. unfold perform. rewrite Hf. rewrite Hc.
    rewrite (bind_run _ _ _ _ _ (print_run _ _)). cbv beta. rewrite ret_run.
    eexists. split; [reflexivity|].
    unfold requests_between. cbn [world trace]. rewrite <- app_assoc.
    rewrite chat_requests_app. cbn [chat_requests app]. reflexivity.
  - intros changes bug_keywords s r s' E.
    destruct (filter_bug_fixes_emits self changes bug_keywords s _ _ E)
      as [(delta & T & F) Hp].
    split.
    + exists delta. split; [exact T|apply scan_requests; exact F].
    + intros result ->. specialize (Hp result eq_refl).
      unfold accepted. apply Forall_flat_map.
      eapply Forall_impl; [|exact Hp]. intros bc [_ Hfiles].
      apply Forall_map. eapply Forall_impl; [|exact Hfiles].
      intros f (Eb & Eg & Hb & Hg). cbn [snd]. unfold both_halves.
      repeat split; try assumption; apply nonblank_nonempty; assumption.
  - intros project_name output_dir bug_keywords max_retries s r s' E.
    destruct (download_emits self project_name output_dir bug_keywords max_retries s r s' E)
      as [(delta & T & F) _].
    exists delta. split; [exact T|apply run_datasets; exact F].
Qed.

(** C6: the classifier never raises.  Whatever fails (the request raises,
    the completion carries no choice or a null content, the configuration
    names no model) the result is exactly [(False, "", "")]; and with a
    reply text, a field whose marker does not occur in it is the empty
    string. *)
Theorem bug_classifier_never_raises self diff subject s :
  let run := _analyze_bug_with_ai self diff subject s in
  (exists r s1, run = (Ret r, s1))
  /\ (forall m e,
        config_model_name self = Some m ->
        ask (analyze_request m diff subject) s = Raise e ->
        exists s1, run = (Ret (false, [], []), s1))
  /\ (forall m,
        config_model_name self = Some m ->
        reply_of (ask (analyze_request m diff subject) s) = None ->
        exists s1, run = (Ret (false, [], []), s1))
  /\ (config_model_name self = None -> exists s1, run = (Ret (false, [], []), s1))
  /\ (forall m content,
        diff <> [] ->
        config_model_name self = Some m ->
        reply_of (ask (analyze_request m diff subject) s) = Some content ->
        exists is_bug bug_type bug_desc s1,
          run = (Ret (is_bug, bug_type, bug_desc), s1)
          /\ is_bug = contains TAG_JUDGE_YES (strip content)
          /\ (contains TAG_TYPE (strip content) = false -> bug_type = [])
          /\ (contains TAG_DESC (strip content) = false -> bug_desc = [])).
Proof.
  intros run. unfold run.
  destruct (BugClassifier.analyze_run self diff subject s) as (s1 & E & _).
  assert (Hnone : forall m,
             config_model_name self = Some m ->
             reply_of (ask (analyze_request m diff subject) s) = None ->
             exists s1, _analyze_bug_with_ai self diff subject s = (Ret (false, [], []), s1)).
  { intros m Hm Hr. exists s1. rewrite E.
    unfold BugClassifier.answer_of, BugClassifier.request_of.
    rewrite Hm, Hr. destruct (truthy diff); reflexivity. }
  split; [eexists; exists s1; exact E|].
  split; [|split; [exact Hnone|split]].
  - intros m e Hm He. apply (Hnone m Hm). rewrite He. reflexivity.
  - intros Hm. exists s1. rewrite E.
    unfold BugClassifier.answer_of, BugClassifier.request_of.
    rewrite Hm. destruct (truthy diff); reflexivity.
  - intros m content Hd Hm Hr.
    unfold BugClassifier.answer_of, BugClassifier.request_of in E. rewrite Hm, Hr in E.
    destruct diff as [|c diff]; [contradiction|]. cbn [truthy] in E.
    unfold parse_answer in E.
    eexists; eexists; eexists; exists s1. split; [exact E|].
    split; [reflexivity|]. split.
    + intros Hc. rewrite (BugClassifier.re_search_after_absent _ _ Hc). reflexivity.
    + intros Hc. rewrite (BugClassifier.re_search_after_absent _ _ Hc). reflexivity.
Qed.

(** C7, as the code has it: the dataset holds the rows of the accepted
    records whose patch was saved, not of every accepted record.  For
    changes whose matched keywords are strings, the saving stage returns the
    rows of the accepted files whose write succeeded, in the order of the
    scan; the dataset file is then written once, with the header
    bad_code, good_code, bug_type, bug_analysis, file_path, change_id,
    change_number, change_subject and one row per saved file; when no patch
    was saved no dataset file is written, whatever was accepted; and on a
    disk where every write succeeds, with a positive [max_retries], the rows
    are those of every accepted record. *)
Theorem dataset_rows_are_the_saved_records max_retries output_dir bugfix_changes s :
  Forall (fun c => keywords_are_strings c = true) bugfix_changes ->
  exists saved s1 delta,
    save_changes max_retries output_dir bugfix_changes [] s
    = (Ret (map (fun cf => csv_row (fst cf) (snd cf)) saved), s1)
    /\ trace s1 = trace s ++ delta
    /\ subseq saved (accepted bugfix_changes)
    /\ saved_writes delta = map (write_of output_dir) saved
    /\ datasets delta = []
    /\ (forall r s2,
          save_csv output_dir (map (fun cf => csv_row (fst cf) (snd cf)) saved) s1
          = (r, s2) ->
          exists delta2,
            trace s2 = trace s1 ++ delta2
            /\ datasets delta2
               = match saved with
                 | [] => []
                 | _ :: _ =>
                     [(os_path_join output_dir (u8 "bugfix_analysis.csv"),
                       [u8 "bad_code"; u8 "good_code"; u8 "bug_type"; u8 "bug_analysis";
                        u8 "file_path"; u8 "change_id"; u8 "change_number";
                        u8 "change_subject"],
                       map row_cells saved)]
                 end)
    /\ ((0 < max_retries)%Z ->
        (forall p d w, exists w', open_write p d w = (Ret tt, w')) ->
        map (fun cf => csv_row (fst cf) (snd cf)) saved
        = map (fun cf => csv_row (fst cf) (snd cf)) (accepted bugfix_changes)).
Proof.
  intros Hall.
  destruct (save_changes_facts max_retries output_dir bugfix_changes [] s)
    as (saved & delta & s1 & E & T & [Sub Sw _ _ _ D _]).
  destruct (printable_all _ Hall) as [Ep Eo]. rewrite Eo in E. cbn [app] in E.
  exists saved, s1, delta.
  split; [exact E|]. split; [exact T|].
  split; [exact (subseq_trans _ _ _ Sub (accepted_printable bugfix_changes))|].
  split; [exact Sw|]. split; [exact D|]. split.
  - intros r s2 Ecsv. destruct saved as [|cf saved'].
    + cbn [map save_csv] in Ecsv. injection Ecsv as <- <-.
      exists []. rewrite app_nil_r. split; reflexivity.
    + rewrite save_csv_rows in Ecsv by discriminate.
      destruct (open_write_csv _ _ _ (world s1)) as [[[]|e] w2];
        injection Ecsv as <- <-; eexists; (split; [reflexivity|]); reflexivity.
  - intros Hpos Hdisk.
    destruct (save_changes_on_working_disk max_retries output_dir bugfix_changes Hpos Hdisk
                [] s) as (s' & delta' & _ & _ & _ & _ & Hret).
    destruct (Hret Hall) as [_ E']. cbn [app] in E'. rewrite E in E'.
    injection E' as E' _. exact E'.
Qed.

(** C8: the write of one accepted file is tried at most [max_retries]
    times; every failed try is followed by a report with its number and the
    maximum; and when the tries made have all failed the loop ends with the
    final report, adds no row and does not raise.  The loops over the files
    of a change and over the changes do not raise on a failed write either:
    every accepted file gets its tries, whatever happened to the files
    before it. *)
Theorem write_retry_gives_up_without_raising max_retries output_dir c :
  (forall f csv_data s,
     let filename := patch_filename c f in
     let file_path := os_path_join output_dir filename in
     exists errs csv_data' s',
       save_patch (Z.to_nat max_retries) max_retries 0 output_dir c f csv_data s
       = (Ret csv_data', s')
       /\ (List.length errs <= Z.to_nat max_retries)%nat
       /\ ((csv_data' = csv_data ++ [csv_row c f]
            /\ (List.length errs < Z.to_nat max_retries)%nat
            /\ trace s' = trace s
                          ++ failure_log max_retries 0 file_path (patch f) filename errs
                          ++ [EvOpenWrite file_path (patch f) None;
                              EvPrint (saved_text filename)])
           \/
           (csv_data' = csv_data
            /\ List.length errs = Z.to_nat max_retries
            /\ trace s' = trace s
                          ++ failure_log max_retries 0 file_path (patch f) filename errs
            /\ (errs <> [] ->
                exists before,
                  failure_log max_retries 0 file_path (patch f) filename errs
                  = before ++ [EvPrint (give_up_text filename)])))
       /\ write_attempts (failure_log max_retries 0 file_path (patch f) filename errs)
          = map (fun e => (file_path, patch f, Some e)) errs)
  /\ (forall fs csv_data s,
        exists csv_data' s' delta segments,
          save_files max_retries output_dir c fs csv_data s = (Ret csv_data', s')
          /\ trace s' = trace s ++ delta
          /\ write_attempts delta = List.concat segments
          /\ Forall2 (file_attempts max_retries output_dir) (map (fun f => (c, f)) fs)
               segments
          /\ Forall2 (file_bound max_retries output_dir) (map (fun f => (c, f)) fs)
               segments)
  /\ (forall bugfix_changes csv_data s,
        Forall (fun c => keywords_are_strings c = true) bugfix_changes ->
        exists csv_data' s' delta segments,
          save_changes max_retries output_dir bugfix_changes csv_data s
          = (Ret csv_data', s')
          /\ trace s' = trace s ++ delta
          /\ write_attempts delta = List.concat segments
          /\ Forall2 (file_attempts max_retries output_dir) (accepted bugfix_changes)
               segments
          /\ Forall2 (file_bound max_retries output_dir) (accepted bugfix_changes)
               segments).
Proof.
  split; [|split].
  - intros f csv_data s filename file_path.
    destruct (save_patch_run (Z.to_nat max_retries) max_retries 0 output_dir c f csv_data s
                ltac:(lia)) as (errs & s' & Hcase).
    cbv zeta in Hcase. fold filename file_path in Hcase.
    pose proof (failure_log_facts max_retries file_path (patch f) filename errs 0%Z)
      as (Hw & _).
    destruct Hcase as [(E & T & L)|(E & T & L)].
    + exists errs, (csv_data ++ [csv_row c f]), s'. split; [exact E|].
      split; [lia|]. split; [|exact Hw].
      left. split; [reflexivity|]. split; [lia|exact T].
    + exists errs, csv_data, s'. split; [exact E|].
      split; [lia|]. split; [|exact Hw].
      right. split; [reflexivity|]. split; [lia|]. split; [exact T|].
      intros Hne. apply failure_log_ends_with_give_up; [exact Hne|].
      destruct errs; [contradiction|]. cbn [List.length] in L |- *. lia.
  - intros fs csv_data s.
    destruct (save_files_facts max_retries output_dir c fs csv_data s)
      as (saved & delta & s' & E & T & [_ _ (segments & A & G) _ _ _ _]).
    eexists; exists s', delta, segments.
    split; [exact E|]. split; [exact T|]. split; [exact A|]. split; [exact G|].
    eapply Forall2_impl; [|exact G]. intros cf seg. apply file_attempts_bound.
  - intros bugfix_changes csv_data s Hall.
    destruct (save_changes_facts max_retries output_dir bugfix_changes csv_data s)
      as (saved & delta & s' & E & T & [_ _ (segments & A & G) _ _ _ _]).
    destruct (printable_all _ Hall) as [Ep Eo]. rewrite Eo in E. rewrite Ep in G.
    eexists; exists s', delta, segments.
    split; [exact E|]. split; [exact T|]. split; [exact A|]. split; [exact G|].
    eapply Forall2_impl; [|exact G]. intros cf seg. apply file_attempts_bound.
Qed.

End Properties.

(** *** Concrete runs *)

(** The disk of the world whose only patch adds a new file. *)
#[local] Instance new_file_disk : FileSystem new_file_world := {
  os_makedirs _ w := (Ret tt, w);
  open_write _ _ w := (Ret tt, w);
  open_write_csv _ _ _ w := (Ret tt, w);
  os_path_abspath p _ := u8 "/work/" ++ p
}.

Lemma no_record_with_an_empty_half_witness :
  exists s',
    file_step sample_client sample_change (u8 "demo~main~I42") (u8 "src/new.c")
      [sample_file] (start NewFileWorld)
    = (Ret [sample_file], s')
    /\ requests_between (start NewFileWorld) s' [].
Proof.
  destruct (no_record_with_an_empty_half (W := new_file_world) sample_client) as (Hskip & _).
  apply (Hskip sample_change (u8 "demo~main~I42") (u8 "src/new.c") [sample_file]
           (start NewFileWorld) new_file_patch NewFileWorld).
  - reflexivity.
  - left. vm_compute. reflexivity.
Defined.

Lemma bug_classifier_witness :
  exists s1,
    _analyze_bug_with_ai sample_client sample_patch (u8 "Fix bug")
      (start [Raise connection_error])
    = (Ret (false, [], []), s1).
Proof.
  destruct (bug_classifier_never_raises sample_client sample_patch (u8 "Fix bug")
              (start [Raise connection_error])) as (_ & Hraise & _).
  apply (Hraise (u8 "qwen-plus") connection_error); reflexivity.
Defined.

(** A run whose scan accepts a record while the disk is full. *)
Definition scan_on_full_disk : state sim :=
  start {| oracle_script := [yes_reply]; disk_failures := 5; patch_fetch_fails := false |}.

(** The scan accepts one record; every write of its patch fails; the run
    returns and writes no dataset file: the accepted record has no row. *)
Lemma accepted_record_without_a_row :
  exists s1 s2,
    filter_bug_fixes sample_client [sample_change] [u8 "bug"] scan_on_full_disk
    = (Ret [sample_bugfix], s1)
    /\ download_bugfix_patches sample_client (u8 "demo") (u8 "out") (Some [u8 "bug"]) 3
         scan_on_full_disk = (Ret tt, s2)
    /\ List.length (write_attempts (trace s2)) = 3%nat
    /\ saved_writes (trace s2) = []
    /\ datasets (trace s2) = [].
Proof.
  eexists. eexists. split; [vm_compute; reflexivity|].
  split; [vm_compute; reflexivity|].
  split; [vm_compute; reflexivity|]. split; vm_compute; reflexivity.
Qed.

Lemma dataset_rows_witness :
  exists s1,
    save_changes (W := good_disk) 3 (u8 "out") [sample_bugfix] [] (start [])
    = (Ret [csv_row sample_bugfix sample_file], s1).
Proof.
  assert (Hall : Forall (fun c => keywords_are_strings c = true) [sample_bugfix])
    by (constructor; [reflexivity|constructor]).
  destruct (dataset_rows_are_the_saved_records (W := good_disk) 3 (u8 "out")
              [sample_bugfix] (start []) Hall)
    as (saved & s1 & delta & E & _ & _ & _ & _ & _ & Hdisk).
  exists s1. rewrite E. f_equal. f_equal.
  apply Hdisk; [lia|]. intros p d w. eexists. reflexivity.
Defined.

Lemma write_retry_witness :
  exists s',
    save_patch 3 3 0 (u8 "out") sample_bugfix sample_file [] scan_on_full_disk
    = (Ret [], s')
    /\ List.length (write_attempts (trace s')) = 3%nat.
Proof.
  destruct (write_retry_gives_up_without_raising (W := sim) 3 (u8 "out") sample_bugfix)
    as (Hfile & _ & _).
  destruct (Hfile sample_file [] scan_on_full_disk)
    as (errs & csv' & s' & E & _ & Hcase & Hw).
  cbv zeta in Hcase, Hw. change (Z.to_nat 3) with 3%nat in E, Hcase.
  exists s'. destruct Hcase as [(-> & _ & T)|(-> & L & T & _)].
  - exfalso. vm_compute in E. discriminate E.
  - split; [exact E|].
    rewrite T. cbn [scan_on_full_disk start trace app]. rewrite Hw, length_map. exact L.
Defined.

End CorpusSpec.

Module ManifestSpec.
Import menifest_paeser.

(** C9: the branch of a descriptor inherits the default's revision, its
    target does not.  For a project element without a revision attribute
    the descriptor's branch is the default's revision while the branch
    written in its target is the text "None": whenever the default has a
    revision other than that text, the target differs from the one that
    names the inherited branch.  The remote is inherited by both. *)
Theorem target_branch_is_not_inherited repr self root projects manifest others d more
    i p revision :
  run repr self root = Ret projects ->
  iter (u8 "manifest") root = manifest :: others ->
  iter (u8 "default") manifest = d :: more ->
  nth_error (iter (u8 "project") manifest) i = Some p ->
  get p "revision" = None ->
  get d "revision" = Some revision ->
  revision <> u8 "None" ->
  exists desc address,
    nth_error projects i = Some desc
    /\ remotes_get (remotes_of manifest) (remote_key (get d "remote") p) = Some address
    /\ branch desc = Some revision
    /\ let prefix := format_opt address ++ u8 "/"
                     ++ match get p "name" with Some n => n | None => [] end ++ u8 " -b " in
       target desc = prefix ++ u8 "None"
       /\ target desc <> prefix ++ revision.
Proof.
  intros E Em Ed Hp Hrev Hd Hne.
  unfold run in E. rewrite Em, Ed in E.
  destruct (Manifest.projects_loop_run repr _ _ _ _ _ _ _ E) as (new & -> & F).
  cbn [app].
  destruct (Manifest.Forall2_nth _ _ _ _ _ F Hp)
    as (desc & Hn & _ & _ & Hb & address & Ha & Ht).
  rewrite Hrev in Hb, Ht. cbn [format_opt] in Ht.
  exists desc, address. split; [exact Hn|]. split; [exact Ha|].
  split; [rewrite Hb; exact Hd|]. cbv zeta.
  assert (Et : target desc
               = (format_opt address ++ u8 "/"
                  ++ match get p "name" with Some n => n | None => [] end ++ u8 " -b ")
                 ++ u8 "None").
  { rewrite Ht. repeat rewrite <- app_assoc. reflexivity. }
  split; [exact Et|].
  rewrite Et. intros Eq. apply app_inv_head in Eq. apply Hne. symmetry. exact Eq.
Qed.

Lemma target_branch_witness :
  exists desc,
    run sample_repr {| projectId := None |} sample_manifest
    = Ret (desc :: match run sample_repr {| projectId := None |} sample_manifest with
                   | Ret projects => tl projects
                   | Raise _ => []
                   end)
    /\ branch desc = Some (u8 "main")
    /\ target desc = u8 "https://a.example/platform/build -b None".
Proof.
  destruct (target_branch_is_not_inherited sample_repr {| projectId := None |}
              sample_manifest
              (match run sample_repr {| projectId := None |} sample_manifest with
               | Ret projects => projects
               | Raise _ => []
               end)
              sample_manifest []
              (Element (u8 "default") [(u8 "remote", u8 "aosp"); (u8 "revision", u8 "main")] [])
              [] 0 (Element (u8 "project") [(u8 "name", u8 "platform/build")] [])
              (u8 "main")
              ltac:(vm_compute; reflexivity) ltac:(vm_compute; reflexivity)
              ltac:(vm_compute; reflexivity) ltac:(vm_compute; reflexivity)
              ltac:(vm_compute; reflexivity) ltac:(vm_compute; reflexivity)
              ltac:(vm_compute; discriminate))
    as (desc & address & Hn & Ha & Hb & Ht & _).
  exists desc. split; [|split; [exact Hb|]].
  - revert Hn. vm_compute. intros Hn. injection Hn as <-. reflexivity.
  - rewrite Ht. revert Ha. vm_compute. intros Ha. injection Ha as <-. reflexivity.
Defined.

End ManifestSpec.
